(** * IsItClear: the text-analysis orchestration layer

  A shallow embedding of the JavaScript sources
  [src/lib/models/text-content.js], [src/lib/models/clarity-improvement.js],
  [src/lib/services/ai-service.js] and [src/lib/services/text-analyzer.js],
  with the properties of the specification proved (or refuted) over it.

  Conventions of the embedding.
  - A JS string is a [string]: a sequence of 8-bit code units, read as the
    Latin-1 range of JS's UTF-16 code units.
  - A JS exception is [Throw msg], [msg] being the [message] of the [Error].
  - A JS number that the code uses as a count, a position or a duration in
    milliseconds is a [Z]. A confidence score is a rational [Q] that stands
    for the double nearest to it, which is how the code's decimal literals
    are read ([7 # 10] is the double [0.7]). The sums of the confidence
    heuristic are IEEE 754 double sums ([Double.add]), so [0.7 + 0.1] is
    the double [0.7999999999999999] and not [8 # 10]. A quotient of two
    counts is compared with a literal as rationals, which is what the
    doubles give for the counts of any text a JS string can hold.
  - A method that mutates its receiver is a function from the receiver to
    an outcome and the receiver afterwards.
  - An asynchronous method runs to its end before the next call starts:
    calls are not interleaved, and the clean-up timers of the sessions do
    not fire while a call runs. *)

From Stdlib Require Import ZArith QArith Qminmax Lqa String Ascii DecimalString List Bool Lia.
From Stdlib Require PrimFloat FloatOps SpecFloat Uint63.
From stdpp Require Import base option list gmap strings sets.
Import ListNotations.

Local Open Scope string_scope.
Local Open Scope Z_scope.

(** ** JavaScript primitives used by the sources *)

Module JS.

(** The outcome of an evaluation: a value or a thrown [Error]. *)
Inductive result (A : Type) : Type :=
| Return (a : A)
| Throw (message : string).
Arguments Return {A} a.
Arguments Throw {A} message.

Definition bind {A B} (r : result A) (k : A -> result B) : result B :=
  match r with
  | Return a => k a
  | Throw m => Throw m
  end.

Definition isReturn {A} (r : result A) : bool :=
  match r with Return _ => true | Throw _ => false end.

(** [\s] of a regular expression, and the characters [trim] removes: in
    the Latin-1 range these are TAB, LF, VT, FF, CR, SPACE and NBSP. *)
Definition isWhiteSpace (c : ascii) : bool :=
  let n := N_of_ascii c in
  ((9 <=? n) && (n <=? 13) || (n =? 32) || (n =? 160))%N.

(** [String.prototype.toLowerCase], one code unit at a time: A-Z and the
    accented capitals U+00C0..U+00DE except the multiplication sign. *)
Definition lowerChar (c : ascii) : ascii :=
  let n := N_of_ascii c in
  if ((65 <=? n) && (n <=? 90)
      || (192 <=? n) && (n <=? 222) && negb (n =? 215))%N
  then ascii_of_N (n + 32) else c.

Fixpoint toLowerCase (s : string) : string :=
  match s with
  | EmptyString => EmptyString
  | String c s' => String (lowerChar c) (toLowerCase s')
  end.

Fixpoint trimStart (s : string) : string :=
  match s with
  | EmptyString => EmptyString
  | String c s' => if isWhiteSpace c then trimStart s' else s
  end.

Fixpoint trimEnd (s : string) : string :=
  match s with
  | EmptyString => EmptyString
  | String c s' =>
      match trimEnd s' with
      | EmptyString => if isWhiteSpace c then EmptyString else String c EmptyString
      | r => String c r
      end
  end.

Definition trim (s : string) : string := trimEnd (trimStart s).

(** [s.split(/\s+/)]: the fields between the maximal runs of white space.
    A run at either end leaves an empty field there, and the empty string
    splits into one empty field. *)
Fixpoint split_ws (s : string) : list string :=
  match s with
  | EmptyString => [EmptyString]
  | String c s' =>
      let r := split_ws s' in
      if isWhiteSpace c then
        match s' with
        | String d _ => if isWhiteSpace d then r else EmptyString :: r
        | EmptyString => EmptyString :: r
        end
      else
        match r with
        | t :: ts => String c t :: ts
        | [] => [String c EmptyString]
        end
  end.

(** [s.includes(sub)] *)
Fixpoint includes (sub s : string) : bool :=
  String.prefix sub s ||
  match s with
  | EmptyString => false
  | String _ s' => includes sub s'
  end.

(** [s.length] as a number *)
Definition len (s : string) : Z := Z.of_nat (String.length s).

(** [!s] for a string [s]: only the empty string is falsy. *)
Definition falsy (s : string) : bool :=
  match s with EmptyString => true | _ => false end.

(** [xs.includes(x)] for an array of strings *)
Definition elem (x : string) (xs : list string) : bool :=
  existsb (String.eqb x) xs.

(** [s.length > n ? s.substring(0, k) + '...' : s] *)
Definition ellipsis (n k : nat) (s : string) : string :=
  if (n <? String.length s)%nat then String.substring 0 k s ++ "..." else s.

End JS.

Export JS(result, Return, Throw).

(** ** IEEE 754 doubles

    The arithmetic of JS numbers, by the binary64 floats of the kernel. A
    rational stands for the double nearest to it. *)

Module Double.

(** The double of an integer up to 2^53 *)
Definition of_Z (n : Z) : PrimFloat.float := PrimFloat.of_uint63 (Uint63.of_Z n).

(** The double nearest to a rational whose numerator and denominator are
    at most 2^53: the quotient of two doubles is rounded once. *)
Definition of_Q (q : Q) : PrimFloat.float :=
  let quotient := PrimFloat.div (of_Z (Z.abs (Qnum q))) (of_Z (Zpos (Qden q))) in
  if Qnum q <? 0 then PrimFloat.opp quotient else quotient.

(** The rational value of a finite double *)
Definition to_Q (x : PrimFloat.float) : Q :=
  match FloatOps.Prim2SF x with
  | SpecFloat.S754_finite negative mantissa exponent =>
      let magnitude := Qred (inject_Z (Zpos mantissa) * Qpower 2 exponent) in
      if negative then Qopp magnitude else magnitude
  | _ => 0%Q
  end.

(** [a + b] *)
Definition add (a b : Q) : Q := to_Q (PrimFloat.add (of_Q a) (of_Q b)).

End Double.

#[export] Instance result_ret : MRet result := fun A a => Return a.
#[export] Instance result_bind : MBind result := fun A B k r => JS.bind r k.

(** [if (cond) throw new Error(msg)] *)
Definition throw_if (cond : bool) (msg : string) : result unit :=
  if cond then Throw msg else Return tt.

(** ** Computations: an outcome and the state afterwards

    A computation over a mutable state [S] returns a value or throws, and
    leaves a state. An [await] is sequencing: one call runs to its end
    before the next. *)

Definition SR (S A : Type) : Type := S -> result A * S.

Definition ret {S A} (a : A) : SR S A := fun w => (Return a, w).
Definition throw {S A} (msg : string) : SR S A := fun w => (Throw msg, w).

Definition bind {S A B} (c : SR S A) (k : A -> SR S B) : SR S B :=
  fun w =>
    match c w with
    | (Return a, w') => k a w'
    | (Throw m, w') => (Throw m, w')
    end.

(** [try { body } catch (error) { handler(error.message) }]: what the body
    did to the state before it threw stays done. *)
Definition try_catch {S A} (body : SR S A) (handler : string -> SR S A) : SR S A :=
  fun w =>
    match body w with
    | (Return a, w') => (Return a, w')
    | (Throw m, w') => handler m w'
    end.

Definition lift {S A} (r : result A) : SR S A := fun w => (r, w).

Declare Scope world_scope.
Delimit Scope world_scope with world.
Notation "'let*' x := c 'in' k" := (bind c (fun x => k))
  (at level 10, x name, c at level 100, k at level 200) : world_scope.
Notation "c >> k" := (bind c (fun _ => k))
  (at level 100, k at level 200, right associativity) : world_scope.

Local Open Scope world_scope.

(** ** [text-content.js]: the text sample and its life cycle *)

Module TextContent.

Record t : Type := mk {
  originalText : string;
  fieldType : string;
  fieldContext : string;
  timestamp : Z;
  wordCount : Z;
  state : string
}.

Definition set_state (st : string) (tc : t) : t :=
  mk (originalText tc) (fieldType tc) (fieldContext tc)
     (timestamp tc) (wordCount tc) st.

(** [_calculateWordCount] *)
Definition _calculateWordCount (text : string) : Z :=
  if JS.falsy text then 0
  else Z.of_nat (length (List.filter (fun w => (0 <? String.length w)%nat)
                                (JS.split_ws (JS.trim text)))).

Definition validFieldTypes : list string :=
  ["input"; "textarea"; "contenteditable"].

(** [_validate]. The first check of the source, [originalText is required],
    is for a missing value: it lets every string pass. *)
Definition _validate (tc : t) : result unit :=
  (throw_if (JS.len (originalText tc) =? 0)
     "originalText must not be empty (minimum 1 character)" ;;
   throw_if (5000 <? JS.len (originalText tc))
     "originalText maximum length is 5000 characters (based on AI model limits)" ;;
   throw_if (negb (JS.elem (fieldType tc) validFieldTypes))
     "fieldType must be one of the three supported types: input, textarea, contenteditable" ;;
   throw_if (JS.falsy (fieldContext tc))
     "fieldContext must be a valid CSS selector" ;;
   throw_if (JS.len (JS.trim (fieldContext tc)) =? 0)
     "fieldContext must be a valid CSS selector").

(** [new TextContent(originalText, fieldType, fieldContext)], at time [now] *)
Definition new (text fType fContext : string) (now : Z) : result t :=
  let tc := mk text fType fContext now (_calculateWordCount text) "Created" in
  (_validate tc ;; Return tc).

(** The state transition methods: the outcome and the sample afterwards. *)
Definition setAnalyzing : SR t unit := fun tc =>
  if negb (state tc =? "Created")%string
  then (Throw ("Cannot transition to Analyzing from " ++ state tc), tc)
  else (Return tt, set_state "Analyzing" tc).

Definition setAnalyzed : SR t unit := fun tc =>
  if negb (state tc =? "Analyzing")%string
  then (Throw ("Cannot transition to Analyzed from " ++ state tc), tc)
  else (Return tt, set_state "Analyzed" tc).

Definition setAccepted : SR t unit := fun tc =>
  if negb (state tc =? "Analyzed")%string
  then (Throw ("Cannot transition to Accepted from " ++ state tc), tc)
  else (Return tt, set_state "Accepted" tc).

Definition setRejected : SR t unit := fun tc =>
  if negb (state tc =? "Analyzed")%string
  then (Throw ("Cannot transition to Rejected from " ++ state tc), tc)
  else (Return tt, set_state "Rejected" tc).

Definition isEmpty (tc : t) : bool :=
  JS.len (JS.trim (originalText tc)) =? 0.

Definition isShort (tc : t) : bool := wordCount tc <? 3.
Definition isLong (tc : t) : bool := 200 <? wordCount tc.

(** [toJSON]: the plain object has the six properties of the sample, so it
    is a record of the same type; the ISO form of the time stamp is kept as
    the time stamp. *)
Definition toJSON (tc : t) : t := tc.

(** [fromJSON(data)], at time [now]: the constructor validates the text and
    the field, then the stored time stamp, word count and state are put
    back as they are. *)
Definition fromJSON (data : t) (now : Z) : result t :=
  textContent ← new (originalText data) (fieldType data) (fieldContext data) now;
  Return (mk (originalText textContent) (fieldType textContent) (fieldContext textContent)
             (timestamp data) (wordCount data) (state data)).

(** The four transition methods, by name. *)
Inductive method : Type := SetAnalyzing | SetAnalyzed | SetAccepted | SetRejected.

Definition call (m : method) : SR t unit :=
  match m with
  | SetAnalyzing => setAnalyzing
  | SetAnalyzed => setAnalyzed
  | SetAccepted => setAccepted
  | SetRejected => setRejected
  end.

(** The life cycle of the specification, as edges between the values of
    [state]: created -> analyzing -> analyzed -> accepted | rejected. *)
Definition lifecycle : list (string * method * string) :=
  [ ("Created", SetAnalyzing, "Analyzing");
    ("Analyzing", SetAnalyzed, "Analyzed");
    ("Analyzed", SetAccepted, "Accepted");
    ("Analyzed", SetRejected, "Rejected") ].

(** The state that a method checks for, and the state that it sets. *)
Definition source (m : method) : string :=
  match m with
  | SetAnalyzing => "Created"
  | SetAnalyzed => "Analyzing"
  | SetAccepted => "Analyzed"
  | SetRejected => "Analyzed"
  end.

Definition target (m : method) : string :=
  match m with
  | SetAnalyzing => "Analyzing"
  | SetAnalyzed => "Analyzed"
  | SetAccepted => "Accepted"
  | SetRejected => "Rejected"
  end.

End TextContent.

(** ** Parameter objects and [JSON.stringify]

    A parameter object ([{ tone, length, format }] and the like) is the list
    of its own properties in insertion order, which is the order in which
    JS enumerates property names that are not array indices; the values of
    the properties are strings. *)

Module Params.

Definition t : Type := list (string * string).

(** [p.k]: [None] stands for [undefined]. *)
Fixpoint get (k : string) (p : t) : option string :=
  match p with
  | [] => None
  | (k', v) :: p' => if (k' =? k)%string then Some v else get k p'
  end.

(** Truthiness of [p.k] *)
Definition truthy (o : option string) : bool :=
  match o with
  | Some v => negb (JS.falsy v)
  | None => false
  end.

(** [p.k || d] *)
Definition get_or (k d : string) (p : t) : string :=
  match get k p with
  | Some v => if JS.falsy v then d else v
  | None => d
  end.

(** The object as a finite map from property names to values. *)
Definition to_map (p : t) : gmap string string := list_to_map p.

(** A property name written with digits only. The names that are array
    indices are among these; an object lists them first, in ascending
    order, whatever the order in which they were set. *)
Definition isDigit (c : ascii) : bool :=
  let n := N_of_ascii c in ((48 <=? n) && (n <=? 57))%N.

Fixpoint allDigits (k : string) : bool :=
  match k with
  | EmptyString => true
  | String c k' => isDigit c && allDigits k'
  end.

Definition numeric (k : string) : bool := negb (JS.falsy k) && allDigits k.

(** The list is an object with its properties in the order of the list,
    which is then the order of [JSON.stringify] and of [for ... in]: no
    name occurs twice and none is written with digits only. *)
Fixpoint plain (p : t) : bool :=
  match p with
  | [] => true
  | (k, _) :: p' => negb (numeric k) && negb (JS.elem k (map fst p')) && plain p'
  end.

Definition dquote : ascii := ascii_of_N 34.
Definition backslash : ascii := ascii_of_N 92.

Definition hexDigit (n : N) : ascii :=
  if (n <? 10)%N then ascii_of_N (48 + n) else ascii_of_N (87 + n).

(** One code unit of [QuoteJSONString] *)
Definition escapeChar (c : ascii) : string :=
  let n := N_of_ascii c in
  if (n =? 34)%N then String backslash (String dquote EmptyString)
  else if (n =? 92)%N then String backslash (String backslash EmptyString)
  else if (n =? 8)%N then String backslash "b"
  else if (n =? 9)%N then String backslash "t"
  else if (n =? 10)%N then String backslash "n"
  else if (n =? 12)%N then String backslash "f"
  else if (n =? 13)%N then String backslash "r"
  else if (n <? 32)%N then
    String backslash ("u00" ++ String (hexDigit (n / 16)) (String (hexDigit (n mod 16)) EmptyString))
  else String c EmptyString.

Fixpoint escape (s : string) : string :=
  match s with
  | EmptyString => EmptyString
  | String c s' => escapeChar c ++ escape s'
  end.

Definition quoteJSON (s : string) : string :=
  String dquote (escape s ++ String dquote EmptyString).

Definition property (kv : string * string) : string :=
  quoteJSON (fst kv) ++ ":" ++ quoteJSON (snd kv).

(** [JSON.stringify(p)] *)
Definition stringify (p : t) : string :=
  "{" ++ String.concat "," (map property p) ++ "}".

End Params.

(** ** The host: the two on-device backends, the clock and the random source

    [Rewriter] and [Prompt] are globals of the browser. Whether each is
    defined, what [create] and the session's [rewrite] or [prompt] answer
    (a value or an exception, possibly depending on every interaction so
    far), what the clock reads and what [Math.random] draws are inputs of
    the model. *)

Module Host.

Inductive api : Type := Rewriter | Prompt.

Definition name (a : api) : string :=
  match a with Rewriter => "rewriter" | Prompt => "prompt" end.

Definition other (a : api) : api :=
  match a with Rewriter => Prompt | Prompt => Rewriter end.


(** The session object that a backend hands out. *)
Definition handle : Type := nat.

(** What the program does to the host, in order. *)
Inductive event : Type :=
| Typeof (a : api)
| Create (a : api) (parameters : Params.t)
| Run (a : api) (session : handle) (input : string) (options : Params.t)
| Console (message : string).

Record env : Type := mkEnv {
  defined : api -> bool;
  create : api -> list event -> Params.t -> result handle;
  run : api -> list event -> handle -> string -> Params.t -> result string;
  now : nat -> Z;
  random : nat -> string
}.

(** The clock readings and random draws taken so far, and the interactions. *)
Record state : Type := mkState {
  ticks : nat;
  draws : nat;
  log : list event
}.

Definition is_backend_event (e : event) : bool :=
  match e with Console _ => false | _ => true end.



(** [Date.now()], [new Date()] *)
Definition dateNow (env : env) : SR state Z :=
  fun h => (Return (now env (ticks h)), mkState (S (ticks h)) (draws h) (log h)).

(** [Math.random().toString(36).substring(2)] *)
Definition mathRandom (env : env) : SR state string :=
  fun h => (Return (random env (draws h)), mkState (ticks h) (S (draws h)) (log h)).

Definition emit (e : event) : SR state unit :=
  fun h => (Return tt, mkState (ticks h) (draws h) (log h ++ [e])).

(** [typeof Rewriter !== 'undefined'], [typeof Prompt !== 'undefined'] *)
Definition typeofDefined (env : env) (a : api) : SR state bool :=
  emit (Typeof a) >> ret (defined env a).

(** [await Rewriter.create(p)], [await Prompt.create(p)] *)
Definition callCreate (env : env) (a : api) (p : Params.t) : SR state handle :=
  fun h => (create env a (log h) p, mkState (ticks h) (draws h) (log h ++ [Create a p])).

(** [await session.rewrite(text, options)], [await session.prompt(prompt)] *)
Definition callRun (env : env) (a : api) (s : handle) (input : string)
    (options : Params.t) : SR state string :=
  fun h => (run env a (log h) s input options,
            mkState (ticks h) (draws h) (log h ++ [Run a s input options])).

End Host.

(** ** [clarity-improvement.js]: change records and improvement results *)

Module ChangeDetail.

Record t : Type := mk {
  changeType : string;
  originalPhrase : string;
  improvedPhrase : string;
  reason : string;
  startPosition : Z;
  endPosition : Z
}.

Definition validChangeTypes : list string :=
  ["word-choice"; "sentence-structure"; "clarity"; "conciseness"].

(** [_validate] *)
Definition _validate (c : t) : result unit :=
  throw_if (negb (JS.elem (changeType c) validChangeTypes))
    ("Invalid change type: " ++ changeType c ++ ". Must be one of: "
     ++ String.concat ", " validChangeTypes) ;;
  throw_if (JS.falsy (originalPhrase c))
    "originalPhrase is required and must be a string" ;;
  throw_if (JS.falsy (improvedPhrase c))
    "improvedPhrase is required and must be a string" ;;
  throw_if (originalPhrase c =? improvedPhrase c)%string
    "originalPhrase and improvedPhrase must not be identical" ;;
  throw_if (JS.falsy (reason c))
    "reason is required and must be a string" ;;
  throw_if (startPosition c <? 0)
    "startPosition must be a non-negative number" ;;
  throw_if (endPosition c <? 0)
    "endPosition must be a non-negative number" ;;
  throw_if (endPosition c <=? startPosition c)
    "startPosition must be less than endPosition".

(** [new ChangeDetail(...)] *)
Definition new (cType orig impr why : string) (startPos endPos : Z) : result t :=
  let c := mk cType orig impr why startPos endPos in
  _validate c ;; Return c.

(** The plain object that [toJSON] returns has the same six properties, so
    a plain change object is a record of the same type, not yet validated. *)
Definition toJSON (c : t) : t := c.

(** [new ChangeDetail(change.changeType, ..., change.endPosition)] for a
    plain object [change]. *)
Definition ofPlain (change : t) : result t :=
  new (changeType change) (originalPhrase change) (improvedPhrase change)
      (reason change) (startPosition change) (endPosition change).

(** [fromJSON(data)] *)
Definition fromJSON (data : t) : result t :=
  new (changeType data) (originalPhrase data) (improvedPhrase data)
      (reason data) (startPosition data) (endPosition data).

End ChangeDetail.

(** The response of [AIService.analyzeText]: [{ success: true, ... }] or
    [{ success: false, error: { code, message } }]. *)
Module AIResponse.

Record analysis : Type := mkAnalysis {
  improvedText : string;
  confidenceScore : Q;
  processingTime : Z;
  apiUsed : string;
  changes : list ChangeDetail.t
}.

Inductive t : Type :=
| Success (a : analysis)
| Failure (code message : string).

Definition success (r : t) : bool :=
  match r with Success _ => true | Failure _ _ => false end.

(** [result.apiUsed = api] *)
Definition set_apiUsed (api : string) (a : analysis) : analysis :=
  mkAnalysis (improvedText a) (confidenceScore a) (processingTime a) api (changes a).

End AIResponse.

(** [a < b] on numbers that are rationals *)
Definition Qltb (a b : Q) : bool := negb (Qle_bool b a).

Module ClarityImprovement.

Record t : Type := mk {
  improvedText : string;
  improvementType : string;
  confidenceScore : Q;
  changes : list ChangeDetail.t;
  processingTime : Z;
  apiParameters : Params.t;
  timestamp : Z
}.

Definition validImprovementTypes : list string := ["rewriter"; "prompt"].

(** [_validate]. The checks on the types of the fields hold by typing; every
    element of [changes] is a validated [ChangeDetail] by construction. *)
Definition _validate (ci : t) : result unit :=
  throw_if (JS.falsy (improvedText ci))
    "improvedText is required and must not be empty" ;;
  throw_if (negb (JS.elem (improvementType ci) validImprovementTypes))
    ("improvementType must be one of: " ++ String.concat ", " validImprovementTypes) ;;
  throw_if (Qltb (confidenceScore ci) 0 || Qltb 1 (confidenceScore ci))
    "confidenceScore must be a number between 0 and 1" ;;
  throw_if (Nat.eqb (length (changes ci)) 0)
    "changes array must contain at least one change" ;;
  throw_if (processingTime ci <=? 0)
    "processingTime must be a positive number".

(** [new ClarityImprovement(...)], at time [now] *)
Definition new (text iType : string) (confidence : Q)
    (chs : list ChangeDetail.t) (time : Z) (params : Params.t) (now : Z) : result t :=
  let ci := mk text iType confidence chs time params now in
  _validate ci ;; Return ci.

(** [xs.map(f)] for an [f] that may throw: the first exception ends the loop. *)
Fixpoint mapM {A B} (f : A -> result B) (xs : list A) : result (list B) :=
  match xs with
  | [] => Return []
  | x :: xs' => y ← f x; ys ← mapM f xs'; Return (y :: ys)
  end.

(** [createFromAIResponse(aiResponse, originalText)]: the constructor reads
    the clock once the change details are built. The responses of the AI
    service carry neither [improvementType] nor [apiParameters]. *)
Definition createFromAIResponse (env : Host.env) (aiResponse : AIResponse.t)
    (originalText : string) : SR Host.state t :=
  match aiResponse with
  | AIResponse.Failure _ _ => throw "Invalid AI response"
  | AIResponse.Success a =>
      let* chs :=
        lift match AIResponse.changes a with
             | [] =>
                 c ← ChangeDetail.new "clarity" originalText (AIResponse.improvedText a)
                       "Overall clarity improvement" 0 (JS.len originalText);
                 Return [c]
             | changes => mapM ChangeDetail.ofPlain changes
             end in
      let* now := Host.dateNow env in
      lift (new (AIResponse.improvedText a)
              (if JS.falsy (AIResponse.apiUsed a) then "rewriter" else AIResponse.apiUsed a)
              (if Qeq_bool (AIResponse.confidenceScore a) 0 then 7 # 10
               else AIResponse.confidenceScore a)
              chs
              (AIResponse.processingTime a)
              [] now)
  end.

Definition isHighConfidence (ci : t) : bool := Qle_bool (8 # 10) (confidenceScore ci).
Definition isMediumConfidence (ci : t) : bool :=
  Qle_bool (6 # 10) (confidenceScore ci) && Qltb (confidenceScore ci) (8 # 10).
Definition isLowConfidence (ci : t) : bool := Qltb (confidenceScore ci) (6 # 10).

(** [isQuickProcessing]: under 500 ms *)
Definition isQuickProcessing (ci : t) : bool := processingTime ci <? 500.

(** [hasSignificantChanges] *)
Definition hasSignificantChanges (ci : t) : bool :=
  existsb (fun change =>
             (ChangeDetail.changeType change =? "sentence-structure")%string
             || (ChangeDetail.changeType change =? "clarity")%string)
          (changes ci).

(** [getWordCountReduction(originalText)] *)
Definition getWordCountReduction (ci : t) (originalText : string) : Z :=
  if JS.falsy originalText then 0
  else
    let originalWords := Z.of_nat (length (JS.split_ws (JS.trim originalText))) in
    let improvedWords := Z.of_nat (length (JS.split_ws (JS.trim (improvedText ci)))) in
    originalWords - improvedWords.

(** [getChangesByType(changeType)] *)
Definition getChangesByType (cType : string) (ci : t) : list ChangeDetail.t :=
  List.filter (fun change => (ChangeDetail.changeType change =? cType)%string) (changes ci).

(** The reducer of [getMostSignificantChange]: the longer original phrase
    wins, the earlier one on a tie. *)
Definition longer (longest current : ChangeDetail.t) : ChangeDetail.t :=
  if (String.length (ChangeDetail.originalPhrase longest)
      <? String.length (ChangeDetail.originalPhrase current))%nat
  then current else longest.

Definition priorityOrder : list string :=
  ["sentence-structure"; "clarity"; "word-choice"; "conciseness"].

(** The loop of [getMostSignificantChange] over the types that are left:
    [changes.reduce(...)] on the first type that has a change. *)
Fixpoint firstByPriority (types : list string) (ci : t) : option ChangeDetail.t :=
  match types with
  | [] => None
  | type :: rest =>
      match getChangesByType type ci with
      | c :: cs => Some (fold_left longer cs c)
      | [] => firstByPriority rest ci
      end
  end.

(** [getMostSignificantChange]: [None] is [null]. *)
Definition getMostSignificantChange (ci : t) : option ChangeDetail.t :=
  match changes ci with
  | [] => None
  | first :: _ =>
      match firstByPriority priorityOrder ci with
      | Some c => Some c
      | None => Some first
      end
  end.

(** [toJSON]: a plain object with the seven properties, the changes as
    plain objects. *)
Definition toJSON (ci : t) : t :=
  mk (improvedText ci) (improvementType ci) (confidenceScore ci)
     (map ChangeDetail.toJSON (changes ci)) (processingTime ci) (apiParameters ci)
     (timestamp ci).

(** [fromJSON(data)], at time [now] *)
Definition fromJSON (data : t) (now : Z) : result t :=
  chs ← mapM ChangeDetail.fromJSON (changes data);
  improvement ← new (improvedText data) (improvementType data) (confidenceScore data)
                    chs (processingTime data) (apiParameters data) now;
  Return (mk (improvedText improvement) (improvementType improvement)
             (confidenceScore improvement) (changes improvement)
             (processingTime improvement) (apiParameters improvement)
             (timestamp data)).

(** [isValidImprovementType], [isValidChangeType] *)
Definition isValidImprovementType (type : string) : bool :=
  JS.elem type ["rewriter"; "prompt"].
Definition isValidChangeType (type : string) : bool :=
  JS.elem type ["word-choice"; "sentence-structure"; "clarity"; "conciseness"].

End ClarityImprovement.

(** ** The program state: the two singleton services *)

(** A value of the [sessions] map of the AI service. *)
Record SessionData : Type := mkSessionData {
  session : Host.handle;
  apiType : string;
  parameters : Params.t;
  createdAt : Z;
  lastUsed : Z
}.

(** An element of the [analysisHistory] array of the text analyzer. *)
Record HistoryEntry : Type := mkHistoryEntry {
  entry_originalText : string;
  entry_clarityImprovement : ClarityImprovement.t;
  entry_timestamp : Z;
  entry_id : string
}.

(** The fields of the [AIService] instance. [sessions] is a JS [Map]: its
    entries in insertion order, with pairwise different keys. [timers] are
    the session ids with a pending clean-up timer. *)
Record AIServiceState : Type := mkAIService {
  sessions : list (string * SessionData);
  fallbackEnabled : bool;
  maxRetries : Z;
  sessionTimeout : Z;
  timers : list string
}.

(** The fields of the [TextAnalyzer] instance. *)
Record TextAnalyzerState : Type := mkTextAnalyzer {
  analysisHistory : list HistoryEntry;
  maxHistorySize : nat
}.

Record World : Type := mkWorld {
  host : Host.state;
  ai : AIServiceState;
  ta : TextAnalyzerState
}.

Definition set_host (h : Host.state) (w : World) : World := mkWorld h (ai w) (ta w).
Definition set_ai (a : AIServiceState) (w : World) : World := mkWorld (host w) a (ta w).
Definition set_ta (t : TextAnalyzerState) (w : World) : World := mkWorld (host w) (ai w) t.

Definition set_sessions (m : list (string * SessionData)) (a : AIServiceState) : AIServiceState :=
  mkAIService m (fallbackEnabled a) (maxRetries a) (sessionTimeout a) (timers a).
Definition set_timers (t : list string) (a : AIServiceState) : AIServiceState :=
  mkAIService (sessions a) (fallbackEnabled a) (maxRetries a) (sessionTimeout a) t.
Definition set_lastUsed (t : Z) (d : SessionData) : SessionData :=
  mkSessionData (session d) (apiType d) (parameters d) (createdAt d) t.
Definition set_analysisHistory (h : list HistoryEntry) (t : TextAnalyzerState) : TextAnalyzerState :=
  mkTextAnalyzer h (maxHistorySize t).

(** [new AIService()] and [new TextAnalyzer()] in a fresh page. *)
Definition initial : World :=
  mkWorld (Host.mkState 0 0 [])
          (mkAIService [] true 3 300000 [])
          (mkTextAnalyzer [] 10).

(** *** Computations of the program *)

Definition M (A : Type) : Type := SR World A.

(** A computation of the host, run in the world. *)
Definition onHost {A} (c : SR Host.state A) : M A :=
  fun w => let (r, h) := c (host w) in (r, set_host h w).

Definition dateNow (env : Host.env) : M Z := onHost (Host.dateNow env).
Definition mathRandom (env : Host.env) : M string := onHost (Host.mathRandom env).
Definition emit (e : Host.event) : M unit := onHost (Host.emit e).
Definition typeofDefined (env : Host.env) (a : Host.api) : M bool :=
  onHost (Host.typeofDefined env a).
Definition hostCreate (env : Host.env) (a : Host.api) (p : Params.t) : M Host.handle :=
  onHost (Host.callCreate env a p).
Definition hostRun (env : Host.env) (a : Host.api) (s : Host.handle)
    (input : string) (options : Params.t) : M string :=
  onHost (Host.callRun env a s input options).

(** Reading and writing the fields of the two services *)
Definition getAI : M AIServiceState := fun w => (Return (ai w), w).

(** [this.sessions] is changed by [f]; a timer is added or removed by [f]. *)
Definition modifySessions (f : list (string * SessionData) -> list (string * SessionData))
    : M unit :=
  fun w => (Return tt, set_ai (set_sessions (f (sessions (ai w))) (ai w)) w).
Definition modifyTimers (f : list string -> list string) : M unit :=
  fun w => (Return tt, set_ai (set_timers (f (timers (ai w))) (ai w)) w).
Definition getTA : M TextAnalyzerState := fun w => (Return (ta w), w).
Definition putTA (t : TextAnalyzerState) : M unit := fun w => (Return tt, set_ta t w).

(** ** [ai-service.js]: sessions, fallback and the confidence heuristic *)

Module AIService.

(** A value received where a text is expected: [Undefined] stands for any
    falsy value that is not a string, [Other] for a truthy one. *)
Inductive value : Type :=
| Undefined
| Str (s : string)
| Other.

(** The request of [analyzeText]: [{ text, apiType, parameters }]. An absent
    [apiType] is the empty string, an absent [parameters] is [None]. *)
Record AnalysisRequest : Type := mkRequest {
  text : value;
  req_apiType : string;
  req_parameters : option Params.t
}.

Record Capabilities : Type := mkCapabilities {
  maxTextLength : Z;
  supportedLanguages : list string
}.

(** The response of [createSession] *)
Inductive SessionResponse : Type :=
| SessionCreated (sessionId : string) (capabilities : Capabilities)
| SessionError (code message : string).

(** *** The JS [Map] of sessions *)

Fixpoint map_get (k : string) (m : list (string * SessionData)) : option SessionData :=
  match m with
  | [] => None
  | (k', v) :: m' => if (k' =? k)%string then Some v else map_get k m'
  end.

Fixpoint map_set (k : string) (v : SessionData) (m : list (string * SessionData))
    : list (string * SessionData) :=
  match m with
  | [] => [(k, v)]
  | (k', v') :: m' => if (k' =? k)%string then (k, v) :: m' else (k', v') :: map_set k v m'
  end.

(** *** Sets of words: a JS [Set] keeps its elements in insertion order *)

Definition set_has (x : string) (s : list string) : bool := JS.elem x s.

Definition set_add (s : list string) (x : string) : list string :=
  if set_has x s then s else s ++ [x].

Definition new_Set (xs : list string) : list string := fold_left set_add xs [].

(** [_calculateSimilarity] *)
Definition _calculateSimilarity (text1 text2 : string) : Q :=
  let words1 := new_Set (JS.split_ws (JS.toLowerCase text1)) in
  let words2 := new_Set (JS.split_ws (JS.toLowerCase text2)) in
  let intersection := new_Set (List.filter (fun word => set_has word words2) words1) in
  let union := new_Set (words1 ++ words2) in
  (inject_Z (Z.of_nat (length intersection)) / inject_Z (Z.of_nat (length union)))%Q.

(** [_calculateConfidenceScore] *)
Definition _calculateConfidenceScore (originalText improvedText : string) : Q :=
  if JS.falsy originalText || JS.falsy improvedText then 0%Q
  else
    let originalWords := Z.of_nat (length (JS.split_ws (JS.trim originalText))) in
    let improvedWords := Z.of_nat (length (JS.split_ws (JS.trim improvedText))) in
    let lengthRatio := (inject_Z (Z.abs (improvedWords - originalWords)) / inject_Z originalWords)%Q in
    let similarityScore := _calculateSimilarity originalText improvedText in
    let confidence := (7 # 10)%Q in
    let confidence := if Qltb (1 # 10) lengthRatio then Double.add confidence (1 # 10) else confidence in
    let confidence :=
      if Qltb (3 # 10) similarityScore && Qltb similarityScore (9 # 10)
      then Double.add confidence (2 # 10) else confidence in
    Qmin confidence 1.

(** [_generateChangeDetails] *)
Definition _generateChangeDetails (originalText improvedText : string) : list ChangeDetail.t :=
  if negb (originalText =? improvedText)%string then
    [ ChangeDetail.mk "clarity"
        (JS.ellipsis 50 47 originalText)
        (JS.ellipsis 50 47 improvedText)
        "Overall clarity improvement"
        0 (JS.len originalText) ]
  else [].

(** [_createErrorResponse] *)
Definition _createErrorResponse (code message : string) : AIResponse.t :=
  AIResponse.Failure code message.

(** [_validateParameters] *)
Definition _validateParameters (p : Params.t) : result unit :=
  throw_if (Params.truthy (Params.get "tone" p)
            && negb (JS.elem (default "" (Params.get "tone" p))
                       ["more-formal"; "as-is"; "more-casual"]))
    "Invalid tone parameter" ;;
  throw_if (Params.truthy (Params.get "length" p)
            && negb (JS.elem (default "" (Params.get "length" p))
                       ["shorter"; "as-is"; "longer"]))
    "Invalid length parameter".

(** [_validateSessionRequest] *)
Definition _validateSessionRequest (aType : string) (defaultParameters : option Params.t)
    : result unit :=
  throw_if (JS.falsy aType) "Missing required parameter: apiType" ;;
  throw_if (negb (JS.elem aType ["rewriter"; "prompt"])) "Invalid API type" ;;
  match defaultParameters with
  | Some p => _validateParameters p
  | None => Return tt
  end.

(** [_validateAnalysisRequest] *)
Definition _validateAnalysisRequest (request : AnalysisRequest) : result unit :=
  match text request with
  | Undefined => Throw "Text cannot be empty"
  | Str EmptyString => Throw "Text cannot be empty"
  | Other => Throw "Text must be a string"
  | Str s =>
      throw_if (5000 <? JS.len s) "TEXT_TOO_LONG" ;;
      throw_if (JS.falsy (req_apiType request)) "Missing required parameter: apiType" ;;
      match req_parameters request with
      | Some p => _validateParameters p
      | None => Return tt
      end
  end.

(** [_validateRewriterParameters] *)
Definition _validateRewriterParameters (p : Params.t) : Params.t :=
  let keep k := match Params.get k p with
                | Some v => if JS.falsy v then [] else [(k, v)]
                | None => []
                end in
  (keep "tone" ++ keep "length" ++ keep "format")%list.

Definition newline : string := String (ascii_of_N 10) EmptyString.

(** [_createClarityPrompt] *)
Definition _createClarityPrompt (txt : string) (p : Params.t) : string :=
  let tone := Params.get_or "tone" "neutral" p in
  let length := Params.get_or "length" "as-is" p in
  let prompt :=
    "Please improve the clarity of the following text. Focus on:" ++ newline ++
    "- Removing unnecessary words and phrases" ++ newline ++
    "- Making the meaning clearer and more direct" ++ newline ++
    "- Improving sentence structure for better readability" ++ newline ++
    "- Maintaining the original meaning and intent" ++ newline ++ newline ++
    "Text to improve: " ++ String Params.dquote (txt ++ String Params.dquote EmptyString)
    ++ newline ++ newline ++
    "Please provide only the improved text without any explanations." in
  let prompt :=
    if (tone =? "more-formal")%string then prompt ++ newline ++ "Use a more formal tone."
    else if (tone =? "more-casual")%string then prompt ++ newline ++ "Use a more casual tone."
    else prompt in
  if (length =? "shorter")%string then prompt ++ newline ++ "Make the text more concise."
  else if (length =? "longer")%string then prompt ++ newline ++ "Expand the text for more clarity."
  else prompt.

(** The fingerprint test of the cache: same [apiType] and same
    [JSON.stringify] of the parameters. *)
Definition matches (aType : string) (p : Params.t) (d : SessionData) : bool :=
  (apiType d =? aType)%string
  && (Params.stringify (parameters d) =? Params.stringify p)%string.

(** [sessionData.lastUsed = t] on the first entry that matches *)
Fixpoint touch (aType : string) (p : Params.t) (t : Z) (m : list (string * SessionData))
    : list (string * SessionData) :=
  match m with
  | [] => []
  | (k, d) :: m' =>
      if matches aType p d then (k, set_lastUsed t d) :: m'
      else (k, d) :: touch aType p t m'
  end.

Definition api_of (aType : string) : option Host.api :=
  if (aType =? "rewriter")%string then Some Host.Rewriter
  else if (aType =? "prompt")%string then Some Host.Prompt
  else None.

Section WithHost.

Variable env : Host.env.

(** [_generateSessionId] *)
Definition _generateSessionId : M string :=
  let* t := dateNow env in
  let* r := mathRandom env in
  ret ("ai_session_" ++ NilZero.string_of_int (Z.to_int t) ++ "_" ++ r).

(** [_scheduleSessionCleanup]: the timer is recorded; it does not fire
    within a call. *)
Definition _scheduleSessionCleanup (sessionId : string) : M unit :=
  modifyTimers (fun pending => pending ++ [sessionId])%list.

(** [createSession] *)
Definition createSession (aType : string) (defaultParameters : option Params.t)
    : M SessionResponse :=
  try_catch
    (lift (_validateSessionRequest aType defaultParameters) >>
     let parameters := default [] defaultParameters in
     let* sessionId := _generateSessionId in
     match api_of aType with
     | Some a =>
         let* isDefined := typeofDefined env a in
         if negb isDefined then
           ret (SessionError "API_NOT_AVAILABLE"
                  (match a with
                   | Host.Rewriter => "Rewriter API is not available"
                   | Host.Prompt => "Prompt API is not available"
                   end))
         else
           let* session := hostCreate env a parameters in
           let capabilities := mkCapabilities 5000 ["en"] in
           let* created := dateNow env in
           let* used := dateNow env in
           modifySessions
             (map_set sessionId (mkSessionData session aType parameters created used)) >>
           _scheduleSessionCleanup sessionId >>
           ret (SessionCreated sessionId capabilities)
     | None => throw "Invalid API type"
     end)
    (fun message =>
       if JS.includes "Missing required parameter" message
          || JS.includes "Invalid API type" message
          || JS.includes "Invalid tone parameter" message
          || JS.includes "Invalid length parameter" message
       then throw message
       else ret (SessionError "SESSION_FAILED" message)).

(** [_getOrCreateSession] *)
Definition _getOrCreateSession (aType : string) (p : Params.t) : M Host.handle :=
  let* s := getAI in
  match find (fun kd => matches aType p (snd kd)) (sessions s) with
  | Some (_, sessionData) =>
      let* t := dateNow env in
      modifySessions (touch aType p t) >>
      ret (session sessionData)
  | None =>
      let* sessionResponse := createSession aType (Some p) in
      match sessionResponse with
      | SessionError _ _ => throw ("Failed to create " ++ aType ++ " session")
      | SessionCreated sessionId _ =>
          let* s := getAI in
          match map_get sessionId (sessions s) with
          | Some sessionData => ret (session sessionData)
          | None => throw "Cannot read properties of undefined (reading 'session')"
          end
      end
  end.

(** [_analyzeWithRewriter]: [None] is [null]. *)
Definition _analyzeWithRewriter (txt : string) (p : Params.t) : M (option AIResponse.analysis) :=
  let* isDefined := typeofDefined env Host.Rewriter in
  if negb isDefined then ret None
  else
    try_catch
      (let* startTime := dateNow env in
       let* rewriterSession := _getOrCreateSession "rewriter" p in
       let validatedParams := _validateRewriterParameters p in
       let* improvedText :=
         hostRun env Host.Rewriter rewriterSession txt
           (("context", "Improve text clarity and readability") :: validatedParams) in
       let* endTime := dateNow env in
       let processingTime := endTime - startTime in
       ret (Some (AIResponse.mkAnalysis improvedText
                    (_calculateConfidenceScore txt improvedText)
                    processingTime "rewriter"
                    (_generateChangeDetails txt improvedText))))
      (fun _ => emit (Host.Console "Rewriter API error:") >> ret None).

(** [_analyzeWithPrompt] *)
Definition _analyzeWithPrompt (txt : string) (p : Params.t) : M (option AIResponse.analysis) :=
  let* isDefined := typeofDefined env Host.Prompt in
  if negb isDefined then ret None
  else
    try_catch
      (let* startTime := dateNow env in
       let* promptSession := _getOrCreateSession "prompt" p in
       let clarityPrompt := _createClarityPrompt txt p in
       let* improvedText := hostRun env Host.Prompt promptSession clarityPrompt [] in
       let* endTime := dateNow env in
       let processingTime := endTime - startTime in
       ret (Some (AIResponse.mkAnalysis improvedText
                    (_calculateConfidenceScore txt improvedText)
                    processingTime "prompt"
                    (_generateChangeDetails txt improvedText))))
      (fun _ => emit (Host.Console "Prompt API error:") >> ret None).

Definition _analyzeWith (a : Host.api) : string -> Params.t -> M (option AIResponse.analysis) :=
  match a with
  | Host.Rewriter => _analyzeWithRewriter
  | Host.Prompt => _analyzeWithPrompt
  end.

Definition fallbackNotice (a : Host.api) : string :=
  match a with
  | Host.Rewriter => "Rewriter failed, falling back to Prompt API"
  | Host.Prompt => "Prompt failed, falling back to Rewriter API"
  end.

(** [analyzeText] *)
Definition analyzeText (request : AnalysisRequest) : M AIResponse.t :=
  try_catch
    (lift (_validateAnalysisRequest request) >>
     let txt := match text request with Str s => s | _ => EmptyString end in
     let aType := req_apiType request in
     let p := default [] (req_parameters request) in
     (* Try primary API first *)
     let* result :=
       match api_of aType with
       | Some a => _analyzeWith a txt p
       | None => ret None
       end in
     (* If primary API failed and fallback is enabled *)
     let* s := getAI in
     let* result :=
       match result, api_of aType with
       | None, Some a =>
           if fallbackEnabled s then
             emit (Host.Console (fallbackNotice a)) >>
             let* r := _analyzeWith (Host.other a) txt p in
             ret (option_map (AIResponse.set_apiUsed (Host.name (Host.other a))) r)
           else ret None
       | _, _ => ret result
       end in
     (* If both APIs failed *)
     match result with
     | None => ret (_createErrorResponse "API_UNAVAILABLE" "No AI APIs available for text analysis")
     | Some r => ret (AIResponse.Success r)
     end)
    (fun message =>
       if (message =? "Text cannot be empty")%string then throw message
       else if (message =? "TEXT_TOO_LONG")%string then throw message
       else ret (_createErrorResponse "PROCESSING_ERROR" message)).

(** [getSessionCount] *)
Definition getSessionCount : M Z :=
  let* s := getAI in ret (Z.of_nat (length (sessions s))).

(** [isApiAvailable] *)
Definition isApiAvailable (aType : string) : M bool :=
  if (aType =? "rewriter")%string then typeofDefined env Host.Rewriter
  else if (aType =? "prompt")%string then typeofDefined env Host.Prompt
  else ret false.

(** [getAvailableApis] *)
Definition getAvailableApis : M (list string) :=
  let apis : list string := [] in
  let* rewriter := isApiAvailable "rewriter" in
  let apis := if rewriter then (apis ++ ["rewriter"])%list else apis in
  let* prompt := isApiAvailable "prompt" in
  let apis := if prompt then (apis ++ ["prompt"])%list else apis in
  ret apis.

End WithHost.

(** *** The end of a session

    What [session.destroy()] does is an input as well: [destroy h] is
    [None] when the session object [h] has no [destroy] function, and else
    the outcome of the call. The call itself is not logged; the warning of
    a failed call is. *)

(** [this.sessions.delete(k)] *)
Definition map_delete (k : string) (m : list (string * SessionData))
    : list (string * SessionData) :=
  List.filter (fun kd => negb (fst kd =? k)%string) m.

(** One pending timer of [sessionId] is gone once it fires. *)
Fixpoint fired (sessionId : string) (pending : list string) : list string :=
  match pending with
  | [] => []
  | id :: pending' =>
      if (id =? sessionId)%string then pending' else id :: fired sessionId pending'
  end.

(** [await Promise.all(xs.map(f))] for an [f] that does not reject *)
Fixpoint forEach {A B} (f : A -> M B) (xs : list A) : M unit :=
  match xs with
  | [] => ret tt
  | x :: xs' => f x >> forEach f xs'
  end.

Section WithSessions.

Variable env : Host.env.
Variable destroy : Host.handle -> option (result unit).

(** [destroySession] *)
Definition destroySession (sessionId : string) : M bool :=
  let* s := getAI in
  match map_get sessionId (sessions s) with
  | None => ret false
  | Some sessionData =>
      try_catch
        (match destroy (session sessionData) with
         | Some outcome => lift outcome
         | None => ret tt
         end)
        (fun _ => emit (Host.Console ("Failed to destroy session " ++ sessionId ++ ":"))) >>
      modifySessions (map_delete sessionId) >>
      ret true
  end.

(** The callback that [_scheduleSessionCleanup] hands to [setTimeout], run
    between two calls when the timer fires. *)
Definition sessionCleanupTimer (sessionId : string) : M unit :=
  modifyTimers (fired sessionId) >>
  let* s := getAI in
  match map_get sessionId (sessions s) with
  | Some sessionData =>
      let* now := dateNow env in
      if sessionTimeout s <? now - lastUsed sessionData
      then destroySession sessionId >> ret tt
      else ret tt
  | None => ret tt
  end.

(** [cleanup]. The calls that [Promise.all] waits for each look up and
    delete their own key only, so they are run one after the other. *)
Definition cleanup : M unit :=
  let* s := getAI in
  let sessionIds := map fst (sessions s) in
  forEach destroySession sessionIds.

End WithSessions.

End AIService.

(** [ClarityImprovement.getSummary]; it is defined here for the JS [Set]. *)
Record Summary : Type := mkSummary {
  primaryImprovement : string;
  changeCount : Z;
  confidenceLevel : string;
  processingSpeed : string
}.

Definition getSummary (ci : ClarityImprovement.t) : Summary :=
  let changeTypes := AIService.new_Set (map ChangeDetail.changeType (ClarityImprovement.changes ci)) in
  let primaryImprovement :=
    match changeTypes with
    | type :: _ => if JS.falsy type then "general" else type
    | [] => "general"
    end in
  mkSummary primaryImprovement
    (Z.of_nat (length (ClarityImprovement.changes ci)))
    (if ClarityImprovement.isHighConfidence ci then "high"
     else if ClarityImprovement.isMediumConfidence ci then "medium" else "low")
    (if ClarityImprovement.isQuickProcessing ci then "fast" else "normal").

(** ** [text-analyzer.js]: the orchestrator *)

Module TextAnalyzer.

(** The [userPreferences] argument: a [UserPreferences] instance, which has
    the method [getAIParameters], or a plain object. An absent
    [preferredApi] or [preferredTone] is the empty string. *)
Record Preferences : Type := mkPreferences {
  preferredApi : string;
  preferredTone : string;
  showChangeDetails : bool;
  isUserPreferences : bool
}.

(** [{}] *)
Definition noPreferences : Preferences := mkPreferences "" "" false false.

(** [UserPreferences.getAIParameters] ([user-preferences.js]) *)
Definition getAIParameters (prefs : Preferences) : Params.t :=
  [ ("tone", if (preferredTone prefs =? "formal")%string then "more-formal"
             else if (preferredTone prefs =? "casual")%string then "more-casual"
             else "as-is");
    ("format", "plain-text");
    ("length", "as-is") ].

(** [_getDefaultParameters] *)
Definition _getDefaultParameters (prefs : Preferences) : Params.t :=
  [ ("tone", if (preferredTone prefs =? "formal")%string then "more-formal"
             else if (preferredTone prefs =? "casual")%string then "more-casual"
             else "as-is");
    ("length", "as-is");
    ("format", "plain-text") ].

(** [_createAnalysisRequest]; the service does not read the [context]. *)
Definition _createAnalysisRequest (tc : TextContent.t) (prefs : Preferences)
    : AIService.AnalysisRequest :=
  let apiType := if JS.falsy (preferredApi prefs) then "rewriter" else preferredApi prefs in
  let parameters :=
    if isUserPreferences prefs then getAIParameters prefs
    else _getDefaultParameters prefs in
  AIService.mkRequest (AIService.Str (TextContent.originalText tc)) apiType (Some parameters).

(** The object that an analysis returns. [textContentId] is the ISO form of
    the sample's time stamp, kept as the time stamp. *)
Record AnalysisResult : Type := mkResult {
  originalText : string;
  improvedText : string;
  changes : list ChangeDetail.t;
  confidenceScore : Q;
  processingTime : Z;
  improvementType : string;
  textContentId : Z
}.

(** The [options] of [analyzeText]; an absent field is the empty string. *)
Record Options : Type := mkOptions {
  opt_fieldType : string;
  opt_fieldContext : string;
  userPreferences : Preferences
}.

(** The answer of [assessAnalysisQuality] *)
Record Quality : Type := mkQuality {
  quality : string;
  reasons : list string
}.

(** [reasons.push(r)] when [cond] holds *)
Definition push_if (cond : bool) (r : string) (rs : list string) : list string :=
  if cond then (rs ++ [r])%list else rs.

(** [assessAnalysisQuality]. A division by a zero length yields [Infinity]
    (or [NaN] for 0/0), so the comparison with 0.5 is then decided by the
    numerator. *)
Definition assessAnalysisQuality (analysisResult : AnalysisResult) : Quality :=
  if JS.falsy (improvedText analysisResult)
  then mkQuality "poor" ["No improved text provided"]
  else
    let reasons : list string := [] in
    let quality := "good" in
    (* Check confidence score *)
    let '(quality, reasons) :=
      if Qltb (confidenceScore analysisResult) (6 # 10)
      then ("poor", (reasons ++ ["Low confidence score"])%list)
      else if Qltb (confidenceScore analysisResult) (8 # 10)
      then ("medium", (reasons ++ ["Medium confidence score"])%list)
      else (quality, reasons) in
    (* Check processing time *)
    let reasons := push_if (2000 <? processingTime analysisResult)
                     "Slow processing time" reasons in
    (* Check text changes *)
    let '(quality, reasons) :=
      if (originalText analysisResult =? improvedText analysisResult)%string
      then ("poor", (reasons ++ ["No changes made to text"])%list)
      else (quality, reasons) in
    (* Check change details *)
    let reasons := push_if (Nat.eqb (length (changes analysisResult)) 0)
                     "No specific changes documented" reasons in
    (* Check for meaningful improvement *)
    let originalLength := JS.len (originalText analysisResult) in
    let improvedLength := JS.len (improvedText analysisResult) in
    let lengthDifference := Z.abs (originalLength - improvedLength) in
    let significant :=
      if originalLength =? 0 then 0 <? lengthDifference
      else Qltb (1 # 2) (inject_Z lengthDifference / inject_Z originalLength) in
    let reasons := push_if significant
                     "Significant length change - may have altered meaning" reasons in
    mkQuality quality reasons.

(** The [analysisData] of [createAnalysisResult]. An absent text or type is
    the empty string, an absent number or array is [None]. *)
Record AnalysisData : Type := mkData {
  data_originalText : string;
  data_improvedText : string;
  data_improvementType : string;
  data_confidenceScore : option Q;
  data_changes : option (list ChangeDetail.t);
  data_processingTime : option Z;
  data_apiParameters : Params.t
}.

(** The object that [createAnalysisResult] returns *)
Record CreatedResult : Type := mkCreated {
  created_originalText : string;
  created_improvedText : string;
  created_changes : list ChangeDetail.t;
  created_confidenceScore : Q;
  created_processingTime : Z;
  created_improvementType : string
}.

(** An element of the list of [getAnalysisHistory] *)
Record HistoryItem : Type := mkItem {
  item_id : string;
  item_timestamp : Z;
  item_originalText : string;
  item_summary : Summary
}.

(** The object that [getHistoryById] returns *)
Record HistoryDetail : Type := mkDetail {
  detail_originalText : string;
  detail_improvedText : string;
  detail_changes : list ChangeDetail.t;
  detail_confidenceScore : Q;
  detail_processingTime : Z;
  detail_improvementType : string;
  detail_timestamp : Z
}.

(** The object that [getAnalysisStatistics] returns; the two objects that
    count by type are finite maps. *)
Record Statistics : Type := mkStatistics {
  totalAnalyses : Z;
  averageConfidence : Q;
  averageProcessingTime : Q;
  improvementTypes : gmap string Z;
  changeTypes : gmap string Z
}.

(** [counts[k] = (counts[k] || 0) + 1] *)
Definition tally (k : string) (counts : gmap string Z) : gmap string Z :=
  <[k := default 0 (counts !! k) + 1]> counts.

(** [xs.slice(0, limit)]: a negative [limit] counts from the end. *)
Definition slice0 {A} (limit : Z) (xs : list A) : list A :=
  if limit <? 0 then firstn (length xs - Z.to_nat (- limit)) xs
  else firstn (Z.to_nat limit) xs.

(** [_validateAnalysisData] *)
Definition _validateAnalysisData (analysisData : AnalysisData) : result unit :=
  throw_if (JS.falsy (data_originalText analysisData)) "originalText is required" ;;
  throw_if (JS.falsy (data_improvedText analysisData)) "improvedText is required" ;;
  match data_confidenceScore analysisData with
  | Some c => throw_if (Qltb c 0 || Qltb 1 c) "confidenceScore must be a number between 0 and 1"
  | None => Return tt
  end ;;
  match data_processingTime analysisData with
  | Some time => throw_if (time <? 0) "processingTime must be a non-negative number"
  | None => Return tt
  end.

(** [_createChangeDetails], for plain change objects: an absent phrase or
    reason is the empty string, an absent position is 0 (which [||] treats
    alike). *)
Definition _createChangeDetails (chs : list ChangeDetail.t) : result (list ChangeDetail.t) :=
  ClarityImprovement.mapM
    (fun change =>
       throw_if (JS.falsy (ChangeDetail.changeType change)
                 || JS.falsy (ChangeDetail.originalPhrase change)
                 || JS.falsy (ChangeDetail.improvedPhrase change))
         "Invalid change object: missing required properties" ;;
       ChangeDetail.new
         (ChangeDetail.changeType change)
         (ChangeDetail.originalPhrase change)
         (ChangeDetail.improvedPhrase change)
         (if JS.falsy (ChangeDetail.reason change) then "Text improvement"
          else ChangeDetail.reason change)
         (ChangeDetail.startPosition change)
         (if ChangeDetail.endPosition change =? 0
          then JS.len (ChangeDetail.originalPhrase change)
          else ChangeDetail.endPosition change))
    chs.

(** A computation on the sample in hand, and one on the program state,
    within a method that mutates both. *)
Definition onSample {A} (c : SR TextContent.t A) : SR (TextContent.t * World) A :=
  fun s => let (r, tc) := c (fst s) in (r, (tc, snd s)).

Definition onWorld {A} (c : M A) : SR (TextContent.t * World) A :=
  fun s => let (r, w) := c (snd s) in (r, (fst s, w)).

Definition getSample : SR (TextContent.t * World) TextContent.t :=
  fun s => (Return (fst s), s).

Section WithHost.

Variable env : Host.env.

(** [_generateHistoryId] *)
Definition _generateHistoryId : M string :=
  let* t := dateNow env in
  let* r := mathRandom env in
  ret ("analysis_" ++ NilZero.string_of_int (Z.to_int t) ++ "_" ++ r).

(** [_addToHistory] *)
Definition _addToHistory (original : string) (clarityImprovement : ClarityImprovement.t)
    : M unit :=
  let* timestamp := dateNow env in
  let* id := _generateHistoryId in
  let historyEntry := mkHistoryEntry original clarityImprovement timestamp id in
  let* t := getTA in
  (* this.analysisHistory.unshift(historyEntry) *)
  let history := historyEntry :: analysisHistory t in
  (* Keep history size manageable *)
  if (maxHistorySize t <? length history)%nat
  then putTA (set_analysisHistory (firstn (maxHistorySize t) history) t)
  else putTA (set_analysisHistory history t).

(** [analyzeTextContent]: the sample is mutated in place, so the computation
    runs on the sample and the program state together. *)
Definition analyzeTextContent (prefs : Preferences) : SR (TextContent.t * World) AnalysisResult :=
  let* textContent := getSample in
  if TextContent.isEmpty textContent then throw "Cannot analyze empty text content"
  else
    try_catch
      ((* Update text content state *)
       onSample TextContent.setAnalyzing >>
       (* Prepare AI analysis request *)
       let analysisRequest := _createAnalysisRequest textContent prefs in
       (* Perform AI analysis *)
       let* aiResponse := onWorld (AIService.analyzeText env analysisRequest) in
       (match aiResponse with
        | AIResponse.Failure _ message =>
            onSample TextContent.setRejected >>
            throw (if JS.falsy message then "AI analysis failed" else message)
        | AIResponse.Success _ => ret tt
        end) >>
       (* Create clarity improvement *)
       let* clarityImprovement :=
         onWorld (onHost (ClarityImprovement.createFromAIResponse env aiResponse
                            (TextContent.originalText textContent))) in
       (* Update text content state *)
       onSample TextContent.setAnalyzed >>
       (* Create analysis result *)
       let analysisResult :=
         mkResult (TextContent.originalText textContent)
                  (ClarityImprovement.improvedText clarityImprovement)
                  (map ChangeDetail.toJSON (ClarityImprovement.changes clarityImprovement))
                  (ClarityImprovement.confidenceScore clarityImprovement)
                  (ClarityImprovement.processingTime clarityImprovement)
                  (ClarityImprovement.improvementType clarityImprovement)
                  (TextContent.timestamp textContent) in
       (* Store in history *)
       onWorld (_addToHistory (TextContent.originalText textContent) clarityImprovement) >>
       ret analysisResult)
      (fun message =>
         onSample TextContent.setRejected >>
         throw message).

(** [analyzeText]: the temporary sample is dropped at the end. *)
Definition analyzeText (txt : string) (options : Options) : M AnalysisResult :=
  if JS.falsy txt then throw "Text is required and must be a string"
  else if JS.len (JS.trim txt) =? 0 then throw "Text cannot be empty"
  else
    let* now := dateNow env in
    let* textContent :=
      lift (TextContent.new txt
              (if JS.falsy (opt_fieldType options) then "textarea" else opt_fieldType options)
              (if JS.falsy (opt_fieldContext options) then "temp-analysis"
               else opt_fieldContext options)
              now) in
    fun w =>
      let (r, s) := analyzeTextContent (userPreferences options) (textContent, w) in
      (r, snd s).

(** [clearHistory] *)
Definition clearHistory : M unit :=
  let* t := getTA in putTA (set_analysisHistory [] t).

(** [createAnalysisResult]: the arguments of the constructor are evaluated,
    then the constructor reads the clock and validates. *)
Definition createAnalysisResult (analysisData : AnalysisData) : M CreatedResult :=
  lift (_validateAnalysisData analysisData) >>
  let* chs := lift (_createChangeDetails (default [] (data_changes analysisData))) in
  let* now := dateNow env in
  let* clarityImprovement :=
    lift (ClarityImprovement.new
            (data_improvedText analysisData)
            (if JS.falsy (data_improvementType analysisData) then "rewriter"
             else data_improvementType analysisData)
            (match data_confidenceScore analysisData with
             | Some c => if Qeq_bool c 0 then 7 # 10 else c
             | None => 7 # 10
             end)
            chs
            (default 0 (data_processingTime analysisData))
            (data_apiParameters analysisData)
            now) in
  (* Store in history *)
  _addToHistory (data_originalText analysisData) clarityImprovement >>
  ret (mkCreated (data_originalText analysisData)
         (data_improvedText analysisData)
         (map ChangeDetail.toJSON (ClarityImprovement.changes clarityImprovement))
         (ClarityImprovement.confidenceScore clarityImprovement)
         (ClarityImprovement.processingTime clarityImprovement)
         (ClarityImprovement.improvementType clarityImprovement)).

End WithHost.

(** [getAnalysisHistory(limit)] *)
Definition getAnalysisHistory (limit : Z) : M (list HistoryItem) :=
  let* t := getTA in
  ret (map (fun entry =>
              mkItem (entry_id entry) (entry_timestamp entry)
                (JS.ellipsis 100 97 (entry_originalText entry))
                (getSummary (entry_clarityImprovement entry)))
           (slice0 limit (analysisHistory t))).

(** [getHistoryById(id)]: [None] is [null]. *)
Definition getHistoryById (id : string) : M (option HistoryDetail) :=
  let* t := getTA in
  match find (fun entry => (entry_id entry =? id)%string) (analysisHistory t) with
  | None => ret None
  | Some entry =>
      let ci := entry_clarityImprovement entry in
      ret (Some (mkDetail (entry_originalText entry)
                   (ClarityImprovement.improvedText ci)
                   (map ChangeDetail.toJSON (ClarityImprovement.changes ci))
                   (ClarityImprovement.confidenceScore ci)
                   (ClarityImprovement.processingTime ci)
                   (ClarityImprovement.improvementType ci)
                   (entry_timestamp entry)))
  end.

(** [getAnalysisStatistics] *)
Definition getAnalysisStatistics : M Statistics :=
  let* t := getTA in
  let history := analysisHistory t in
  if Nat.eqb (length history) 0 then ret (mkStatistics 0 0 0 ∅ ∅)
  else
    let confidenceScores :=
      map (fun entry => ClarityImprovement.confidenceScore (entry_clarityImprovement entry))
          history in
    let processingTimes :=
      map (fun entry => ClarityImprovement.processingTime (entry_clarityImprovement entry))
          history in
    let '(improvementTypes, changeTypes) :=
      fold_left
        (fun '(improvementTypes, changeTypes) entry =>
           let type := ClarityImprovement.improvementType (entry_clarityImprovement entry) in
           (tally type improvementTypes,
            fold_left (fun changeTypes change => tally (ChangeDetail.changeType change) changeTypes)
              (ClarityImprovement.changes (entry_clarityImprovement entry)) changeTypes))
        history (∅, ∅) in
    ret (mkStatistics (Z.of_nat (length history))
           (fold_left Qplus confidenceScores 0 / inject_Z (Z.of_nat (length confidenceScores)))%Q
           (inject_Z (fold_left Z.add processingTimes 0%Z)
            / inject_Z (Z.of_nat (length processingTimes)))%Q
           improvementTypes changeTypes).

End TextAnalyzer.

(** ** The confidence heuristic as the specification words it

    Used only to compare with [AIService._calculateConfidenceScore]. *)

Module Spec.

(** The number of words of a text: its maximal runs of characters that are
    not white space. [inWord] tells whether the previous character was part
    of a word. *)
Fixpoint countWordsFrom (inWord : bool) (s : string) : nat :=
  match s with
  | EmptyString => 0
  | String c s' =>
      if JS.isWhiteSpace c then countWordsFrom false s'
      else ((if inWord then 0 else 1) + countWordsFrom true s')%nat
  end.

Definition countWords (s : string) : nat := countWordsFrom false s.

(** The words of a text, in order: a character that is not white space
    starts a word of its own before white space or the end of the text,
    and else goes in front of the word that follows it. *)
Fixpoint words (s : string) : list string :=
  match s with
  | EmptyString => []
  | String c s' =>
      if JS.isWhiteSpace c then words s'
      else
        let rest := words s' in
        match s', rest with
        | String d _, w :: ws =>
            if JS.isWhiteSpace d then String c EmptyString :: rest else String c w :: ws
        | _, _ => String c EmptyString :: rest
        end
  end.

(** Lowercase: each of the 26 capital letters becomes its small letter,
    and so do the accented capitals of Latin-1 (U+00C0 to U+00DE without
    the multiplication sign), whose small letters are 32 places further. *)
Definition capitals : string := "ABCDEFGHIJKLMNOPQRSTUVWXYZ".
Definition smalls : string := "abcdefghijklmnopqrstuvwxyz".

Definition small (c : ascii) : ascii :=
  match String.index 0 (String c EmptyString) capitals with
  | Some i => default c (String.get i smalls)
  | None =>
      let n := N_of_ascii c in
      if ((192 <=? n) && (n <=? 222) && negb (n =? 215))%N then ascii_of_N (n + 32) else c
  end.

Fixpoint lowercase (s : string) : string :=
  match s with
  | EmptyString => EmptyString
  | String c s' => String (small c) (lowercase s')
  end.

(** wordCount(t) *)
Definition wordCount (s : string) : Z := Z.of_nat (countWords s).

(** The set of the lowercased words of a text *)
Definition wordSet (s : string) : gset string := list_to_set (map lowercase (words s)).

(** |intersection| / |union| *)
Definition similarity (original improved : string) : Q :=
  (inject_Z (Z.of_nat (size (wordSet original ∩ wordSet improved)))
   / inject_Z (Z.of_nat (size (wordSet original ∪ wordSet improved))))%Q.

Definition lengthRatio (original improved : string) : Q :=
  (inject_Z (Z.abs (wordCount improved - wordCount original))
   / inject_Z (wordCount original))%Q.

(** min(1.0, 0.7 + (0.1 if ratio > 0.1) + (0.2 if 0.3 < s < 0.9)) *)
Definition confidence (original improved : string) : Q :=
  let s := similarity original improved in
  Qmin 1
    ((7 # 10)
     + (if Qlt_le_dec (1 # 10) (lengthRatio original improved) then 1 # 10 else 0)
     + (if Qlt_le_dec (3 # 10) s then if Qlt_le_dec s (9 # 10) then 2 # 10 else 0 else 0))%Q.

End Spec.

(** * Notions used in the statements *)



(** The result object built from a sample and its improvement. *)
Definition result_of (tc : TextContent.t) (ci : ClarityImprovement.t)
    : TextAnalyzer.AnalysisResult :=
  TextAnalyzer.mkResult (TextContent.originalText tc)
    (ClarityImprovement.improvedText ci)
    (map ChangeDetail.toJSON (ClarityImprovement.changes ci))
    (ClarityImprovement.confidenceScore ci)
    (ClarityImprovement.processingTime ci)
    (ClarityImprovement.improvementType ci)
    (TextContent.timestamp tc).

Definition rejected_from_analyzing : string :=
  "Cannot transition to Rejected from Analyzing".

(** What [getHistoryById] shows of an entry, and the same fields of the
    result that the analysis returned. *)
Definition view : Type := (string * string * list ChangeDetail.t * Q * Z * string)%type.

Definition historyView (e : HistoryEntry) : view :=
  let ci := entry_clarityImprovement e in
  (entry_originalText e, ClarityImprovement.improvedText ci,
   map ChangeDetail.toJSON (ClarityImprovement.changes ci),
   ClarityImprovement.confidenceScore ci, ClarityImprovement.processingTime ci,
   ClarityImprovement.improvementType ci).

Definition resultView (r : TextAnalyzer.AnalysisResult) : view :=
  (TextAnalyzer.originalText r, TextAnalyzer.improvedText r, TextAnalyzer.changes r,
   TextAnalyzer.confidenceScore r, TextAnalyzer.processingTime r,
   TextAnalyzer.improvementType r).

(** Analyses run one after the other on the same analyzer: the outcomes in
    call order and the world at the end. *)
Fixpoint analyzeAll (env : Host.env) (calls : list (TextContent.t * TextAnalyzer.Preferences))
    (w : World) : list (result TextAnalyzer.AnalysisResult) * World :=
  match calls with
  | [] => ([], w)
  | (tc, prefs) :: rest =>
      let '(r, (_, w1)) := TextAnalyzer.analyzeTextContent env prefs (tc, w) in
      let '(rs, w2) := analyzeAll env rest w1 in
      (r :: rs, w2)
  end.

(** The results of the analyses that succeeded, oldest first. *)
Fixpoint successes (rs : list (result TextAnalyzer.AnalysisResult))
    : list TextAnalyzer.AnalysisResult :=
  match rs with
  | [] => []
  | Return r :: rs' => r :: successes rs'
  | Throw _ :: rs' => successes rs'
  end.

(** The same analysis result with another processing time. *)
Definition with_processingTime (t : Z) (r : TextAnalyzer.AnalysisResult)
    : TextAnalyzer.AnalysisResult :=
  TextAnalyzer.mkResult (TextAnalyzer.originalText r) (TextAnalyzer.improvedText r)
    (TextAnalyzer.changes r) (TextAnalyzer.confidenceScore r) t
    (TextAnalyzer.improvementType r) (TextAnalyzer.textContentId r).

(** The last two checks, which look at neither the confidence nor the time. *)
Definition undocumented (r : TextAnalyzer.AnalysisResult) : bool :=
  Nat.eqb (length (TextAnalyzer.changes r)) 0.

Definition significantLengthChange (r : TextAnalyzer.AnalysisResult) : bool :=
  let originalLength := JS.len (TextAnalyzer.originalText r) in
  let lengthDifference := Z.abs (originalLength - JS.len (TextAnalyzer.improvedText r)) in
  if originalLength =? 0 then 0 <? lengthDifference
  else Qltb (1 # 2) (inject_Z lengthDifference / inject_Z originalLength).

Definition unchanged_slow_result : TextAnalyzer.AnalysisResult :=
  TextAnalyzer.mkResult "same text" "same text" [] (9 # 10) 2500 "rewriter" 0.

Definition startsWs (s : string) : bool :=
  match s with
  | String c _ => JS.isWhiteSpace c
  | EmptyString => false
  end.

Fixpoint endsWs (s : string) : bool :=
  match s with
  | EmptyString => false
  | String c EmptyString => JS.isWhiteSpace c
  | String _ s' => endsWs s'
  end.

Definition isEmptyString (s : string) : bool :=
  match s with EmptyString => true | _ => false end.

(** The code counts the fields of the trimmed text, so that a text without
    a word counts as one word. *)
Definition fieldCount (s : string) : Z := Z.max 1 (Spec.wordCount s).

Definition hasEmptyToken (s : string) : bool := isEmptyString s || startsWs s || endsWs s.

Definition tokenSet (s : string) : gset string :=
  Spec.wordSet s ∪ (if hasEmptyToken s then {[ EmptyString ]} else ∅).

(** |intersection| / |union| of the token sets *)
Definition tokenSimilarity (text1 text2 : string) : Q :=
  (inject_Z (Z.of_nat (size (tokenSet text1 ∩ tokenSet text2)))
   / inject_Z (Z.of_nat (size (tokenSet text1 ∪ tokenSet text2))))%Q.

Definition fieldRatio (original improved : string) : Q :=
  (inject_Z (Z.abs (fieldCount improved - fieldCount original))
   / inject_Z (fieldCount original))%Q.

(** The heuristic as the code computes it: over the token sets and the
    field counts, with the sums rounded to doubles. *)
Definition heuristic (original improved : string) : Q :=
  let s := tokenSimilarity original improved in
  let base := (7 # 10)%Q in
  let withLength :=
    if Qlt_le_dec (1 # 10) (fieldRatio original improved)
    then Double.add base (1 # 10) else base in
  let withBalance :=
    if Qlt_le_dec (3 # 10) s
    then if Qlt_le_dec s (9 # 10) then Double.add withLength (2 # 10) else withLength
    else withLength in
  Qmin withBalance 1.

(** [c] returns a value from every world. *)
Definition returns {A} (c : M A) : Prop :=
  forall w, exists a w', c w = (Return a, w').

(** The entries of the table that a request for [(aType, p)] may reuse. *)
Definition matching (aType : string) (p : Params.t) (m : list (string * SessionData))
    : list (string * SessionData) :=
  List.filter (fun kd => AIService.matches aType p (snd kd)) m.

(** The first of them, which is the one the loop of [_getOrCreateSession]
    stops at. *)
Definition cached (aType : string) (p : Params.t) (m : list (string * SessionData))
    : option (string * SessionData) :=
  find (fun kd => AIService.matches aType p (snd kd)) m.

(** A host with both backends, which answer every call. *)
Definition answeringHost : Host.env :=
  Host.mkEnv (fun _ => true)
    (fun _ log _ => Return (length log))
    (fun _ _ _ input _ => Return ("Clear: " ++ input))
    (fun k => 1700000000000 + 7 * Z.of_nat k)
    (fun k => if Nat.even k then "q1w2e3" else "z9y8x7").

Definition plainParameters : Params.t :=
  [("tone", "as-is"); ("length", "as-is"); ("format", "plain-text")].

(** Two sessions made by [createSession] itself for the same
    [(apiType, parameters)]. *)
Definition twoDirectSessions : World :=
  snd (AIService.createSession answeringHost "rewriter" (Some plainParameters)
         (snd (AIService.createSession answeringHost "rewriter" (Some plainParameters)
                 initial))).

(** Some stored entry has the same [apiType] and the same [JSON.stringify]
    of its parameters. *)
Definition fingerprint_stored (aType : string) (p : Params.t)
    (m : list (string * SessionData)) : Prop :=
  exists id d, In (id, d) m /\ apiType d = aType
               /\ Params.stringify (parameters d) = Params.stringify p.

(** The parameters of a plain preferences object and those of a
    [UserPreferences] instance: the same properties, in two orders. *)
Definition defaultOrder : Params.t := TextAnalyzer._getDefaultParameters TextAnalyzer.noPreferences.
Definition instanceOrder : Params.t := TextAnalyzer.getAIParameters TextAnalyzer.noPreferences.

Definition afterBothOrders : World :=
  snd (AIService._getOrCreateSession answeringHost "rewriter" instanceOrder
         (snd (AIService._getOrCreateSession answeringHost "rewriter" defaultOrder initial))).

(** The world after a reuse: the clock was read once and [lastUsed] of the
    first matching entry set; nothing was asked of the backends. *)
Definition reused (env : Host.env) (aType : string) (p : Params.t) (w : World) : World :=
  snd (modifySessions (AIService.touch aType p (Host.now env (Host.ticks (host w))))
         (snd (dateNow env w))).

(** The text that backend [a] is given for [txt]. *)
Definition input_of (a : Host.api) (txt : string) (p : Params.t) : string :=
  match a with
  | Host.Rewriter => txt
  | Host.Prompt => AIService._createClarityPrompt txt p
  end.

(** Backend [a] gives the text [txt] back unchanged whenever it is asked to
    improve it. *)
Definition echoes (env : Host.env) (a : Host.api) (txt : string) : Prop :=
  forall log h p options, Host.run env a log h (input_of a txt p) options = Return txt.

(** The response of [analyzeText] after the fallback: the result of the
    second attempt tagged with the secondary backend, or the failure value. *)
Definition fallbackResponse (a : Host.api) (r : option AIResponse.analysis) : AIResponse.t :=
  match r with
  | Some an => AIResponse.Success (AIResponse.set_apiUsed (Host.name (Host.other a)) an)
  | None => AIResponse.Failure "API_UNAVAILABLE" "No AI APIs available for text analysis"
  end.

(** The options that backend [a] is given with the text. *)
Definition options_of (a : Host.api) (p : Params.t) : Params.t :=
  match a with
  | Host.Rewriter =>
      ("context", "Improve text clarity and readability")
      :: AIService._validateRewriterParameters p
  | Host.Prompt => []
  end.

(** Backend [a] answers [improved] whenever it is asked to improve [txt]. *)
Definition answers (env : Host.env) (a : Host.api) (txt improved : string) : Prop :=
  forall log h p options, Host.run env a log h (input_of a txt p) options = Return improved.


Definition rewriterRequest : AIService.AnalysisRequest :=
  AIService.mkRequest (AIService.Str "hello hello world") "rewriter" None.

(** The backend analysis fails while the sample is being analyzed: the AI
    service throws or answers without success, or the improvement cannot be
    built from its answer. *)
Definition analysis_fails (env : Host.env) (prefs : TextAnalyzer.Preferences)
    (tc : TextContent.t) (w : World) : bool :=
  match AIService.analyzeText env (TextAnalyzer._createAnalysisRequest tc prefs) w with
  | (Return (AIResponse.Success a), w1) =>
      negb (JS.isReturn
              (fst (ClarityImprovement.createFromAIResponse env (AIResponse.Success a)
                      (TextContent.originalText tc) (host w1))))
  | _ => true
  end.

(** A page on which neither backend is defined. *)
Definition bareHost : Host.env :=
  Host.mkEnv (fun _ => false)
    (fun _ _ _ => Throw "not available")
    (fun _ _ _ _ _ => Throw "not available")
    (fun k => 1700000000000 + 3 * Z.of_nat k)
    (fun _ => "m4n5b6").

Definition greeting : TextContent.t :=
  TextContent.mk "hello there, how are you doing" "textarea" "#message" 1700000000000 6
    "Created".

(** A page whose two backends return what they are given. *)
Definition echoHost : Host.env :=
  Host.mkEnv (fun _ => true)
    (fun _ log _ => Return (length log))
    (fun _ _ _ input _ => Return input)
    (fun k => 1700000000000 + 4 * Z.of_nat k)
    (fun _ => "e5c6h7").

Definition report : TextContent.t :=
  TextContent.mk "Please send the report." "textarea" "#message" 1700000000000 4 "Created".

(** The calls of [ms] in order, each on the sample as the one before left
    it; a call that throws is caught. The number of calls that returned,
    and the sample at the end. *)
Fixpoint callAll (ms : list TextContent.method) (tc : TextContent.t) : nat * TextContent.t :=
  match ms with
  | [] => (0%nat, tc)
  | m :: ms' =>
      match TextContent.call m tc with
      | (Return _, tc') => let (n, tc'') := callAll ms' tc' in (S n, tc'')
      | (Throw _, tc') => callAll ms' tc'
      end
  end.

(** How far a state is along the life cycle. *)
Definition stage (st : string) : nat :=
  if (st =? "Created")%string then 0
  else if (st =? "Analyzing")%string then 1
  else if (st =? "Analyzed")%string then 2
  else 3.

(** What the constructor of [ChangeDetail] checks. *)
Definition valid_change (c : ChangeDetail.t) : Prop :=
  In (ChangeDetail.changeType c) ChangeDetail.validChangeTypes
  /\ ChangeDetail.originalPhrase c <> EmptyString
  /\ ChangeDetail.improvedPhrase c <> EmptyString
  /\ ChangeDetail.originalPhrase c <> ChangeDetail.improvedPhrase c
  /\ ChangeDetail.reason c <> EmptyString
  /\ 0 <= ChangeDetail.startPosition c < ChangeDetail.endPosition c.

(** What the constructor of [ClarityImprovement] checks, and that its
    changes are validated change records. *)
Definition valid_improvement (ci : ClarityImprovement.t) : Prop :=
  ClarityImprovement.improvedText ci <> EmptyString
  /\ In (ClarityImprovement.improvementType ci) ClarityImprovement.validImprovementTypes
  /\ (0 <= ClarityImprovement.confidenceScore ci <= 1)%Q
  /\ ClarityImprovement.changes ci <> []
  /\ 0 < ClarityImprovement.processingTime ci
  /\ Forall valid_change (ClarityImprovement.changes ci).

(** The place of a type in a list of types, the length of the list for a
    type that is not in it. *)
Fixpoint index_of (type : string) (types : list string) : nat :=
  match types with
  | [] => 0
  | t :: rest => if (t =? type)%string then 0 else S (index_of type rest)
  end.

(** The rank of a change type in
    sentence-structure > clarity > word-choice > conciseness. *)
Definition priority (type : string) : nat :=
  index_of type ClarityImprovement.priorityOrder.

(** The level that [assessAnalysisQuality] gives for a confidence level. *)
Definition quality_of_level (level : string) : string :=
  if (level =? "high")%string then "good"
  else if (level =? "medium")%string then "medium"
  else "poor".

(** A response of the rewriter with confidence 0.9 *)
Definition confidentResponse : AIResponse.t :=
  AIResponse.Success
    (AIResponse.mkAnalysis "Hello, world." (9 # 10) 12 "rewriter" []).

(** A host whose clock shows one millisecond more at each reading *)
Definition steadyClock : Host.env :=
  Host.mkEnv (fun _ => true) (fun _ _ _ => Return 1%nat) (fun _ _ _ _ _ => Return "Hello, world.")
    (fun k => 1700000000000 + Z.of_nat k) (fun _ => "k3x9").

(** The number of clock readings does not go down. *)
Definition advances {A} (c : M A) : Prop :=
  forall w, (Host.ticks (host w) <= Host.ticks (host (snd (c w))))%nat.

Definition unavailable : AIResponse.t :=
  AIResponse.Failure "API_UNAVAILABLE" "No AI APIs available for text analysis".

(** The request for [txt] on the page [answeringHost], without fallback. *)
Definition withoutFallback (w : World) : World :=
  set_ai (mkAIService (sessions (ai w)) false (maxRetries (ai w)) (sessionTimeout (ai w))
            (timers (ai w))) w.

Definition otherRequest : AIService.AnalysisRequest :=
  AIService.mkRequest (AIService.Str "hello hello world") "summarizer" None.

(** The phrases by which [createSession] tells a validation error. *)
Definition validation_phrase (message : string) : bool :=
  JS.includes "Missing required parameter" message
  || JS.includes "Invalid API type" message
  || JS.includes "Invalid tone parameter" message
  || JS.includes "Invalid length parameter" message.

(** The id that [_generateSessionId] makes in the state [w]. *)
Definition next_session_id (env : Host.env) (w : World) : string :=
  "ai_session_" ++ NilZero.string_of_int (Z.to_int (Host.now env (Host.ticks (host w))))
  ++ "_" ++ Host.random env (Host.draws (host w)).

(** The host once the id is made and backend [a] probed, and once [create]
    has been called. *)
Definition probed (a : Host.api) (w : World) : World :=
  set_host (Host.mkState (S (Host.ticks (host w))) (S (Host.draws (host w)))
              (Host.log (host w) ++ [Host.Typeof a])) w.

Definition asked (a : Host.api) (p : Params.t) (w : World) : World :=
  set_host (Host.mkState (S (Host.ticks (host w))) (S (Host.draws (host w)))
              (Host.log (host w) ++ [Host.Typeof a; Host.Create a p])) w.

(** The world once the session [h] is stored and its timer started. *)
Definition stored (env : Host.env) (a : Host.api) (p : Params.t) (h : Host.handle)
    (w : World) : World :=
  let id := next_session_id env w in
  let t := Host.ticks (host w) in
  mkWorld (Host.mkState (S (S (S t))) (S (Host.draws (host w)))
             (Host.log (host w) ++ [Host.Typeof a; Host.Create a p]))
          (mkAIService
             (AIService.map_set id
                (mkSessionData h (Host.name a) p (Host.now env (S t)) (Host.now env (S (S t))))
                (sessions (ai w)))
             (fallbackEnabled (ai w)) (maxRetries (ai w)) (sessionTimeout (ai w))
             (timers (ai w) ++ [id]))
          (ta w).

Definition not_available (a : Host.api) : string :=
  match a with
  | Host.Rewriter => "Rewriter API is not available"
  | Host.Prompt => "Prompt API is not available"
  end.

(** A page whose rewriter refuses to make a session, in words that
    [createSession] takes for one of its validation errors. *)
Definition refusingHost : Host.env :=
  Host.mkEnv (fun _ => true)
    (fun _ _ _ => Throw "Invalid API type of model")
    (fun _ _ _ input _ => Return input)
    (fun k => 1700000000000 + Z.of_nat k)
    (fun _ => "r8t7").

(** The page [answeringHost] once a rewriter session has been made. *)
Definition withSession : World :=
  snd (AIService._getOrCreateSession answeringHost "rewriter" plainParameters initial).

(** The clock shows a later time at each reading. *)
Definition clock_runs (env : Host.env) : Prop :=
  forall i j : nat, (i < j)%nat -> Host.now env i < Host.now env j.

(** The change that the AI service reports for a changed text. *)
Definition overall_change (txt improved : string) : ChangeDetail.t :=
  ChangeDetail.mk "clarity" (JS.ellipsis 50 47 txt) (JS.ellipsis 50 47 improved)
    "Overall clarity improvement" 0 (JS.len txt).

(** A short note, and the page [answeringHost], whose rewriter answers
    the text it is given with [Clear: ] before it. *)
Definition note : TextContent.t :=
  TextContent.mk "so I was at this place today" "textarea" "#notes" 1700000000000 7
    "Created".

(** Two sentences of 53 and 52 characters with the same first 47. *)
Definition longNote : TextContent.t :=
  TextContent.mk "The quarterly report is due on Friday, and it is very late."
    "textarea" "#notes" 1700000000000 12 "Created".

Definition suffixHost : Host.env :=
  Host.mkEnv (fun _ => true)
    (fun _ log _ => Return (length log))
    (fun _ _ _ _ _ => Return "The quarterly report is due on Friday, and it is overdue.")
    (fun k => 1700000000000 + 7 * Z.of_nat k)
    (fun _ => "s4u5f6").

(** The page [answeringHost] with a clock that stands still. *)
Definition frozenHost : Host.env :=
  Host.mkEnv (fun _ => true)
    (fun _ log _ => Return (length log))
    (fun _ _ _ input _ => Return ("Clear: " ++ input))
    (fun _ => 1700000000000)
    (fun k => if Nat.even k then "q1w2e3" else "z9y8x7").

(** Every entry of the history holds a validated improvement. *)
Definition history_valid (w : World) : Prop :=
  Forall (fun e => valid_improvement (entry_clarityImprovement e)) (analysisHistory (ta w)).

(** The sum of the counts of a counting object. *)
Definition total (counts : gmap string Z) : Z :=
  map_fold (fun _ count sum => count + sum) 0 counts.

(** The number of changes in all the entries of a history. *)
Definition changes_in (history : list HistoryEntry) : nat :=
  fold_right (fun e n => (length (ClarityImprovement.changes (entry_clarityImprovement e))
                          + n)%nat) 0%nat history.

(** The number of entries of a history whose improvement has type [type],
    and the number of changes of type [type] in all its entries. *)
Definition analyses_of (type : string) (history : list HistoryEntry) : nat :=
  length (List.filter
            (fun e => (ClarityImprovement.improvementType (entry_clarityImprovement e)
                       =? type)%string)
            history).

Definition changes_of (type : string) (history : list HistoryEntry) : nat :=
  fold_right
    (fun e n => (length (ClarityImprovement.getChangesByType type (entry_clarityImprovement e))
                 + n)%nat)
    0%nat history.

(** A counting object holds the count [n key] under each [key] that was
    counted, and nothing under the others. *)
Definition counts (n : string -> nat) (object : gmap string Z) : Prop :=
  forall key : string,
    object !! key = if Nat.eqb (n key) 0 then None else Some (Z.of_nat (n key)).

(** What [getHistoryById] shows of an entry. *)
Definition detail_of (e : HistoryEntry) : TextAnalyzer.HistoryDetail :=
  let ci := entry_clarityImprovement e in
  TextAnalyzer.mkDetail (entry_originalText e)
    (ClarityImprovement.improvedText ci)
    (map ChangeDetail.toJSON (ClarityImprovement.changes ci))
    (ClarityImprovement.confidenceScore ci)
    (ClarityImprovement.processingTime ci)
    (ClarityImprovement.improvementType ci)
    (entry_timestamp e).

(** A plain change object with the three required properties only. *)
Definition plain_change (cType orig impr : string) : ChangeDetail.t :=
  ChangeDetail.mk cType orig impr EmptyString 0 0.

(** The world after one reading of the clock. *)
Definition clock_read (w : World) : World :=
  set_host (Host.mkState (S (Host.ticks (host w))) (Host.draws (host w))
              (Host.log (host w))) w.

(** The value of a lowercase hexadecimal digit. *)
Definition unhex (c : ascii) : option N :=
  let n := N_of_ascii c in
  if ((48 <=? n) && (n <=? 57))%N then Some (n - 48)%N
  else if ((97 <=? n) && (n <=? 102))%N then Some (n - 87)%N
  else None.

(** Reads one code unit of a JSON string and what follows it; there is none
    to read at the closing quote. *)
Definition readChar (s : string) : option (ascii * string) :=
  match s with
  | EmptyString => None
  | String c r =>
      if Ascii.eqb c Params.backslash then
        match r with
        | EmptyString => None
        | String e r' =>
            if Ascii.eqb e Params.dquote then Some (Params.dquote, r')
            else if Ascii.eqb e Params.backslash then Some (Params.backslash, r')
            else if Ascii.eqb e "b" then Some (ascii_of_N 8, r')
            else if Ascii.eqb e "t" then Some (ascii_of_N 9, r')
            else if Ascii.eqb e "n" then Some (ascii_of_N 10, r')
            else if Ascii.eqb e "f" then Some (ascii_of_N 12, r')
            else if Ascii.eqb e "r" then Some (ascii_of_N 13, r')
            else
              match r' with
              | String _ (String _ (String h (String l r''))) =>
                  match unhex h, unhex l with
                  | Some a, Some b => Some (ascii_of_N (16 * a + b), r'')
                  | _, _ => None
                  end
              | _ => None
              end
        end
      else if Ascii.eqb c Params.dquote then None
      else Some (c, r)
  end.

(** Fifteen samples, analyzed one after the other on [answeringHost]. *)
Definition sample (k : nat) : TextContent.t :=
  TextContent.mk ("note " ++ NilZero.string_of_int (Z.to_int (Z.of_nat k)))
    "textarea" "#notes" (1700000000000 + Z.of_nat k) 2 "Created".

Definition fifteen : list (TextContent.t * TextAnalyzer.Preferences) :=
  map (fun k => (sample k, TextAnalyzer.noPreferences)) (seq 1 15).

(** * Properties *)

(** ** The life cycle of a text sample *)

Lemma lifecycle_edge (s s' : string) (m : TextContent.method) :
  In (s, m, s') TextContent.lifecycle <->
  s = TextContent.source m /\ s' = TextContent.target m.
Proof.
  unfold TextContent.lifecycle. simpl. split.
  - intros H.
    repeat (destruct H as [H | H]; [ injection H as <- <- <-; split; reflexivity | ]).
    contradiction.
  - intros [-> ->]. destruct m; simpl; auto 6.
Qed.

Lemma call_spec (m : TextContent.method) (tc : TextContent.t) :
  TextContent.call m tc =
    if (TextContent.state tc =? TextContent.source m)%string
    then (Return tt, TextContent.set_state (TextContent.target m) tc)
    else (Throw ("Cannot transition to " ++ TextContent.target m ++ " from "
                 ++ TextContent.state tc), tc).
Proof.
  destruct m; simpl;
    unfold TextContent.setAnalyzing, TextContent.setAnalyzed,
      TextContent.setAccepted, TextContent.setRejected;
    match goal with
    | |- context [String.eqb ?a ?b] => destruct (String.eqb a b)
    end; reflexivity.
Qed.

(** C7. The transition methods succeed on exactly the four edges
    created -> analyzing, analyzing -> analyzed, analyzed -> accepted and
    analyzed -> rejected; a method called in a state from which the life
    cycle gives it no edge throws [Cannot transition to ... from ...] and
    leaves the sample, hence its state, as it was. *)
Theorem lifecycle_has_exactly_four_transitions :
  forall (m : TextContent.method) (tc : TextContent.t),
    (forall tc',
        TextContent.call m tc = (Return tt, tc') <->
        In (TextContent.state tc, m, TextContent.state tc') TextContent.lifecycle
        /\ tc' = TextContent.set_state (TextContent.state tc') tc)
    /\ ((forall s', ~ In (TextContent.state tc, m, s') TextContent.lifecycle) ->
        TextContent.call m tc =
          (Throw ("Cannot transition to " ++ TextContent.target m ++ " from "
                  ++ TextContent.state tc), tc))
    /\ ((exists s', In (TextContent.state tc, m, s') TextContent.lifecycle)
        \/ (forall s', ~ In (TextContent.state tc, m, s') TextContent.lifecycle)).
Proof.
  intros m tc. rewrite call_spec.
  destruct (String.eqb_spec (TextContent.state tc) (TextContent.source m)) as [Heq | Hne].
  - split; [ | split ].
    + intros tc'. rewrite lifecycle_edge. split.
      * intros H. injection H as <-. simpl. auto.
      * intros [[_ Ht] ->]. rewrite Ht. reflexivity.
    + intros Hno. exfalso. apply (Hno (TextContent.target m)).
      apply lifecycle_edge. auto.
    + left. exists (TextContent.target m). apply lifecycle_edge. auto.
  - split; [ | split ].
    + intros tc'. rewrite lifecycle_edge. split.
      * discriminate.
      * intros [[Hs _] _]. contradiction.
    + reflexivity.
    + right. intros s' H. apply lifecycle_edge in H. destruct H. contradiction.
Qed.

(** ** What the AI service leaves untouched

    A part of the world that is neither the host nor the sessions nor the
    timers is not changed by any method of the AI service. *)

Section Frame.

Context {B : Type} (part : World -> B).
Hypothesis part_host : forall h w, part (set_host h w) = part w.
Hypothesis part_sessions :
  forall m w, part (set_ai (set_sessions m (ai w)) w) = part w.
Hypothesis part_timers :
  forall t w, part (set_ai (set_timers t (ai w)) w) = part w.

Definition keeps {A} (c : M A) : Prop :=
  forall w, part (snd (c w)) = part w.

Lemma keeps_ret {A} (a : A) : keeps (ret a).
Proof. intros w. reflexivity. Qed.

Lemma keeps_throw {A} (msg : string) : keeps (@throw World A msg).
Proof. intros w. reflexivity. Qed.

Lemma keeps_lift {A} (r : result A) : keeps (lift r).
Proof. intros w. reflexivity. Qed.

Lemma keeps_bind {A C} (c : M A) (k : A -> M C) :
  keeps c -> (forall a, keeps (k a)) -> keeps (bind c k).
Proof.
  intros Hc Hk w. unfold bind. specialize (Hc w).
  destruct (c w) as [[a | m] w']; simpl in *.
  - rewrite Hk. exact Hc.
  - exact Hc.
Qed.

Lemma keeps_try_catch {A} (c : M A) (h : string -> M A) :
  keeps c -> (forall m, keeps (h m)) -> keeps (try_catch c h).
Proof.
  intros Hc Hh w. unfold try_catch. specialize (Hc w).
  destruct (c w) as [[a | m] w']; simpl in *.
  - exact Hc.
  - rewrite Hh. exact Hc.
Qed.

Lemma keeps_onHost {A} (c : SR Host.state A) : keeps (onHost c).
Proof. intros w. unfold onHost. destruct (c (host w)). apply part_host. Qed.

Lemma keeps_getAI : keeps getAI.
Proof. intros w. reflexivity. Qed.

Lemma keeps_modifySessions f : keeps (modifySessions f).
Proof. intros w. apply part_sessions. Qed.

Lemma keeps_modifyTimers f : keeps (modifyTimers f).
Proof. intros w. apply part_timers. Qed.

(** Walks down the binds, handlers and case distinctions of a computation. *)
Ltac frame_step :=
  match goal with
  | |- keeps (bind _ _) => apply keeps_bind; [ | intros ? ]
  | |- keeps (try_catch _ _) => apply keeps_try_catch; [ | intros ? ]
  | |- keeps (match ?x with _ => _ end) => destruct x
  | |- keeps (ret _) => apply keeps_ret
  | |- keeps (throw _) => apply keeps_throw
  | |- keeps (lift _) => apply keeps_lift
  | |- keeps getAI => apply keeps_getAI
  | |- keeps (modifySessions _) => apply keeps_modifySessions
  | |- keeps (modifyTimers _) => apply keeps_modifyTimers
  | |- keeps (dateNow _) => apply keeps_onHost
  | |- keeps (mathRandom _) => apply keeps_onHost
  | |- keeps (emit _) => apply keeps_onHost
  | |- keeps (typeofDefined _ _) => apply keeps_onHost
  | |- keeps (hostCreate _ _ _) => apply keeps_onHost
  | |- keeps (hostRun _ _ _ _ _) => apply keeps_onHost
  | |- keeps _ => assumption
  end.

Ltac frame := repeat frame_step.

Lemma keeps_createSession env aType p : keeps (AIService.createSession env aType p).
Proof.
  unfold AIService.createSession, AIService._generateSessionId,
    AIService._scheduleSessionCleanup. frame.
Qed.

Lemma keeps_getOrCreateSession env aType p :
  keeps (AIService._getOrCreateSession env aType p).
Proof.
  pose proof (keeps_createSession env aType (Some p)).
  unfold AIService._getOrCreateSession. frame.
Qed.

Lemma keeps_analyzeWith env a txt p : keeps (AIService._analyzeWith env a txt p).
Proof.
  pose proof (keeps_getOrCreateSession env "rewriter" p).
  pose proof (keeps_getOrCreateSession env "prompt" p).
  destruct a; simpl;
    unfold AIService._analyzeWithRewriter, AIService._analyzeWithPrompt; frame.
Qed.

Lemma keeps_analyzeText env request : keeps (AIService.analyzeText env request).
Proof.
  pose proof (fun a => keeps_analyzeWith env a).
  unfold AIService.analyzeText. frame; auto.
Qed.

End Frame.

(** The text analyzer's fields are not touched by the AI service. *)
Lemma keeps_ta_analyzeText env request (w : World) :
  ta (snd (AIService.analyzeText env request w)) = ta w.
Proof. apply (keeps_analyzeText ta); reflexivity. Qed.

(** No method of the AI service switches the fallback on or off. *)
Lemma keeps_fallbackEnabled_analyzeWith env a txt p (w : World) :
  fallbackEnabled (ai (snd (AIService._analyzeWith env a txt p w)))
  = fallbackEnabled (ai w).
Proof. apply (keeps_analyzeWith (fun w => fallbackEnabled (ai w))); reflexivity. Qed.

(** ** What a computation asks of the host *)

Section Events.

(** Every event that [c] adds to the log satisfies [P], and at most [n] of
    them satisfy [Q]. *)
Context (P : Host.event -> Prop) (Q : Host.event -> bool).


















End Events.




Section AttemptEvents.

Context (env : Host.env) (a b : Host.api).

Lemma api_of_name : AIService.api_of (Host.name a) = Some a.
Proof. destruct a; reflexivity. Qed.







End AttemptEvents.

(** ** The paths of [analyzeTextContent] *)

(** [_addToHistory] always returns: the entry it prepends and the bound. *)
Lemma addToHistory_run env (original : string) (ci : ClarityImprovement.t) (w : World) :
  exists e : HistoryEntry,
    entry_originalText e = original /\ entry_clarityImprovement e = ci /\
    TextAnalyzer._addToHistory env original ci w =
      (Return tt,
       mkWorld (Host.mkState (S (S (Host.ticks (host w)))) (S (Host.draws (host w)))
                  (Host.log (host w)))
               (ai w)
               (set_analysisHistory
                  (if (maxHistorySize (ta w) <? S (length (analysisHistory (ta w))))%nat
                   then firstn (maxHistorySize (ta w)) (e :: analysisHistory (ta w))
                   else e :: analysisHistory (ta w))
                  (ta w))).
Proof.
  eexists (mkHistoryEntry original ci _ _). split; [ reflexivity | split; [ reflexivity | ] ].
  unfold TextAnalyzer._addToHistory, TextAnalyzer._generateHistoryId,
    bind, dateNow, mathRandom, onHost, getTA, putTA, ret. simpl.
  destruct (_ <? _)%nat; reflexivity.
Qed.

(** Every path of [analyzeTextContent], one equation: the outcome, the
    sample afterwards and the world afterwards. *)
Lemma analyzeTextContent_paths env prefs (tc : TextContent.t) (w : World) :
  TextAnalyzer.analyzeTextContent env prefs (tc, w) =
    if TextContent.isEmpty tc then (Throw "Cannot analyze empty text content", (tc, w))
    else if negb (TextContent.state tc =? "Created")%string then
      if (TextContent.state tc =? "Analyzed")%string
      then (Throw ("Cannot transition to Analyzing from " ++ TextContent.state tc),
            (TextContent.set_state "Rejected" tc, w))
      else (Throw ("Cannot transition to Rejected from " ++ TextContent.state tc), (tc, w))
    else
      let analyzing := TextContent.set_state "Analyzing" tc in
      match AIService.analyzeText env (TextAnalyzer._createAnalysisRequest tc prefs) w with
      | (Return (AIResponse.Success a), w1) =>
          match ClarityImprovement.createFromAIResponse env (AIResponse.Success a)
                  (TextContent.originalText tc) (host w1) with
          | (Return ci, h2) =>
              (Return (result_of tc ci),
               (TextContent.set_state "Analyzed" tc,
                snd (TextAnalyzer._addToHistory env (TextContent.originalText tc) ci
                       (set_host h2 w1))))
          | (Throw _, h2) => (Throw rejected_from_analyzing, (analyzing, set_host h2 w1))
          end
      | (_, w1) => (Throw rejected_from_analyzing, (analyzing, w1))
      end.
Proof.
  unfold TextAnalyzer.analyzeTextContent, rejected_from_analyzing.
  unfold bind at 1. unfold TextAnalyzer.getSample at 1. cbv beta iota. cbn [fst snd].
  generalize (fun ci w => addToHistory_run env (TextContent.originalText tc) ci w).
  generalize (TextAnalyzer._addToHistory env (TextContent.originalText tc)).
  generalize (ClarityImprovement.createFromAIResponse env).
  generalize (AIService.analyzeText env (TextAnalyzer._createAnalysisRequest tc prefs)).
  intros analyze create add Hadd.
  destruct (TextContent.isEmpty tc); [ reflexivity | ].
  unfold try_catch, bind, TextAnalyzer.onSample, TextAnalyzer.onWorld, throw, ret. simpl.
  unfold TextContent.setAnalyzing.
  destruct (String.eqb_spec (TextContent.state tc) "Created") as [Hc | Hc]; simpl.
  - destruct (analyze w) as [[[a | code msg] | m] w1]; simpl; try reflexivity.
    unfold onHost.
    destruct (create (AIResponse.Success a) (TextContent.originalText tc) (host w1))
      as [[ci | m] h2]; simpl; try reflexivity.
    destruct (Hadd ci (set_host h2 w1)) as (e & _ & _ & ->). reflexivity.
  - unfold TextContent.setRejected.
    destruct (String.eqb_spec (TextContent.state tc) "Analyzed") as [Ha | Ha]; simpl;
      reflexivity.
Qed.

(** ** The bounded history *)

(** One analysis: a success puts its entry in front and cuts the array at
    [maxHistorySize]; a failure leaves the history alone. *)
Lemma analyzeTextContent_history env prefs tc w :
  let '(r, (_, w')) := TextAnalyzer.analyzeTextContent env prefs (tc, w) in
  maxHistorySize (ta w') = maxHistorySize (ta w) /\
  match r with
  | Return res =>
      exists e, historyView e = resultView res /\
        analysisHistory (ta w') =
          if (maxHistorySize (ta w) <? S (length (analysisHistory (ta w))))%nat
          then firstn (maxHistorySize (ta w)) (e :: analysisHistory (ta w))
          else e :: analysisHistory (ta w)
  | Throw _ => analysisHistory (ta w') = analysisHistory (ta w)
  end.
Proof.
  rewrite analyzeTextContent_paths.
  destruct (TextContent.isEmpty tc); [ auto | ].
  destruct (negb _).
  { destruct (String.eqb _ _); auto. }
  pose proof (keeps_ta_analyzeText env (TextAnalyzer._createAnalysisRequest tc prefs) w) as Hta.
  destruct (AIService.analyzeText env _ w) as [[[a | code msg] | m] w1]; simpl in Hta;
    cbv zeta; try (simpl; rewrite Hta; auto; fail).
  destruct (ClarityImprovement.createFromAIResponse env _ _ (host w1)) as [[ci | m] h2];
    [ | simpl; rewrite Hta; auto ].
  destruct (addToHistory_run env (TextContent.originalText tc) ci (set_host h2 w1))
    as (e & He1 & He2 & ->).
  simpl. rewrite Hta. split; [ reflexivity | ].
  exists e. split; [ | reflexivity ].
  unfold historyView, resultView, result_of. rewrite He1, He2. reflexivity.
Qed.

Lemma firstn_cons_within {A} (k : nat) (x : A) (l : list A) :
  (if (k <? S (length l))%nat then firstn k (x :: l) else x :: l) = firstn k (x :: l).
Proof.
  destruct (Nat.ltb_spec k (S (length l))); [ reflexivity | ].
  symmetry. apply firstn_all2. simpl. lia.
Qed.

Lemma firstn_app_firstn {A} (k : nat) (l1 l2 : list A) :
  firstn k (l1 ++ firstn k l2) = firstn k (l1 ++ l2).
Proof.
  rewrite !firstn_app, firstn_firstn.
  replace (Nat.min (k - length l1) k) with (k - length l1)%nat by lia.
  reflexivity.
Qed.

(** The history after a run of analyses, from a history within the bound. *)
Lemma analyzeAll_history env calls : forall w,
  (length (analysisHistory (ta w)) <= maxHistorySize (ta w))%nat ->
  let '(rs, w') := analyzeAll env calls w in
  maxHistorySize (ta w') = maxHistorySize (ta w) /\
  map historyView (analysisHistory (ta w')) =
    firstn (maxHistorySize (ta w))
      (rev (map resultView (successes rs)) ++ map historyView (analysisHistory (ta w))).
Proof.
  induction calls as [ | [tc prefs] rest IH ]; intros w Hlen.
  - simpl. split; [ reflexivity | ].
    rewrite firstn_all2; [ reflexivity | ]. rewrite length_map. exact Hlen.
  - simpl.
    pose proof (analyzeTextContent_history env prefs tc w) as Hstep.
    destruct (TextAnalyzer.analyzeTextContent env prefs (tc, w)) as [r [tc1 w1]].
    destruct Hstep as [Hmax Hhist].
    assert (Hlen1 : (length (analysisHistory (ta w1)) <= maxHistorySize (ta w1))%nat).
    { rewrite Hmax. destruct r as [res | m].
      - destruct Hhist as (e & _ & ->). rewrite firstn_cons_within.
        rewrite length_firstn. lia.
      - rewrite Hhist. exact Hlen. }
    specialize (IH w1 Hlen1).
    destruct (analyzeAll env rest w1) as [rs w2].
    destruct IH as [Hmax2 Hhist2]. split; [ congruence | ].
    rewrite Hhist2, Hmax. destruct r as [res | m]; simpl.
    + destruct Hhist as (e & Hview & ->). rewrite firstn_cons_within.
      rewrite <- firstn_map, firstn_app_firstn. simpl map.
      rewrite Hview, <- app_assoc. reflexivity.
    + rewrite Hhist. reflexivity.
Qed.

Lemma head_rev_last {A} (l : list A) : head (rev l) = last l.
Proof.
  destruct l as [ | x l' ] using rev_ind; [ reflexivity | ].
  rewrite rev_app_distr, last_snoc. reflexivity.
Qed.

(** C6. The history is bounded at 10 and newest first: after analyses of
    which [n] succeeded, on a fresh analyzer (whatever the AI service and
    the host have done before), it holds [min n 10] entries; they are the
    results of the last [min n 10] successful analyses, the most recent at
    index 0, and the oldest [n - 10] are gone. After 15 successful analyses
    it holds exactly 10 entries and the first 5 are gone. *)
Theorem history_bounded_newest_first :
  forall (env : Host.env) (calls : list (TextContent.t * TextAnalyzer.Preferences))
         (h : Host.state) (service : AIServiceState),
    let '(rs, w') := analyzeAll env calls (mkWorld h service (mkTextAnalyzer [] 10)) in
    let done := map resultView (successes rs) in
    let n := length done in
    let history := map historyView (analysisHistory (ta w')) in
    length (analysisHistory (ta w')) = Nat.min n 10
    /\ history = rev (skipn (n - 10) done)
    /\ head history = last done
    /\ (n = 15%nat -> length history = 10%nat /\ history = rev (skipn 5 done)).
Proof.
  intros env calls h service.
  pose proof (analyzeAll_history env calls (mkWorld h service (mkTextAnalyzer [] 10))) as H.
  destruct (analyzeAll env calls _) as [rs w'].
  destruct H as [_ H]; [ simpl; lia | ].
  simpl in H. rewrite app_nil_r in H.
  set (done := map resultView (successes rs)) in *.
  assert (Hrev : map historyView (analysisHistory (ta w'))
                 = rev (skipn (length done - 10) done)).
  { rewrite H. apply firstn_rev. }
  cbv zeta. split; [ | split; [ exact Hrev | split ] ].
  - rewrite <- (length_map historyView), Hrev, length_rev, length_skipn. lia.
  - rewrite H, <- head_rev_last. destruct (rev done); reflexivity.
  - intros Hn. rewrite Hrev, Hn. simpl. split; [ | reflexivity ].
    rewrite length_rev, length_skipn. lia.
Qed.

(** ** Quality assessment *)

(** The assessment of a result with an improved text, rule by rule: the
    level, and the reasons in the order of the checks. *)
Lemma assessAnalysisQuality_rules (r : TextAnalyzer.AnalysisResult) :
  JS.falsy (TextAnalyzer.improvedText r) = false ->
  let same := (TextAnalyzer.originalText r =? TextAnalyzer.improvedText r)%string in
  let low := Qltb (TextAnalyzer.confidenceScore r) (6 # 10) in
  let medium := Qltb (TextAnalyzer.confidenceScore r) (8 # 10) in
  TextAnalyzer.assessAnalysisQuality r =
    TextAnalyzer.mkQuality
      (if same then "poor" else if low then "poor" else if medium then "medium" else "good")
      ((if low then ["Low confidence score"]
        else if medium then ["Medium confidence score"] else [])
       ++ (if 2000 <? TextAnalyzer.processingTime r then ["Slow processing time"] else [])
       ++ (if same then ["No changes made to text"] else [])
       ++ (if undocumented r then ["No specific changes documented"] else [])
       ++ (if significantLengthChange r
           then ["Significant length change - may have altered meaning"] else []))%list.
Proof.
  intros Hne. cbv zeta. unfold TextAnalyzer.assessAnalysisQuality.
  rewrite Hne. unfold TextAnalyzer.push_if.
  fold (undocumented r). fold (significantLengthChange r).
  destruct (Qltb _ (6 # 10)); [ | destruct (Qltb _ (8 # 10)) ];
    destruct (2000 <? _); destruct (String.eqb _ _);
    destruct (undocumented r); destruct (significantLengthChange r); reflexivity.
Qed.

(** C8. For every analysis result: when the improved text equals the
    original, the level is poor whatever the confidence score is. For a
    result with an improved text (it is never empty in an analysis result;
    without one the assessment stops at [No improved text provided]), the
    reason [No changes made to text] is then recorded, and a processing time
    above 2000 ms adds the reason [Slow processing time], after the
    confidence reason and before the others, and changes neither the level
    nor any other reason. *)
Theorem quality_no_change_overrides_and_slow_only_adds_reason :
  forall r : TextAnalyzer.AnalysisResult,
    (TextAnalyzer.originalText r = TextAnalyzer.improvedText r ->
     TextAnalyzer.quality (TextAnalyzer.assessAnalysisQuality r) = "poor")
    /\ (JS.falsy (TextAnalyzer.improvedText r) = false ->
        (TextAnalyzer.originalText r = TextAnalyzer.improvedText r ->
         In "No changes made to text"
           (TextAnalyzer.reasons (TextAnalyzer.assessAnalysisQuality r)))
        /\ (forall fast slow : Z, fast <= 2000 -> 2000 < slow ->
            let q0 := TextAnalyzer.assessAnalysisQuality (with_processingTime fast r) in
            let q1 := TextAnalyzer.assessAnalysisQuality (with_processingTime slow r) in
            TextAnalyzer.quality q1 = TextAnalyzer.quality q0
            /\ exists before after : list string,
                TextAnalyzer.reasons q0 = (before ++ after)%list
                /\ TextAnalyzer.reasons q1
                   = (before ++ "Slow processing time" :: after)%list)).
Proof.
  intros r. split.
  - intros Hsame. destruct (JS.falsy (TextAnalyzer.improvedText r)) eqn:Hne.
    + unfold TextAnalyzer.assessAnalysisQuality. rewrite Hne. reflexivity.
    + rewrite (assessAnalysisQuality_rules r Hne). cbv zeta.
      rewrite Hsame, String.eqb_refl. reflexivity.
  - intros Hne. split.
    + intros Hsame. rewrite (assessAnalysisQuality_rules r Hne). cbv zeta.
      rewrite Hsame, String.eqb_refl. simpl.
      do 2 (apply in_or_app; right). left. reflexivity.
    + intros fast slow Hfast Hslow. cbv zeta.
      rewrite (assessAnalysisQuality_rules (with_processingTime fast r) Hne).
      rewrite (assessAnalysisQuality_rules (with_processingTime slow r) Hne).
      cbv zeta. simpl.
      replace (2000 <? fast) with false by (symmetry; apply Z.ltb_ge; exact Hfast).
      replace (2000 <? slow) with true by (symmetry; apply Z.ltb_lt; exact Hslow).
      split; [ reflexivity | ].
      eexists. eexists. split; reflexivity.
Qed.

(** The rules of C8 on a result with an unchanged text, high confidence and
    2.5 s of processing: poor, and slower than the same result at 0.4 s by
    one reason only. *)
Lemma quality_rules_witness :
  TextAnalyzer.assessAnalysisQuality unchanged_slow_result
  = TextAnalyzer.mkQuality "poor"
      ["Slow processing time"; "No changes made to text";
       "No specific changes documented"]
  /\ TextAnalyzer.quality (TextAnalyzer.assessAnalysisQuality unchanged_slow_result) = "poor"
  /\ In "No changes made to text"
       (TextAnalyzer.reasons (TextAnalyzer.assessAnalysisQuality unchanged_slow_result))
  /\ TextAnalyzer.quality
       (TextAnalyzer.assessAnalysisQuality (with_processingTime 2500 unchanged_slow_result))
     = TextAnalyzer.quality
         (TextAnalyzer.assessAnalysisQuality (with_processingTime 400 unchanged_slow_result)).
Proof.
  pose proof (quality_no_change_overrides_and_slow_only_adds_reason unchanged_slow_result)
    as [Hpoor Hrest].
  destruct (Hrest eq_refl) as [Hreason Hslow].
  split; [ reflexivity | ]. split; [ exact (Hpoor eq_refl) | ].
  split; [ exact (Hreason eq_refl) | ].
  destruct (Hslow 400 2500) as [Hq _]; [ lia | lia | exact Hq ].
Defined.

(** ** The confidence heuristic *)

(** *** Splitting, trimming and counting words *)

Lemma lowerChar_isWhiteSpace (c : ascii) :
  JS.isWhiteSpace (JS.lowerChar c) = JS.isWhiteSpace c.
Proof. destruct c as [[] [] [] [] [] [] [] []]; reflexivity. Qed.

(** Lowercasing the text and splitting it gives the lowercased tokens. *)
Lemma split_ws_toLowerCase (s : string) :
  JS.split_ws (JS.toLowerCase s) = map JS.toLowerCase (JS.split_ws s).
Proof.
  induction s as [ | c s' IH ]; [ reflexivity | ].
  simpl. rewrite lowerChar_isWhiteSpace, IH.
  destruct (JS.isWhiteSpace c).
  - destruct s' as [ | d s'' ]; [ reflexivity | ].
    simpl JS.toLowerCase. cbv beta iota. rewrite lowerChar_isWhiteSpace.
    destruct (JS.isWhiteSpace d); reflexivity.
  - destruct (JS.split_ws s'); reflexivity.
Qed.

Lemma countWordsFrom_true (s : string) :
  Spec.countWordsFrom false s =
    (Spec.countWordsFrom true s
     + (if isEmptyString s || startsWs s then 0 else 1))%nat.
Proof.
  destruct s as [ | c s' ]; [ reflexivity | ].
  simpl. destruct (JS.isWhiteSpace c); simpl; lia.
Qed.

(** The fields of a split: one per word, one more for white space (or
    nothing at all) in front, one more for white space at the end. *)
Lemma length_split_ws (s : string) :
  length (JS.split_ws s) =
    (Spec.countWords s
     + (if isEmptyString s || startsWs s then 1 else 0)
     + (if endsWs s then 1 else 0))%nat.
Proof.
  unfold Spec.countWords.
  induction s as [ | c s' IH ]; [ reflexivity | ].
  cbn [JS.split_ws Spec.countWordsFrom isEmptyString startsWs orb].
  destruct (JS.isWhiteSpace c) eqn:Hc.
  - destruct s' as [ | d s'' ].
    + simpl. rewrite Hc. reflexivity.
    + change (endsWs (String c (String d s''))) with (endsWs (String d s'')).
      cbn [isEmptyString startsWs orb] in IH.
      destruct (JS.isWhiteSpace d) eqn:Hd.
      * rewrite IH. lia.
      * cbn [length]. rewrite IH. lia.
  - assert (Hlen : length (match JS.split_ws s' with
                           | t :: ts => String c t :: ts
                           | [] => [String c EmptyString]
                           end) = Nat.max 1 (length (JS.split_ws s'))).
    { destruct (JS.split_ws s'); simpl; lia. }
    rewrite Hlen, IH. rewrite (countWordsFrom_true s').
    destruct s' as [ | d s'' ].
    + simpl. rewrite Hc. reflexivity.
    + change (endsWs (String c (String d s''))) with (endsWs (String d s'')).
      cbn [isEmptyString startsWs orb].
      destruct (JS.isWhiteSpace d); destruct (endsWs (String d s'')); lia.
Qed.

Lemma countWordsFrom_trimStart (s : string) :
  Spec.countWordsFrom false (JS.trimStart s) = Spec.countWordsFrom false s.
Proof.
  induction s as [ | c s' IH ]; [ reflexivity | ].
  simpl. destruct (JS.isWhiteSpace c) eqn:Hc; [ exact IH | ].
  simpl. rewrite Hc. reflexivity.
Qed.

Lemma startsWs_trimStart (s : string) : startsWs (JS.trimStart s) = false.
Proof.
  induction s as [ | c s' IH ]; [ reflexivity | ].
  simpl. destruct (JS.isWhiteSpace c) eqn:Hc; [ exact IH | ].
  simpl. exact Hc.
Qed.

Lemma countWordsFrom_trimEnd (s : string) : forall b,
  Spec.countWordsFrom b (JS.trimEnd s) = Spec.countWordsFrom b s.
Proof.
  induction s as [ | c s' IH ]; intros b; [ reflexivity | ].
  simpl. destruct (JS.trimEnd s') as [ | d r ] eqn:Hr.
  - destruct (JS.isWhiteSpace c) eqn:Hc; simpl; rewrite ?Hc, <- IH; reflexivity.
  - simpl. rewrite <- !IH. reflexivity.
Qed.

Lemma endsWs_trimEnd (s : string) : endsWs (JS.trimEnd s) = false.
Proof.
  induction s as [ | c s' IH ]; [ reflexivity | ].
  simpl. destruct (JS.trimEnd s') as [ | d r ] eqn:Hr.
  - destruct (JS.isWhiteSpace c) eqn:Hc; simpl; [ reflexivity | exact Hc ].
  - exact IH.
Qed.

Lemma startsWs_trimEnd (s : string) : startsWs s = false -> startsWs (JS.trimEnd s) = false.
Proof.
  destruct s as [ | c s' ]; [ reflexivity | ].
  simpl. intros Hc. destruct (JS.trimEnd s'); [ rewrite Hc | ]; simpl; auto.
Qed.

Lemma countWords_nonempty (s : string) :
  startsWs s = false -> isEmptyString s = false -> (1 <= Spec.countWords s)%nat.
Proof.
  destruct s as [ | c s' ]; [ discriminate | ].
  unfold Spec.countWords. simpl. intros ->. lia.
Qed.

(** [text.trim().split(/\s+/).length] is the number of words of the text,
    and 1 when the text has no word. *)
Lemma length_split_trim (s : string) :
  Z.of_nat (length (JS.split_ws (JS.trim s))) = fieldCount s.
Proof.
  unfold fieldCount, Spec.wordCount. rewrite <- (Nat2Z.inj_max 1). f_equal.
  rewrite length_split_ws. unfold JS.trim.
  rewrite endsWs_trimEnd, (startsWs_trimEnd _ (startsWs_trimStart s)).
  unfold Spec.countWords at 1.
  rewrite countWordsFrom_trimEnd, countWordsFrom_trimStart.
  fold (Spec.countWords s).
  destruct (isEmptyString (JS.trimEnd (JS.trimStart s))) eqn:He.
  - assert (H0 : Spec.countWords s = 0%nat).
    { unfold Spec.countWords.
      rewrite <- countWordsFrom_trimStart, <- countWordsFrom_trimEnd.
      destruct (JS.trimEnd (JS.trimStart s)); [ reflexivity | discriminate ]. }
    rewrite H0. reflexivity.
  - pose proof (countWords_nonempty _ (startsWs_trimEnd _ (startsWs_trimStart s)) He) as H1.
    unfold Spec.countWords in H1.
    rewrite countWordsFrom_trimEnd, countWordsFrom_trimStart in H1.
    fold (Spec.countWords s) in H1. simpl. lia.
Qed.

(** *** The words of a text and the fields of its split *)

Lemma words_nonempty (s : string) :
  startsWs s = false -> isEmptyString s = false ->
  exists w ws, Spec.words s = w :: ws.
Proof.
  destruct s as [ | c s' ]; [ discriminate | ].
  simpl. intros -> _.
  destruct s' as [ | d s'' ]; [ eauto | ].
  destruct (Spec.words (String d s'')) as [ | w ws ]; [ eauto | ].
  destruct (JS.isWhiteSpace d); eauto.
Qed.

(** The words are as many as [Spec.countWords] counts. *)
Lemma length_words (s : string) : length (Spec.words s) = Spec.countWords s.
Proof.
  unfold Spec.countWords.
  induction s as [ | c s' IH ]; [ reflexivity | ].
  cbn [Spec.words Spec.countWordsFrom].
  destruct (JS.isWhiteSpace c) eqn:Hc; [ exact IH | ].
  pose proof (countWordsFrom_true s') as Ht. rewrite <- IH in Ht. cbv zeta.
  destruct s' as [ | d s'' ]; [ reflexivity | ].
  cbn [isEmptyString startsWs orb] in Ht.
  destruct (JS.isWhiteSpace d) eqn:Hd.
  - destruct (Spec.words (String d s'')); simpl in *; lia.
  - destruct (words_nonempty (String d s'') Hd eq_refl) as (w & ws & Hw).
    rewrite Hw in *. simpl in *. lia.
Qed.

(** The fields of the split are the words, with an empty field in front
    when the text is empty or begins with white space, and one behind
    when it ends with white space. *)
Lemma split_ws_words_and_edges (s : string) :
  JS.split_ws s
  = ((if isEmptyString s || startsWs s then [EmptyString] else [])
       ++ Spec.words s
       ++ (if endsWs s then [EmptyString] else []))%list.
Proof.
  induction s as [ | c s' IH ]; [ reflexivity | ].
  cbn [JS.split_ws Spec.words isEmptyString startsWs orb]. cbv zeta.
  destruct s' as [ | d s'' ].
  - simpl. destruct (JS.isWhiteSpace c); reflexivity.
  - change (endsWs (String c (String d s''))) with (endsWs (String d s'')).
    rewrite IH. cbn [isEmptyString startsWs orb].
    destruct (JS.isWhiteSpace c) eqn:Hc; destruct (JS.isWhiteSpace d) eqn:Hd.
    + reflexivity.
    + reflexivity.
    + destruct (Spec.words (String d s'')); reflexivity.
    + destruct (words_nonempty (String d s'') Hd eq_refl) as (w & ws & ->). reflexivity.
Qed.

(** No word is empty. *)
Lemma words_not_empty (s : string) : ~ In EmptyString (Spec.words s).
Proof.
  induction s as [ | c s' IH ]; [ simpl; tauto | ].
  cbn [Spec.words]. destruct (JS.isWhiteSpace c); [ exact IH | ]. cbv zeta.
  destruct s' as [ | d s'' ]; [ simpl; intuition discriminate | ].
  destruct (Spec.words (String d s'')) as [ | w ws ] eqn:Ew.
  - simpl. intuition discriminate.
  - destruct (JS.isWhiteSpace d).
    + intros [E | H]; [ discriminate | exact (IH H) ].
    + intros [E | H]; [ discriminate | ]. apply IH. simpl. auto.
Qed.

(** *** Lowercase *)

Lemma small_lowerChar (c : ascii) : Spec.small c = JS.lowerChar c.
Proof. destruct c as [[] [] [] [] [] [] [] []]; reflexivity. Qed.

Lemma lowercase_toLowerCase (s : string) : Spec.lowercase s = JS.toLowerCase s.
Proof.
  induction s as [ | c s' IH ]; [ reflexivity | ].
  simpl. rewrite small_lowerChar, IH. reflexivity.
Qed.

(** *** The tokens of the code

    The code splits the text as it is: white space at either end, or an
    empty text, leaves the empty string among the tokens. *)
Lemma empty_not_in_wordSet (s : string) : EmptyString ∉ Spec.wordSet s.
Proof.
  unfold Spec.wordSet. rewrite elem_of_list_to_set, list_elem_of_In, in_map_iff.
  intros (w & Hw & Hin). destruct w as [ | a w' ]; [ | discriminate ].
  exact (words_not_empty s Hin).
Qed.

(** The lowercased fields of the split are the token set. *)
Lemma tokens_of_split (s : string) :
  list_to_set (map JS.toLowerCase (JS.split_ws s)) = tokenSet s.
Proof.
  unfold tokenSet, Spec.wordSet, hasEmptyToken.
  rewrite split_ws_words_and_edges, !map_app, !list_to_set_app_L.
  rewrite (map_ext _ _ lowercase_toLowerCase).
  apply set_eq. intros x.
  destruct (isEmptyString s || startsWs s); destruct (endsWs s); simpl;
    rewrite ?elem_of_union, ?elem_of_list_to_set, ?elem_of_singleton, ?list_elem_of_In;
    simpl; rewrite ?elem_of_empty; intuition.
Qed.

(** *** JS sets of words and finite sets *)

Lemma set_has_elem_of (x : string) (s : list string) :
  AIService.set_has x s = true <-> x ∈ s.
Proof.
  unfold AIService.set_has, JS.elem. rewrite existsb_exists, list_elem_of_In.
  split.
  - intros (y & Hy & Heq). apply String.eqb_eq in Heq. subst y. exact Hy.
  - intros Hx. exists x. split; [ exact Hx | apply String.eqb_refl ].
Qed.

Lemma fold_set_add (xs : list string) : forall acc : list string,
  NoDup acc ->
  NoDup (fold_left AIService.set_add xs acc)
  /\ (forall x, x ∈ fold_left AIService.set_add xs acc <-> x ∈ acc \/ x ∈ xs).
Proof.
  induction xs as [ | y ys IH ]; intros acc Hacc.
  - simpl. split; [ exact Hacc | ]. intros x. rewrite elem_of_nil. tauto.
  - simpl. unfold AIService.set_add at 2 4.
    destruct (AIService.set_has y acc) eqn:Hy.
    + apply set_has_elem_of in Hy.
      destruct (IH acc Hacc) as [Hnd Hin]. split; [ exact Hnd | ].
      intros x. rewrite Hin, elem_of_cons. split; [ tauto | ].
      intros [H | [-> | H]]; auto.
    + assert (Hny : y ∉ acc).
      { intros H. apply set_has_elem_of in H. congruence. }
      destruct (IH (acc ++ [y])%list) as [Hnd Hin].
      { apply NoDup_app. split; [ exact Hacc | ]. split.
        - intros x Hx Hx'. apply list_elem_of_singleton in Hx'. subst x. contradiction.
        - apply NoDup_singleton. }
      split; [ exact Hnd | ].
      intros x. rewrite Hin, elem_of_app, list_elem_of_singleton, elem_of_cons. tauto.
Qed.

(** [new Set(xs)] has no duplicates and the elements of [xs]. *)
Lemma new_Set_NoDup (xs : list string) : NoDup (AIService.new_Set xs).
Proof. apply (fold_set_add xs []). apply NoDup_nil_2. Qed.

Lemma new_Set_elem_of (xs : list string) (x : string) :
  x ∈ AIService.new_Set xs <-> x ∈ xs.
Proof.
  unfold AIService.new_Set.
  destruct (fold_set_add xs [] (NoDup_nil_2)) as [_ H].
  rewrite H, elem_of_nil. tauto.
Qed.

(** The [size] of a JS set is the cardinal of the set of its elements. *)
Lemma new_Set_size (xs : list string) (X : gset string) :
  (forall x, x ∈ xs <-> x ∈ X) ->
  length (AIService.new_Set xs) = size X.
Proof.
  intros H.
  rewrite <- (size_list_to_set (C := gset string) (AIService.new_Set xs))
    by apply new_Set_NoDup.
  f_equal. apply set_eq. intros x.
  rewrite elem_of_list_to_set, new_Set_elem_of. apply H.
Qed.

(** The similarity that the code computes is |intersection| / |union| of the
    token sets. *)
Lemma calculateSimilarity_tokens (text1 text2 : string) :
  AIService._calculateSimilarity text1 text2 = tokenSimilarity text1 text2.
Proof.
  unfold AIService._calculateSimilarity, tokenSimilarity.
  rewrite <- !tokens_of_split, !split_ws_toLowerCase.
  set (l1 := map JS.toLowerCase (JS.split_ws text1)).
  set (l2 := map JS.toLowerCase (JS.split_ws text2)).
  rewrite (new_Set_size _ (list_to_set l1 ∩ list_to_set l2)).
  2:{ intros x. rewrite list_elem_of_In, filter_In, <- list_elem_of_In,
        elem_of_intersection, !elem_of_list_to_set, set_has_elem_of,
        !new_Set_elem_of. tauto. }
  rewrite (new_Set_size _ (list_to_set l1 ∪ list_to_set l2)).
  2:{ intros x. rewrite elem_of_app, elem_of_union,
        !elem_of_list_to_set, !new_Set_elem_of. tauto. }
  reflexivity.
Qed.

(** *** The formula *)

Lemma Qltb_lt (a b : Q) : Qltb a b = true <-> (a < b)%Q.
Proof.
  unfold Qltb. rewrite negb_true_iff, <- not_true_iff_false, Qle_bool_iff.
  split; [ apply Qnot_le_lt | apply Qlt_not_le ].
Qed.

Lemma Qltb_dec (a b : Q) :
  Qltb a b = if Qlt_le_dec a b then true else false.
Proof.
  destruct (Qlt_le_dec a b) as [Hlt | Hle].
  - apply Qltb_lt. exact Hlt.
  - apply not_true_iff_false. rewrite Qltb_lt. apply Qle_not_lt. exact Hle.
Qed.

Lemma tokenSet_nonempty (s : string) : (0 < size (tokenSet s))%nat.
Proof.
  assert (Hin : exists x, x ∈ tokenSet s).
  { unfold tokenSet, hasEmptyToken.
    destruct (isEmptyString s || startsWs s) eqn:Hedge.
    - exists EmptyString. apply elem_of_union_r. simpl. apply elem_of_singleton. reflexivity.
    - apply orb_false_iff in Hedge. destruct Hedge as [He Hs].
      destruct (words_nonempty s Hs He) as (w & ws & Hw).
      exists (Spec.lowercase w). apply elem_of_union_l. unfold Spec.wordSet.
      rewrite Hw, elem_of_list_to_set. apply list_elem_of_here. }
  destruct Hin as [x Hx].
  assert (Hsz : size (tokenSet s) <> 0%nat).
  { apply size_non_empty_iff. intros Hempty. rewrite Hempty in Hx.
    exact (not_elem_of_empty _ Hx). }
  lia.
Qed.

(** The two divisions of the heuristic never divide by zero. *)
Lemma confidence_denominators_positive (original improved : string) :
  0 < fieldCount original
  /\ (0 < size (tokenSet original ∪ tokenSet improved))%nat.
Proof.
  split; [ unfold fieldCount; lia | ].
  pose proof (tokenSet_nonempty original) as Hpos.
  pose proof (subseteq_size (tokenSet original) (tokenSet original ∪ tokenSet improved)
                (union_subseteq_l _ _)) as Hle.
  lia.
Qed.

(** The three sums of the heuristic, as doubles: 0.7999999999999999,
    0.8999999999999999 and 1. *)
Lemma double_sums :
  Double.add (7 # 10) (1 # 10) = (7205759403792793 # 9007199254740992)%Q
  /\ Double.add (7 # 10) (2 # 10) = (2026619832316723 # 2251799813685248)%Q
  /\ Double.add (Double.add (7 # 10) (1 # 10)) (2 # 10) = 1%Q
  /\ Double.of_Q (7205759403792793 # 9007199254740992)
     = Double.of_Q (7999999999999999 # 10000000000000000)
  /\ Double.of_Q (2026619832316723 # 2251799813685248)
     = Double.of_Q (8999999999999999 # 10000000000000000).
Proof. vm_compute. repeat split; reflexivity. Qed.

(** A text without white space at its ends has its words as tokens, and
    as many fields as words. *)
Lemma no_empty_token (s : string) :
  hasEmptyToken s = false -> tokenSet s = Spec.wordSet s /\ fieldCount s = Spec.wordCount s.
Proof.
  unfold tokenSet, fieldCount, Spec.wordCount. intros H. rewrite H.
  split; [ apply (right_id_L ∅ (∪)) | ].
  unfold hasEmptyToken in H. apply orb_false_iff in H. destruct H as [H _].
  apply orb_false_iff in H. destruct H as [He Hs].
  pose proof (countWords_nonempty s Hs He). lia.
Qed.

(** C2. For non-empty texts the confidence is
    min(1, 0.7 + (0.1 if |fc(improved) - fc(original)| / fc(original) > 0.1)
               + (0.2 if 0.3 < s < 0.9)),
    with the sums rounded to doubles, where [fc] counts the words of a text
    but 1 for a text without a word, and [s] is |intersection| / |union| of
    the sets of lowercased words, to each of which the empty token is added
    when the text begins or ends with white space. It lies in [0, 1]. For
    two texts without white space at their ends this is the formula over
    the word sets and the word counts up to the rounding of the sums: the
    code's value is not above it, and less than 1e-16 below. *)
Theorem confidence_is_the_rounded_heuristic_over_tokens :
  forall original improved : string,
    original <> EmptyString ->
    improved <> EmptyString ->
    let c := AIService._calculateConfidenceScore original improved in
    c = heuristic original improved
    /\ (0 <= c)%Q
    /\ (c <= 1)%Q
    /\ (hasEmptyToken original = false -> hasEmptyToken improved = false ->
        (c <= Spec.confidence original improved)%Q
        /\ (Spec.confidence original improved - c < 1 # 10000000000000000)%Q).
Proof.
  intros original improved Ho Hi. cbv zeta.
  assert (Hcode : AIService._calculateConfidenceScore original improved
                  = heuristic original improved).
  { unfold AIService._calculateConfidenceScore, heuristic.
    destruct original as [ | co o' ]; [ contradiction | ].
    destruct improved as [ | ci i' ]; [ contradiction | ].
    cbn [JS.falsy orb]. cbv zeta.
    rewrite !length_split_trim, calculateSimilarity_tokens.
    fold (fieldRatio (String co o') (String ci i')).
    rewrite !Qltb_dec.
    destruct (Qlt_le_dec (1 # 10) _); destruct (Qlt_le_dec (3 # 10) _);
      destruct (Qlt_le_dec _ (9 # 10)); reflexivity. }
  split; [ exact Hcode | ]. rewrite Hcode.
  destruct double_sums as (E1 & E2 & E3 & _).
  split; [ | split ].
  - unfold heuristic. cbv zeta.
    destruct (Qlt_le_dec (1 # 10) _); destruct (Qlt_le_dec (3 # 10) _);
      try destruct (Qlt_le_dec _ (9 # 10));
      rewrite ?E3, ?E1, ?E2; vm_compute; discriminate.
  - unfold heuristic. cbv zeta.
    destruct (Qlt_le_dec (1 # 10) _); destruct (Qlt_le_dec (3 # 10) _);
      try destruct (Qlt_le_dec _ (9 # 10));
      rewrite ?E3, ?E1, ?E2; vm_compute; discriminate.
  - intros Hno Hni.
    destruct (no_empty_token original Hno) as [Hto Hfo].
    destruct (no_empty_token improved Hni) as [Hti Hfi].
    unfold heuristic, Spec.confidence, tokenSimilarity, fieldRatio, Spec.similarity,
      Spec.lengthRatio. cbv zeta. rewrite Hto, Hti, Hfo, Hfi.
    destruct (Qlt_le_dec (1 # 10) _); destruct (Qlt_le_dec (3 # 10) _);
      try destruct (Qlt_le_dec _ (9 # 10));
      rewrite ?E3, ?E1, ?E2; split; vm_compute; first [ reflexivity | discriminate ].
Qed.

(** C2 on a rewrite that adds two words and changes the case of others:
    both bonuses are given, which they are not unless the tokens are
    compared in lowercase. *)
Lemma confidence_witness :
  AIService._calculateConfidenceScore "Hello World" "hello there BIG world" = 1%Q
  /\ heuristic "Hello World" "hello there BIG world" = 1%Q.
Proof.
  destruct (confidence_is_the_rounded_heuristic_over_tokens
              "Hello World" "hello there BIG world") as (H & _);
    [ discriminate | discriminate | ].
  cbv zeta in H. split; [ | rewrite <- H ]; vm_compute; reflexivity.
Defined.

(** The confidence is not the formula over the word sets and the word
    counts with exact sums. White space in front of the text adds the empty
    token: the similarity of [" a b"] and ["a c"] is 1/4 and not 1/3, and
    no bonus is given where the formula gives 0.2. The sum of 0.7 and 0.1
    is the double 0.7999999999999999 and not 0.8. *)
Lemma confidence_differs_from_the_claimed_formula :
  AIService._calculateConfidenceScore " a b" "a c" = (7 # 10)%Q
  /\ (Spec.confidence " a b" "a c" == 9 # 10)%Q
  /\ ~ (AIService._calculateConfidenceScore " a b" "a c" == Spec.confidence " a b" "a c")%Q
  /\ AIService._calculateConfidenceScore "one" "two three"
     = (7205759403792793 # 9007199254740992)%Q
  /\ (Spec.confidence "one" "two three" == 8 # 10)%Q
  /\ (AIService._calculateConfidenceScore "one" "two three"
      < Spec.confidence "one" "two three")%Q.
Proof.
  split; [ vm_compute; reflexivity | ].
  split; [ vm_compute; reflexivity | ].
  split; [ vm_compute; discriminate | ].
  split; [ vm_compute; reflexivity | ].
  split; vm_compute; reflexivity.
Qed.

(** ** The attempts on the backends never throw *)

Lemma returns_try_catch {A} (c : M A) (h : string -> M A) :
  (forall m, returns (h m)) -> returns (try_catch c h).
Proof.
  intros Hh w. unfold try_catch.
  destruct (c w) as [[a | m] w']; [ eauto | apply Hh ].
Qed.

Lemma returns_bind {A B} (c : M A) (k : A -> M B) :
  returns c -> (forall a, returns (k a)) -> returns (bind c k).
Proof.
  intros Hc Hk w. unfold bind.
  destruct (Hc w) as (a & w' & ->). apply Hk.
Qed.

Lemma returns_ret {A} (a : A) : returns (ret a).
Proof. intros w. unfold ret. eauto. Qed.

Lemma returns_emit (e : Host.event) : returns (emit e).
Proof. intros w. unfold emit, onHost, Host.emit. simpl. eauto. Qed.

Lemma returns_typeofDefined env a : returns (typeofDefined env a).
Proof.
  intros w. unfold typeofDefined, onHost, Host.typeofDefined, bind, Host.emit, ret.
  simpl. eauto.
Qed.

Lemma returns_getAI : returns getAI.
Proof. intros w. unfold getAI. eauto. Qed.

(** [_analyzeWithRewriter] and [_analyzeWithPrompt] catch whatever is thrown:
    they return a result or [null]. *)
Lemma analyzeWith_returns env a txt p : returns (AIService._analyzeWith env a txt p).
Proof.
  destruct a; simpl;
    unfold AIService._analyzeWithRewriter, AIService._analyzeWithPrompt;
    (apply returns_bind; [ apply returns_typeofDefined | intros isDefined ]);
    (destruct (negb isDefined); [ apply returns_ret | ]);
    apply returns_try_catch; intros m;
    (apply returns_bind; [ apply returns_emit | intros _; apply returns_ret ]).
Qed.

(** ** Validation comes before any backend interaction *)

(** Once the request is validated, [analyzeText] returns a response. *)
Lemma analyzeText_returns_when_valid env request :
  AIService._validateAnalysisRequest request = Return tt ->
  returns (AIService.analyzeText env request).
Proof.
  intros Hv. unfold AIService.analyzeText.
  intros w. unfold try_catch.
  match goal with
  | |- context [bind ?c ?k w] =>
      assert (H : returns (bind c k)); [ | destruct (H w) as (a & w' & ->); eauto ]
  end.
  apply returns_bind; [ rewrite Hv; apply (returns_ret tt) | intros _ ].
  apply returns_bind.
  { destruct (AIService.api_of _); [ apply analyzeWith_returns | apply returns_ret ]. }
  intros r1. apply returns_bind; [ apply returns_getAI | intros s ].
  apply returns_bind.
  { destruct r1; [ apply returns_ret | ].
    destruct (AIService.api_of _); [ | apply returns_ret ].
    destruct (fallbackEnabled s); [ | apply returns_ret ].
    apply returns_bind; [ apply returns_emit | intros _ ].
    apply returns_bind; [ apply analyzeWith_returns | intros r2; apply returns_ret ]. }
  intros r2. destruct r2; apply returns_ret.
Qed.

(** C4. [analyzeText] on an empty text throws [Text cannot be empty], and on
    a text longer than 5000 characters throws [TEXT_TOO_LONG]; in both cases
    the world is left as it was: nothing was asked of the host (no [typeof]
    probe, no [create], no [rewrite] or [prompt]) and no session was made.
    These two are the only exceptions that [analyzeText] throws. *)
Theorem validation_fails_before_any_backend_interaction :
  forall (env : Host.env) (request : AIService.AnalysisRequest) (w : World),
    (AIService.text request = AIService.Str EmptyString ->
     AIService.analyzeText env request w = (Throw "Text cannot be empty", w))
    /\ (forall s : string,
          AIService.text request = AIService.Str s ->
          5000 < JS.len s ->
          AIService.analyzeText env request w = (Throw "TEXT_TOO_LONG", w))
    /\ (forall (msg : string) (w' : World),
          AIService.analyzeText env request w = (Throw msg, w') ->
          w' = w /\ (msg = "Text cannot be empty" \/ msg = "TEXT_TOO_LONG")).
Proof.
  intros env request w. split; [ | split ].
  - intros Ht. unfold AIService.analyzeText, try_catch, bind at 1, lift.
    unfold AIService._validateAnalysisRequest. rewrite Ht. reflexivity.
  - intros s Ht Hlen. unfold AIService.analyzeText, try_catch, bind at 1, lift.
    unfold AIService._validateAnalysisRequest. rewrite Ht.
    destruct s as [ | c s' ]; [ unfold JS.len in Hlen; simpl in Hlen; lia | ].
    apply Z.ltb_lt in Hlen. rewrite Hlen. reflexivity.
  - intros msg w' Hthrow.
    destruct (AIService._validateAnalysisRequest request) as [[] | m] eqn:Hv.
    + destruct (analyzeText_returns_when_valid env request Hv w) as (a & w1 & Hret).
      congruence.
    + revert Hthrow. unfold AIService.analyzeText, try_catch, bind at 1, lift.
      rewrite Hv. unfold throw, ret.
      destruct (String.eqb_spec m "Text cannot be empty") as [-> | _].
      { intros H. injection H as <- <-. auto. }
      destruct (String.eqb_spec m "TEXT_TOO_LONG") as [-> | _].
      { intros H. injection H as <- <-. auto. }
      discriminate.
Qed.

(** ** The session cache *)

Lemma matches_set_lastUsed aType p t d :
  AIService.matches aType p (set_lastUsed t d) = AIService.matches aType p d.
Proof. reflexivity. Qed.

Lemma matches_new aType p h created used :
  AIService.matches aType p (mkSessionData h aType p created used) = true.
Proof. unfold AIService.matches. simpl. rewrite !String.eqb_refl. reflexivity. Qed.

(** A hit: the clock is read, the entry is touched, its session returned. *)
Lemma getOrCreateSession_hit env aType p (w : World) id d :
  cached aType p (sessions (ai w)) = Some (id, d) ->
  AIService._getOrCreateSession env aType p w =
    (Return (session d),
     snd (modifySessions
            (AIService.touch aType p (Host.now env (Host.ticks (host w))))
            (snd (dateNow env w)))).
Proof.
  unfold cached. intros Hfind.
  unfold AIService._getOrCreateSession. unfold bind at 1. unfold getAI at 1.
  rewrite Hfind. reflexivity.
Qed.

(** What [createSession] did when it answers with a session id. *)
Lemma createSession_created env aType p (w w' : World) id caps :
  AIService.createSession env aType (Some p) w = (Return (AIService.SessionCreated id caps), w') ->
  exists a h created used,
    AIService.api_of aType = Some a
    /\ sessions (ai w') =
         AIService.map_set id (mkSessionData h aType p created used) (sessions (ai w))
    /\ Host.log (host w') = (Host.log (host w) ++ [Host.Typeof a; Host.Create a p])%list
    /\ Host.draws (host w') = S (Host.draws (host w)).
Proof.
  unfold AIService.createSession, try_catch, bind at 1, lift.
  destruct (AIService._validateSessionRequest aType (Some p)) as [[] | msg].
  2:{ destruct (_ || _); unfold throw, ret; discriminate. }
  unfold AIService._generateSessionId.
  unfold bind, dateNow, mathRandom, onHost, Host.dateNow, Host.mathRandom, ret. simpl.
  destruct (AIService.api_of aType) as [a | ].
  2:{ unfold throw. simpl. discriminate. }
  unfold typeofDefined, hostCreate, onHost, Host.typeofDefined, Host.callCreate,
    bind, Host.emit, ret. simpl.
  destruct (Host.defined env a); simpl.
  2:{ discriminate. }
  destruct (Host.create env a _ p) as [h | msg]; simpl.
  - intros H. injection H as <- _ <-. simpl. exists a, h. rewrite <- app_assoc. simpl. eauto 10.
  - destruct (_ || _); unfold throw, ret; discriminate.
Qed.

Lemma cached_none_matching aType p m :
  cached aType p m = None <-> matching aType p m = [].
Proof.
  unfold cached, matching. induction m as [ | [k d] m IH ]; simpl; [ tauto | ].
  destruct (AIService.matches aType p d); [ split; discriminate | exact IH ].
Qed.

Lemma cached_map_set_new aType p id dnew m :
  AIService.matches aType p dnew = true ->
  cached aType p m = None ->
  cached aType p (AIService.map_set id dnew m) = Some (id, dnew)
  /\ matching aType p (AIService.map_set id dnew m) = [(id, dnew)].
Proof.
  intros Hnew. unfold cached, matching.
  induction m as [ | [k d] m IH ]; simpl.
  - rewrite Hnew. auto.
  - destruct (AIService.matches aType p d) eqn:Hd; [ discriminate | ].
    intros Hnone. destruct (String.eqb k id); simpl.
    + rewrite Hnew. split; [ reflexivity | ].
      f_equal. apply cached_none_matching. exact Hnone.
    + rewrite Hd. apply IH. exact Hnone.
Qed.

Lemma map_get_map_set id d m : AIService.map_get id (AIService.map_set id d m) = Some d.
Proof.
  induction m as [ | [k v] m IH ]; simpl.
  - rewrite String.eqb_refl. reflexivity.
  - destruct (String.eqb_spec k id) as [-> | Hne]; simpl.
    + rewrite String.eqb_refl. reflexivity.
    + apply String.eqb_neq in Hne. rewrite Hne. exact IH.
Qed.

Lemma touch_cached aType p t m id d :
  cached aType p m = Some (id, d) ->
  cached aType p (AIService.touch aType p t m) = Some (id, set_lastUsed t d)
  /\ matching aType p (AIService.touch aType p t m)
     = match matching aType p m with
       | [] => []
       | (k, v) :: rest => (k, set_lastUsed t v) :: rest
       end
  /\ length (AIService.touch aType p t m) = length m
  /\ map fst (AIService.touch aType p t m) = map fst m.
Proof.
  unfold cached, matching.
  induction m as [ | [k v] m IH ]; simpl; [ discriminate | ].
  destruct (AIService.matches aType p v) eqn:Hv.
  - intros H. injection H as <- <-. simpl. rewrite matches_set_lastUsed, Hv. auto.
  - intros H. simpl. rewrite Hv. destruct (IH H) as (H1 & H2 & H3 & H4).
    rewrite H1, H2, H3, H4. auto.
Qed.

(** After a call that returned a session, that session is the one of the
    first matching entry, and the table holds as many matching entries as
    before, or one if it held none. *)
Lemma getOrCreateSession_cached env aType p (w w1 : World) h :
  AIService._getOrCreateSession env aType p w = (Return h, w1) ->
  exists id d,
    cached aType p (sessions (ai w1)) = Some (id, d)
    /\ session d = h
    /\ length (matching aType p (sessions (ai w1)))
       = Nat.max 1 (length (matching aType p (sessions (ai w)))).
Proof.
  destruct (cached aType p (sessions (ai w))) as [[id d] | ] eqn:Hc.
  - rewrite (getOrCreateSession_hit env aType p w id d Hc).
    intros H. injection H as <- <-. simpl.
    destruct (touch_cached aType p (Host.now env (Host.ticks (host w))) _ id d Hc)
      as (H1 & H2 & _ & _).
    exists id, (set_lastUsed (Host.now env (Host.ticks (host w))) d).
    split; [ exact H1 | split; [ reflexivity | ] ].
    rewrite H2. unfold cached in Hc.
    destruct (matching aType p (sessions (ai w))) as [ | [k v] rest ] eqn:Hm.
    + apply cached_none_matching in Hm. unfold cached in Hm. congruence.
    + simpl. lia.
  - unfold AIService._getOrCreateSession. unfold bind at 1. unfold getAI at 1.
    unfold cached in Hc. rewrite Hc. unfold bind at 1.
    destruct (AIService.createSession env aType (Some p) w) as [[[id caps | code msg] | m] w']
      eqn:Hcreate; try (unfold throw; discriminate).
    destruct (createSession_created env aType p w w' id caps Hcreate)
      as (a & h' & created & used & _ & Hs & _).
    unfold bind, getAI. rewrite Hs, map_get_map_set. unfold ret.
    intros H. injection H as <- <-.
    destruct (cached_map_set_new aType p id (mkSessionData h' aType p created used)
                (sessions (ai w)) (matches_new aType p h' created used) Hc) as [H1 H2].
    exists id, (mkSessionData h' aType p created used).
    rewrite Hs, H1, H2. apply cached_none_matching in Hc. rewrite Hc. auto.
Qed.

Lemma cached_head_matching aType p m x :
  cached aType p m = Some x -> exists rest, matching aType p m = x :: rest.
Proof.
  unfold cached, matching. induction m as [ | [k d] m IH ]; simpl; [ discriminate | ].
  destruct (AIService.matches aType p d).
  - intros H. injection H as <-. eauto.
  - exact IH.
Qed.

(** The entry that a reuse touches is the first that matches; the table
    is the same before and behind it. *)
Lemma touch_split aType p t m id d :
  cached aType p m = Some (id, d) ->
  exists before after,
    m = (before ++ (id, d) :: after)%list
    /\ AIService.touch aType p t m = (before ++ (id, set_lastUsed t d) :: after)%list
    /\ Forall (fun kd => AIService.matches aType p (snd kd) = false) before.
Proof.
  unfold cached. induction m as [ | [k v] m IH ]; simpl; [ discriminate | ].
  destruct (AIService.matches aType p v) eqn:Hv.
  - intros H. injection H as <- <-. exists [], m. repeat split. constructor.
  - intros H. destruct (IH H) as (before & after & -> & Ht & Hall).
    exists ((k, v) :: before), after. simpl. rewrite Ht.
    repeat split. constructor; [ exact Hv | exact Hall ].
Qed.

(** C5. Two calls of [_getOrCreateSession] in a row with the same
    [(apiType, parameters)], the first of which returned a session: the
    second call returns the same session. It asks nothing of the host,
    draws no session id and adds no entry: it reads the clock once and
    sets [lastUsed] of the entry that the first call made or found, the
    first that matches, to that time; the key, the session, the type, the
    parameters and [createdAt] of that entry stay, and so does the rest of
    the table. The table then holds as many matching entries as before
    the two calls, or one if it held none: when it held at most one, that
    entry is the only one that matches. *)
Theorem getOrCreateSession_twice_same_entry :
  forall (env : Host.env) (aType : string) (p : Params.t) (w w1 : World) (h : Host.handle),
    AIService._getOrCreateSession env aType p w = (Return h, w1) ->
    exists (id : string) (d d2 : SessionData) (w2 : World)
           (before after : list (string * SessionData)),
      let t := Host.now env (Host.ticks (host w1)) in
      (* the entry behind the first call *)
      cached aType p (sessions (ai w1)) = Some (id, d)
      /\ session d = h
      (* the second call *)
      /\ AIService._getOrCreateSession env aType p w1 = (Return h, w2)
      /\ cached aType p (sessions (ai w2)) = Some (id, d2)
      (* the entry afterwards *)
      /\ session d2 = h
      /\ apiType d2 = apiType d
      /\ parameters d2 = parameters d
      /\ createdAt d2 = createdAt d
      /\ lastUsed d2 = t
      /\ d2 = set_lastUsed t d
      (* the table afterwards *)
      /\ sessions (ai w1) = (before ++ (id, d) :: after)%list
      /\ sessions (ai w2) = (before ++ (id, d2) :: after)%list
      /\ Forall (fun kd => AIService.matches aType p (snd kd) = false) before
      /\ sessions (ai w2) = AIService.touch aType p t (sessions (ai w1))
      /\ map fst (sessions (ai w2)) = map fst (sessions (ai w1))
      /\ length (sessions (ai w2)) = length (sessions (ai w1))
      /\ timers (ai w2) = timers (ai w1)
      (* the host *)
      /\ Host.log (host w2) = Host.log (host w1)
      /\ Host.ticks (host w2) = S (Host.ticks (host w1))
      /\ Host.draws (host w2) = Host.draws (host w1)
      (* the matching entries *)
      /\ length (matching aType p (sessions (ai w2)))
         = Nat.max 1 (length (matching aType p (sessions (ai w))))
      /\ ((length (matching aType p (sessions (ai w))) <= 1)%nat ->
          matching aType p (sessions (ai w1)) = [(id, d)]
          /\ matching aType p (sessions (ai w2)) = [(id, d2)]).
Proof.
  intros env aType p w w1 h Hfirst.
  destruct (getOrCreateSession_cached env aType p w w1 h Hfirst) as (id & d & Hc & <- & Hlen).
  destruct (cached_head_matching aType p _ _ Hc) as [rest Hm].
  set (t := Host.now env (Host.ticks (host w1))).
  destruct (touch_split aType p t _ id d Hc) as (before & after & Hbefore & Hafter & Hall).
  exists id, d, (set_lastUsed t d). eexists. exists before, after. cbv zeta. fold t.
  rewrite (getOrCreateSession_hit env aType p w1 id d Hc). fold t.
  destruct (touch_cached aType p t _ id d Hc) as (H1 & H2 & H3 & H4).
  split; [ exact Hc | ]. split; [ reflexivity | ]. split; [ reflexivity | ].
  simpl. rewrite H1, H2, Hm, H3, H4.
  do 7 (split; [ reflexivity | ]).
  split; [ exact Hbefore | ]. split; [ exact Hafter | ]. split; [ exact Hall | ].
  do 7 (split; [ reflexivity | ]).
  split.
  - rewrite <- Hlen, Hm. reflexivity.
  - intros Hone. assert (rest = []) as ->.
    { rewrite Hm in Hlen. simpl in Hlen. destruct rest; [ reflexivity | simpl in Hlen; lia ]. }
    split; reflexivity.
Qed.

(** C5 on a fresh service: the session made at the first call is used
    again at the second, 7 ms later by the clock of the host. *)
Lemma getOrCreateSession_twice_witness :
  exists (d d2 : SessionData) (w2 : World),
    let w1 := snd (AIService._getOrCreateSession answeringHost "rewriter" plainParameters
                     initial) in
    sessions (ai w1) = [("ai_session_1700000000000_q1w2e3", d)]
    /\ AIService._getOrCreateSession answeringHost "rewriter" plainParameters w1
       = (Return 1%nat, w2)
    /\ sessions (ai w2) = [("ai_session_1700000000000_q1w2e3", d2)]
    /\ d = mkSessionData 1%nat "rewriter" plainParameters 1700000000007 1700000000014
    /\ d2 = mkSessionData 1%nat "rewriter" plainParameters 1700000000007 1700000000021
    /\ Host.log (host w2) = Host.log (host w1).
Proof.
  destruct (getOrCreateSession_twice_same_entry answeringHost "rewriter" plainParameters
              initial
              (snd (AIService._getOrCreateSession answeringHost "rewriter" plainParameters
                      initial))
              1%nat eq_refl)
    as (id & d & d2 & w2 & before & after & Hc & _ & Hsecond & _ & _ & _ & _ & _ & _ & Hd2
        & _ & _ & _ & Htouch & _ & _ & _ & Hlog & _).
  cbv zeta in *.
  assert (Hd : (id, d) = ("ai_session_1700000000000_q1w2e3",
                          mkSessionData 1%nat "rewriter" plainParameters
                            1700000000007 1700000000014)).
  { vm_compute in Hc. injection Hc as <- <-. reflexivity. }
  injection Hd as -> ->.
  exists (mkSessionData 1%nat "rewriter" plainParameters 1700000000007 1700000000014), d2, w2.
  split; [ vm_compute; reflexivity | ]. split; [ exact Hsecond | ].
  split; [ rewrite Htouch, Hd2; vm_compute; reflexivity | ].
  split; [ reflexivity | ]. split; [ rewrite Hd2; vm_compute; reflexivity | exact Hlog ].
Defined.

(** Two calls in a row do not always leave exactly one matching entry: after
    two sessions were made by [createSession] itself for the same
    [(apiType, parameters)], both calls return the session of the first,
    and the table still holds the two entries, which both match. *)
Lemma getOrCreateSession_twice_keeps_two_matching_entries :
  exists (w1 w2 : World),
    AIService._getOrCreateSession answeringHost "rewriter" plainParameters twoDirectSessions
    = (Return 1%nat, w1)
    /\ AIService._getOrCreateSession answeringHost "rewriter" plainParameters w1
       = (Return 1%nat, w2)
    /\ map fst (sessions (ai w2))
       = ["ai_session_1700000000000_q1w2e3"; "ai_session_1700000000021_z9y8x7"]
    /\ length (matching "rewriter" plainParameters (sessions (ai w2))) = 2%nat.
Proof.
  exists (snd (AIService._getOrCreateSession answeringHost "rewriter" plainParameters
                 twoDirectSessions)).
  exists (snd (AIService._getOrCreateSession answeringHost "rewriter" plainParameters
                 (snd (AIService._getOrCreateSession answeringHost "rewriter"
                         plainParameters twoDirectSessions)))).
  split; [ vm_compute; reflexivity | ]. split; [ vm_compute; reflexivity | ].
  split; vm_compute; reflexivity.
Qed.

(** A miss that returns a session made it: one probe and one [create] on
    the host, and a new value in the table under a new session id. *)
Lemma getOrCreateSession_miss env aType p (w w' : World) h :
  cached aType p (sessions (ai w)) = None ->
  AIService._getOrCreateSession env aType p w = (Return h, w') ->
  exists a id created used,
    AIService.api_of aType = Some a
    /\ sessions (ai w') =
         AIService.map_set id (mkSessionData h aType p created used) (sessions (ai w))
    /\ Host.log (host w') = (Host.log (host w) ++ [Host.Typeof a; Host.Create a p])%list
    /\ Host.draws (host w') = S (Host.draws (host w)).
Proof.
  intros Hc. unfold AIService._getOrCreateSession. unfold bind at 1. unfold getAI at 1.
  unfold cached in Hc. rewrite Hc. unfold bind at 1.
  destruct (AIService.createSession env aType (Some p) w) as [[[id caps | code msg] | m] w1]
    eqn:Hcreate; try (unfold throw; discriminate).
  destruct (createSession_created env aType p w w1 id caps Hcreate)
    as (a & h' & created & used & Ha & Hs & Hlog & Hdraws).
  unfold bind, getAI. rewrite Hs, map_get_map_set. unfold ret.
  intros H. injection H as <- <-. exists a, id, created, used. auto.
Qed.

Lemma fingerprint_stored_cached aType p m :
  fingerprint_stored aType p m <-> exists x, cached aType p m = Some x.
Proof.
  unfold fingerprint_stored, cached. split.
  - intros (id & d & Hin & Ha & Hp).
    destruct (find _ m) as [x | ] eqn:Hf; [ eauto | ].
    exfalso. apply (find_none _ _ Hf) in Hin. simpl in Hin.
    unfold AIService.matches in Hin. rewrite Ha, Hp, !String.eqb_refl in Hin. discriminate.
  - intros [[id d] Hf]. apply find_some in Hf. destruct Hf as [Hin Hm].
    simpl in Hm. unfold AIService.matches in Hm. apply andb_prop in Hm.
    destruct Hm as [Ha Hp]. apply String.eqb_eq in Ha, Hp. exists id, d. auto.
Qed.

(** C10. [_getOrCreateSession] reuses a stored session exactly when some
    stored entry has the same [apiType] and a [JSON.stringify] of its
    parameters equal, as a string, to that of the requested parameters;
    otherwise a call that returns a session has created it. So parameter
    objects that are equal as maps from keys to values but list their keys
    in another order do not share a session: the parameters of a plain
    preferences object and those of a [UserPreferences] instance give two
    sessions. *)
Theorem session_reuse_compares_JSON_stringify :
  forall (env : Host.env) (aType : string) (p : Params.t) (w : World),
    (fingerprint_stored aType p (sessions (ai w)) <->
     exists id d,
       In (id, d) (sessions (ai w))
       /\ AIService._getOrCreateSession env aType p w
          = (Return (session d), reused env aType p w))
    /\ (~ fingerprint_stored aType p (sessions (ai w)) ->
        forall h w',
          AIService._getOrCreateSession env aType p w = (Return h, w') ->
          exists a id created used,
            AIService.api_of aType = Some a
            /\ sessions (ai w') =
                 AIService.map_set id (mkSessionData h aType p created used)
                   (sessions (ai w))
            /\ Host.log (host w')
               = (Host.log (host w) ++ [Host.Typeof a; Host.Create a p])%list)
    /\ (Params.to_map defaultOrder = Params.to_map instanceOrder
        /\ map fst defaultOrder <> map fst instanceOrder
        /\ Params.stringify defaultOrder <> Params.stringify instanceOrder
        /\ map (fun kd => (session (snd kd), parameters (snd kd)))
             (sessions (ai afterBothOrders))
           = [(1%nat, defaultOrder); (3%nat, instanceOrder)]
        /\ List.filter Host.is_backend_event (Host.log (host afterBothOrders))
           = [Host.Typeof Host.Rewriter; Host.Create Host.Rewriter defaultOrder;
              Host.Typeof Host.Rewriter; Host.Create Host.Rewriter instanceOrder]).
Proof.
  intros env aType p w. split; [ | split ].
  - rewrite fingerprint_stored_cached. split.
    + intros [[id d] Hc]. exists id, d. split.
      * unfold cached in Hc. apply find_some in Hc. tauto.
      * exact (getOrCreateSession_hit env aType p w id d Hc).
    + intros (id & d & _ & Hrun).
      destruct (cached aType p (sessions (ai w))) as [x | ] eqn:Hc; [ eauto | ].
      exfalso.
      destruct (getOrCreateSession_miss env aType p w _ _ Hc Hrun)
        as (a & id' & created & used & _ & _ & _ & Hdraws).
      unfold reused in Hdraws. simpl in Hdraws. lia.
  - intros Hno h w' Hrun.
    destruct (cached aType p (sessions (ai w))) as [x | ] eqn:Hc.
    + exfalso. apply Hno. apply fingerprint_stored_cached. eauto.
    + destruct (getOrCreateSession_miss env aType p w _ _ Hc Hrun)
        as (a & id' & created & used & Ha & Hs & Hlog & _).
      exists a, id', created, used. auto.
  - split; [ vm_compute; reflexivity | ].
    split; [ discriminate | ].
    split; [ vm_compute; discriminate | ].
    split; reflexivity.
Qed.

(** ** The success path of one attempt *)

(** With backend [a] defined, [create] answering and valid parameters, a
    session is found or made. *)
Lemma getOrCreateSession_returns env (a : Host.api) (p : Params.t) (w : World) :
  Host.defined env a = true ->
  (forall log q, JS.isReturn (Host.create env a log q) = true) ->
  AIService._validateParameters p = Return tt ->
  exists h w', AIService._getOrCreateSession env (Host.name a) p w = (Return h, w').
Proof.
  intros Hdef Hcreate Hp.
  unfold AIService._getOrCreateSession. unfold bind at 1. unfold getAI at 1.
  destruct (find _ (sessions (ai w))) as [[id d] | ]; [ eauto | ].
  unfold bind at 1.
  assert (Hc : exists id caps w1 h created used,
             AIService.createSession env (Host.name a) (Some p) w
             = (Return (AIService.SessionCreated id caps), w1)
             /\ sessions (ai w1)
                = AIService.map_set id (mkSessionData h (Host.name a) p created used)
                    (sessions (ai w))).
  { unfold AIService.createSession, try_catch, bind at 1, lift.
    assert (Hv : AIService._validateSessionRequest (Host.name a) (Some p) = Return tt).
    { unfold AIService._validateSessionRequest. destruct a; simpl; exact Hp. }
    rewrite Hv. unfold AIService._generateSessionId.
    unfold bind, dateNow, mathRandom, onHost, Host.dateNow, Host.mathRandom, ret. simpl.
    rewrite api_of_name.
    unfold typeofDefined, hostCreate, onHost, Host.typeofDefined, Host.callCreate,
      bind, Host.emit, ret. simpl. rewrite Hdef. simpl.
    match goal with
    | |- context [Host.create env a ?l p] =>
        specialize (Hcreate l p); destruct (Host.create env a l p) as [h | m];
        [ | discriminate ]
    end.
    simpl. do 6 eexists. split; reflexivity. }
  destruct Hc as (id & caps & w1 & h & created & used & -> & Hs).
  unfold bind, getAI. rewrite Hs, map_get_map_set. unfold ret. eauto.
Qed.

(** One attempt on an available backend that echoes: a successful analysis
    with the text unchanged and no change detail. *)
Lemma analyzeWith_echo env (a : Host.api) (txt : string) (p : Params.t) (w : World) :
  Host.defined env a = true ->
  (forall log q, JS.isReturn (Host.create env a log q) = true) ->
  AIService._validateParameters p = Return tt ->
  echoes env a txt ->
  exists an w1,
    AIService._analyzeWith env a txt p w = (Return (Some an), w1)
    /\ AIResponse.improvedText an = txt
    /\ AIResponse.changes an = []
    /\ AIResponse.apiUsed an = Host.name a.
Proof.
  intros Hdef Hcreate Hp Hecho.
  set (w0 := snd (dateNow env (snd (emit (Host.Typeof a) w)))).
  destruct (getOrCreateSession_returns env a p w0 Hdef Hcreate Hp) as (h & w' & Hs).
  assert (Hchanges : AIService._generateChangeDetails txt txt = []).
  { unfold AIService._generateChangeDetails. rewrite String.eqb_refl. reflexivity. }
  destruct a; simpl in *;
    unfold AIService._analyzeWithRewriter, AIService._analyzeWithPrompt;
    unfold bind at 1; unfold typeofDefined, onHost, Host.typeofDefined;
    unfold bind at 1; simpl; rewrite Hdef; simpl;
    unfold try_catch; unfold bind at 1; simpl;
    unfold bind at 1; fold w0; rewrite Hs;
    unfold bind at 1; unfold hostRun, onHost, Host.callRun.
  - rewrite (Hecho _ h p). simpl. rewrite Hchanges. do 2 eexists. split; [ reflexivity | auto ].
  - specialize (Hecho (Host.log (host w')) h p []). simpl in Hecho. rewrite Hecho.
    simpl. rewrite Hchanges. do 2 eexists. split; [ reflexivity | auto ].
Qed.

(** A backend whose [rewrite] or [prompt] raises makes the attempt fail. *)
Lemma analyzeWith_raises env (a : Host.api) (txt : string) (p : Params.t) (w : World) :
  (forall log h input options, JS.isReturn (Host.run env a log h input options) = false) ->
  fst (AIService._analyzeWith env a txt p w) = Return None.
Proof.
  intros Hraise.
  destruct a; simpl;
    unfold AIService._analyzeWithRewriter, AIService._analyzeWithPrompt;
    unfold bind at 1; unfold typeofDefined, onHost, Host.typeofDefined;
    unfold bind at 1; simpl;
    (destruct (Host.defined env _); simpl; [ | reflexivity ]);
    unfold try_catch; unfold bind at 1; simpl;
    unfold bind at 1;
    match goal with
    | |- context [AIService._getOrCreateSession env ?n p ?x] =>
        destruct (AIService._getOrCreateSession env n p x) as [[h | m] w1]
    end; try reflexivity;
    unfold bind at 1; unfold hostRun, onHost, Host.callRun;
    match goal with
    | |- context [Host.run env ?b ?l ?s ?i ?o] =>
        specialize (Hraise l s i o); destruct (Host.run env b l s i o); [ discriminate | ]
    end; reflexivity.
Qed.

(** ** The fallback protocol *)

(** A request with a valid text, for one of the two backends and with valid
    parameters, passes the validation. *)
Lemma validateAnalysisRequest_ok (request : AIService.AnalysisRequest) (txt : string)
    (a : Host.api) :
  AIService.text request = AIService.Str txt ->
  txt <> EmptyString ->
  JS.len txt <= 5000 ->
  AIService.api_of (AIService.req_apiType request) = Some a ->
  AIService._validateParameters (default [] (AIService.req_parameters request)) = Return tt ->
  AIService._validateAnalysisRequest request = Return tt.
Proof.
  intros Ht Hne Hlen Ha Hp. unfold AIService._validateAnalysisRequest. rewrite Ht.
  destruct txt as [ | c s ]; [ contradiction | ].
  apply Z.ltb_ge in Hlen. rewrite Hlen. simpl.
  destruct (AIService.req_apiType request) as [ | c' s' ]; [ discriminate | ].
  simpl. destruct (AIService.req_parameters request); [ exact Hp | reflexivity ].
Qed.

(** *** What one attempt asks of the host *)

(** One attempt on an available backend that answers. *)
Lemma analyzeWith_answer env (a : Host.api) (txt improved : string) (p : Params.t)
    (w : World) :
  Host.defined env a = true ->
  (forall log q, JS.isReturn (Host.create env a log q) = true) ->
  AIService._validateParameters p = Return tt ->
  answers env a txt improved ->
  exists an w1,
    AIService._analyzeWith env a txt p w = (Return (Some an), w1)
    /\ AIResponse.improvedText an = improved.
Proof.
  intros Hdef Hcreate Hp Hanswer.
  set (w0 := snd (dateNow env (snd (emit (Host.Typeof a) w)))).
  destruct (getOrCreateSession_returns env a p w0 Hdef Hcreate Hp) as (h & w' & Hs).
  destruct a; simpl in *;
    unfold AIService._analyzeWithRewriter, AIService._analyzeWithPrompt;
    unfold bind at 1; unfold typeofDefined, onHost, Host.typeofDefined;
    unfold bind at 1; simpl; rewrite Hdef; simpl;
    unfold try_catch; unfold bind at 1; simpl;
    unfold bind at 1; fold w0; rewrite Hs;
    unfold bind at 1; unfold hostRun, onHost, Host.callRun.
  - rewrite (Hanswer _ h p). simpl. do 2 eexists. split; reflexivity.
  - specialize (Hanswer (Host.log (host w')) h p []). simpl in Hanswer. rewrite Hanswer.
    simpl. do 2 eexists. split; reflexivity.
Qed.



(** An unavailable backend makes the attempt fail after the probe. *)
Lemma analyzeWith_unavailable env a txt p (w : World) :
  Host.defined env a = false ->
  AIService._analyzeWith env a txt p w
  = (Return None, snd (emit (Host.Typeof a) w)).
Proof.
  intros Hdef.
  destruct a; simpl; unfold AIService._analyzeWithRewriter, AIService._analyzeWithPrompt;
    unfold bind, typeofDefined, onHost, Host.typeofDefined, bind, ret; simpl;
    rewrite Hdef; reflexivity.
Qed.



(** ** The error path of [analyzeTextContent] *)

(** C9. When the backend analysis fails on a sample that [analyzeTextContent]
    has put in state [Analyzing], the error handler calls [setRejected] on
    the sample in that state; that call throws, so the caller gets
    [Cannot transition to Rejected from Analyzing] whatever the failure
    was, the sample stays in state [Analyzing] and the history is as it
    was. *)
Theorem failed_analysis_surfaces_the_transition_error :
  forall (env : Host.env) (prefs : TextAnalyzer.Preferences) (tc : TextContent.t)
         (w : World),
    TextContent.isEmpty tc = false ->
    TextContent.state tc = "Created" ->
    analysis_fails env prefs tc w = true ->
    exists w' : World,
      TextAnalyzer.analyzeTextContent env prefs (tc, w)
      = (Throw "Cannot transition to Rejected from Analyzing",
         (TextContent.set_state "Analyzing" tc, w'))
      /\ TextContent.state (TextContent.set_state "Analyzing" tc) = "Analyzing"
      /\ TextContent.setRejected (TextContent.set_state "Analyzing" tc)
         = (Throw "Cannot transition to Rejected from Analyzing",
            TextContent.set_state "Analyzing" tc)
      /\ analysisHistory (ta w') = analysisHistory (ta w).
Proof.
  intros env prefs tc w Hne Hst Hfail.
  rewrite analyzeTextContent_paths, Hne, Hst. simpl negb. cbv iota zeta.
  unfold analysis_fails in Hfail.
  pose proof (keeps_ta_analyzeText env (TextAnalyzer._createAnalysisRequest tc prefs) w) as Hta.
  destruct (AIService.analyzeText env _ w) as [[[a | code msg] | m] w1]; simpl in Hta.
  - destruct (ClarityImprovement.createFromAIResponse env _ _ (host w1)) as [[ci | m] h2];
      [ discriminate | ].
    eexists. split; [ reflexivity | ]. simpl. rewrite Hta. auto.
  - eexists. split; [ reflexivity | ]. simpl. rewrite Hta. auto.
  - eexists. split; [ reflexivity | ]. simpl. rewrite Hta. auto.
Qed.

(** C9 on a page without any backend: the service answers
    [API_UNAVAILABLE], the caller gets the transition error. *)
Lemma failed_analysis_witness :
  exists w' : World,
    TextAnalyzer.analyzeTextContent bareHost TextAnalyzer.noPreferences (greeting, initial)
    = (Throw "Cannot transition to Rejected from Analyzing",
       (TextContent.set_state "Analyzing" greeting, w'))
    /\ TextContent.state (TextContent.set_state "Analyzing" greeting) = "Analyzing"
    /\ TextContent.setRejected (TextContent.set_state "Analyzing" greeting)
       = (Throw "Cannot transition to Rejected from Analyzing",
          TextContent.set_state "Analyzing" greeting)
    /\ analysisHistory (ta w') = analysisHistory (ta initial).
Proof.
  apply (failed_analysis_surfaces_the_transition_error bareHost TextAnalyzer.noPreferences
           greeting initial); reflexivity.
Defined.

(** ** A backend that returns the text unchanged *)

(** The parameters made from preferences are valid. *)
Lemma preference_parameters_valid (tc : TextContent.t) (prefs : TextAnalyzer.Preferences) :
  AIService._validateParameters
    (default [] (AIService.req_parameters (TextAnalyzer._createAnalysisRequest tc prefs)))
  = Return tt.
Proof.
  unfold TextAnalyzer._createAnalysisRequest, TextAnalyzer.getAIParameters,
    TextAnalyzer._getDefaultParameters. simpl.
  destruct (TextAnalyzer.isUserPreferences prefs);
    destruct (String.eqb _ "formal"); try reflexivity;
    destruct (String.eqb _ "casual"); reflexivity.
Qed.

(** No change record can be made of a text and itself. *)
Lemma createFromAIResponse_rejects_echo env (an : AIResponse.analysis) (txt : string)
    (h : Host.state) :
  txt <> EmptyString ->
  AIResponse.improvedText an = txt ->
  AIResponse.changes an = [] ->
  ClarityImprovement.createFromAIResponse env (AIResponse.Success an) txt h
  = (Throw "originalPhrase and improvedPhrase must not be identical", h).
Proof.
  intros Hne Himp Hch. unfold ClarityImprovement.createFromAIResponse.
  rewrite Hch, Himp. unfold bind, lift. unfold ChangeDetail.new, ChangeDetail._validate.
  simpl. destruct txt as [ | c s ]; [ contradiction | ].
  simpl. rewrite Ascii.eqb_refl, String.eqb_refl. reflexivity.
Qed.

(** C1, as the code has it. For every text of 1 to 5000 characters and a
    backend that returns it unchanged: the AI service answers with a
    successful response whose improved text is the original text and whose
    list of changes is empty; no whole-span change record is made for it,
    since the phrases of a change record must differ:
    [createFromAIResponse] rejects the response, and [analyzeTextContent]
    ends with an exception instead of a result. *)
Theorem echo_gives_no_change_record :
  forall (env : Host.env) (prefs : TextAnalyzer.Preferences) (tc : TextContent.t)
         (a : Host.api) (w : World),
    1 <= JS.len (TextContent.originalText tc) <= 5000 ->
    AIService.api_of (AIService.req_apiType (TextAnalyzer._createAnalysisRequest tc prefs))
      = Some a ->
    Host.defined env a = true ->
    (forall log q, JS.isReturn (Host.create env a log q) = true) ->
    echoes env a (TextContent.originalText tc) ->
    exists (an : AIResponse.analysis) (w1 : World),
      AIService.analyzeText env (TextAnalyzer._createAnalysisRequest tc prefs) w
        = (Return (AIResponse.Success an), w1)
      /\ AIResponse.improvedText an = TextContent.originalText tc
      /\ AIResponse.changes an = []
      /\ (forall h : Host.state,
            ClarityImprovement.createFromAIResponse env (AIResponse.Success an)
              (TextContent.originalText tc) h
            = (Throw "originalPhrase and improvedPhrase must not be identical", h))
      /\ JS.isReturn (fst (TextAnalyzer.analyzeTextContent env prefs (tc, w))) = false.
Proof.
  intros env prefs tc a w Hlen Ha Hdef Hcreate Hecho.
  set (request := TextAnalyzer._createAnalysisRequest tc prefs) in *.
  set (txt := TextContent.originalText tc) in *.
  assert (Hne : txt <> EmptyString).
  { intros E. rewrite E in Hlen. unfold JS.len in Hlen. simpl in Hlen. lia. }
  pose proof (preference_parameters_valid tc prefs) as Hp. fold request in Hp.
  destruct (analyzeWith_echo env a txt _ w Hdef Hcreate Hp Hecho)
    as (an & w1 & Hrun & Himp & Hch & Hapi).
  assert (Hanalyze : AIService.analyzeText env request w = (Return (AIResponse.Success an), w1)).
  { unfold AIService.analyzeText, try_catch.
    rewrite (validateAnalysisRequest_ok request txt a eq_refl Hne (proj2 Hlen) Ha Hp).
    rewrite Ha. change (AIService.text request) with (AIService.Str txt). cbv iota.
    unfold bind at 1. unfold lift at 1.
    unfold bind at 1. rewrite Hrun.
    unfold bind at 1. unfold getAI at 1.
    unfold bind at 1. unfold ret. reflexivity. }
  exists an, w1.
  split; [ exact Hanalyze | ]. split; [ exact Himp | ]. split; [ exact Hch | ].
  split.
  - intros h. apply createFromAIResponse_rejects_echo; assumption.
  - rewrite analyzeTextContent_paths.
    destruct (TextContent.isEmpty tc); [ reflexivity | ].
    destruct (negb _); [ destruct (String.eqb _ _); reflexivity | ].
    fold request. rewrite Hanalyze. fold txt.
    rewrite (createFromAIResponse_rejects_echo env an txt (host w1) Hne Himp Hch).
    reflexivity.
Qed.

(** C1 does not hold as stated: with the echoing rewriter, the analysis of
    a valid text is not a success with one change record. The AI service
    reports no change, and the analysis throws. *)
Lemma echo_analysis_throws :
  fst (TextAnalyzer.analyzeTextContent echoHost TextAnalyzer.noPreferences (report, initial))
  = Throw "Cannot transition to Rejected from Analyzing"
  /\ fst (TextAnalyzer.analyzeText echoHost "Please send the report."
            (TextAnalyzer.mkOptions "" "" TextAnalyzer.noPreferences) initial)
     = Throw "Cannot transition to Rejected from Analyzing"
  /\ fst (AIService.analyzeText echoHost
            (TextAnalyzer._createAnalysisRequest report TextAnalyzer.noPreferences) initial)
     = Return (AIResponse.Success
                 (AIResponse.mkAnalysis "Please send the report." (7 # 10) 16 "rewriter" [])).
Proof. vm_compute. repeat split; reflexivity. Qed.

(** The amended C1 on the echoing rewriter. *)
Lemma echo_witness :
  exists (an : AIResponse.analysis) (w1 : World),
    AIService.analyzeText echoHost
      (TextAnalyzer._createAnalysisRequest report TextAnalyzer.noPreferences) initial
      = (Return (AIResponse.Success an), w1)
    /\ AIResponse.improvedText an = TextContent.originalText report
    /\ AIResponse.changes an = []
    /\ (forall h : Host.state,
          ClarityImprovement.createFromAIResponse echoHost (AIResponse.Success an)
            (TextContent.originalText report) h
          = (Throw "originalPhrase and improvedPhrase must not be identical", h))
    /\ JS.isReturn
         (fst (TextAnalyzer.analyzeTextContent echoHost TextAnalyzer.noPreferences
                 (report, initial))) = false.
Proof.
  apply (echo_gives_no_change_record echoHost TextAnalyzer.noPreferences report
           Host.Rewriter initial).
  - vm_compute. split; discriminate.
  - reflexivity.
  - reflexivity.
  - reflexivity.
  - intros log h p options. reflexivity.
Defined.

(** * Further properties of the code *)

(** ** The text sample: word count, blank text, serialization *)

(** The fields of a split that are not empty are the words of the text. *)
Lemma split_ws_words (s : string) :
  exists t ts,
    JS.split_ws s = t :: ts
    /\ length (List.filter (fun w => (0 <? String.length w)%nat) ts)
       = Spec.countWordsFrom true s
    /\ JS.falsy t = isEmptyString s || startsWs s.
Proof.
  induction s as [ | c s' IH ].
  - exists EmptyString, []. repeat split; reflexivity.
  - destruct IH as (t & ts & Hsplit & Hlen & Hhead).
    simpl. rewrite Hsplit. destruct (JS.isWhiteSpace c) eqn:Hc.
    + destruct s' as [ | d s'' ].
      * exists EmptyString, [t]. simpl in Hsplit. injection Hsplit as <- <-.
        repeat split; reflexivity.
      * simpl in Hhead. destruct (JS.isWhiteSpace d) eqn:Hd.
        -- exists t, ts. repeat split.
           ++ rewrite Hlen. simpl. rewrite Hd. reflexivity.
           ++ rewrite Hhead. reflexivity.
        -- exists EmptyString, (t :: ts). repeat split.
           simpl. rewrite Hd. destruct t as [ | a t' ]; [ discriminate | ].
           simpl. rewrite Hlen. simpl. rewrite Hd. reflexivity.
    + exists (String c t), ts. repeat split. exact Hlen.
Qed.

Lemma countWords_trim (s : string) : Spec.countWords (JS.trim s) = Spec.countWords s.
Proof.
  unfold Spec.countWords, JS.trim.
  rewrite countWordsFrom_trimEnd. apply countWordsFrom_trimStart.
Qed.

Lemma startsWs_trim (s : string) : startsWs (JS.trim s) = false.
Proof. unfold JS.trim. apply startsWs_trimEnd, startsWs_trimStart. Qed.

(** The trimmed text is empty exactly when the text has no word. *)
Lemma trim_empty_iff (s : string) :
  (JS.len (JS.trim s) =? 0) = Nat.eqb (Spec.countWords s) 0.
Proof.
  rewrite <- countWords_trim.
  pose proof (startsWs_trim s) as Hs.
  destruct (JS.trim s) as [ | c r ] eqn:E; [ reflexivity | ].
  pose proof (countWords_nonempty (String c r) Hs eq_refl) as Hpos.
  destruct (Spec.countWords (String c r)); [ lia | reflexivity ].
Qed.

Lemma calculateWordCount_words (s : string) :
  TextContent._calculateWordCount s = Z.of_nat (Spec.countWords s).
Proof.
  unfold TextContent._calculateWordCount.
  destruct s as [ | c s' ]; [ reflexivity | ].
  cbn [JS.falsy]. f_equal.
  rewrite <- countWords_trim.
  pose proof (startsWs_trim (String c s')) as Hs.
  destruct (split_ws_words (JS.trim (String c s'))) as (t & ts & -> & Hlen & Hhead).
  unfold Spec.countWords. rewrite countWordsFrom_true, <- Hhead, <- Hlen.
  destruct t as [ | a t' ]; simpl; lia.
Qed.

(** X1. The word count of a sample is the number of words of its text: the
    maximal runs of characters that are not white space. White space at
    either end and runs of several white-space characters count nothing,
    and a text without a word counts 0. *)
Theorem wordCount_is_the_number_of_words :
  forall (text fType fContext : string) (now : Z),
    TextContent._calculateWordCount text = Z.of_nat (Spec.countWords text)
    /\ (forall tc, TextContent.new text fType fContext now = Return tc ->
                   TextContent.wordCount tc = Z.of_nat (Spec.countWords text)
                   /\ TextContent.isShort tc = (Spec.countWords text <? 3)%nat
                   /\ TextContent.isLong tc = (200 <? Spec.countWords text)%nat).
Proof.
  intros text fType fContext now. split; [ apply calculateWordCount_words | ].
  intros tc H. unfold TextContent.new in H.
  destruct (TextContent._validate _); [ | discriminate ].
  simpl in H. injection H as <-.
  unfold TextContent.isShort, TextContent.isLong. simpl.
  rewrite calculateWordCount_words. repeat split.
  - destruct (Nat.ltb_spec (Spec.countWords text) 3); lia.
  - destruct (Nat.ltb_spec 200 (Spec.countWords text)); lia.
Qed.

(** X2. A text without a word is refused before anything happens. The
    constructor accepts it (it checks the length only), and the sample is
    empty exactly when its text has no word; [analyzeTextContent] then
    throws [Cannot analyze empty text content] whatever the state of the
    sample, and leaves the sample and the program state as they were. *)
Theorem blank_sample_is_refused_untouched :
  forall (env : Host.env) (prefs : TextAnalyzer.Preferences) (tc : TextContent.t)
         (w : World),
    TextContent.isEmpty tc = Nat.eqb (Spec.countWords (TextContent.originalText tc)) 0
    /\ (Spec.countWords (TextContent.originalText tc) = 0%nat ->
        TextAnalyzer.analyzeTextContent env prefs (tc, w)
        = (Throw "Cannot analyze empty text content", (tc, w)))
    /\ (Spec.countWords (TextContent.originalText tc) = 0%nat ->
        1 <= JS.len (TextContent.originalText tc) <= 5000 ->
        TextContent.new (TextContent.originalText tc) "textarea" "temp-analysis"
          (TextContent.timestamp tc)
        = Return (TextContent.mk (TextContent.originalText tc) "textarea" "temp-analysis"
                    (TextContent.timestamp tc) 0 "Created")).
Proof.
  intros env prefs tc w.
  assert (He : TextContent.isEmpty tc
               = Nat.eqb (Spec.countWords (TextContent.originalText tc)) 0).
  { unfold TextContent.isEmpty. apply trim_empty_iff. }
  split; [ exact He | split ].
  - intros H0. rewrite analyzeTextContent_paths, He, H0. reflexivity.
  - intros H0 [Hlo Hhi]. unfold TextContent.new, TextContent._validate.
    rewrite calculateWordCount_words, H0. cbn [TextContent.originalText
      TextContent.fieldType TextContent.fieldContext].
    destruct (Z.eqb_spec (JS.len (TextContent.originalText tc)) 0); [ lia | ].
    destruct (Z.ltb_spec 5000 (JS.len (TextContent.originalText tc))); [ lia | ].
    reflexivity.
Qed.

(** *** Runs of transition calls *)

Lemma stage_target (m : TextContent.method) :
  stage (TextContent.target m) = S (stage (TextContent.source m)).
Proof. destruct m; reflexivity. Qed.

Lemma callAll_stage (ms : list TextContent.method) : forall tc : TextContent.t,
  let (n, tc') := callAll ms tc in
  (stage (TextContent.state tc) + n = stage (TextContent.state tc'))%nat
  /\ tc' = TextContent.set_state (TextContent.state tc') tc
  /\ (n = 0%nat -> tc' = tc).
Proof.
  induction ms as [ | m ms' IH ]; intros tc.
  - simpl. split; [ lia | ]. split; [ destruct tc; reflexivity | reflexivity ].
  - simpl. rewrite call_spec.
    destruct (String.eqb_spec (TextContent.state tc) (TextContent.source m)) as [E | E].
    + specialize (IH (TextContent.set_state (TextContent.target m) tc)).
      destruct (callAll ms' _) as [n tc'']. destruct IH as (Hn & Htc & _).
      simpl in Hn. rewrite stage_target, <- E in Hn. split; [ lia | ].
      split; [ | discriminate ].
      rewrite Htc. destruct tc; reflexivity.
    + apply IH.
Qed.

Lemma stage_bound (st : string) : (stage st <= 3)%nat.
Proof. unfold stage. repeat destruct (String.eqb _ _); lia. Qed.

(** X3. The life cycle only moves forward. Whatever transition methods are
    called on a sample, in whatever order and with the failed calls caught:
    each call that returns moves the sample one stage further, so at most
    three calls return on a new sample; nothing but the state of the sample
    changes; and on an accepted or rejected sample every call throws. *)
Theorem lifecycle_runs_move_forward :
  forall (ms : list TextContent.method) (tc : TextContent.t),
    let (n, tc') := callAll ms tc in
    (stage (TextContent.state tc) + n = stage (TextContent.state tc'))%nat
    /\ (n <= 3)%nat
    /\ tc' = TextContent.set_state (TextContent.state tc') tc
    /\ (stage (TextContent.state tc) = 3%nat -> n = 0%nat /\ tc' = tc).
Proof.
  intros ms tc. pose proof (callAll_stage ms tc) as H.
  destruct (callAll ms tc) as [n tc']. destruct H as (Hn & Htc & H0).
  pose proof (stage_bound (TextContent.state tc')) as Hb.
  split; [ exact Hn | ]. split; [ lia | ]. split; [ exact Htc | ].
  intros H3. assert (n = 0%nat) as -> by lia. auto.
Qed.

(** ** Change records and improvements: what a validated value satisfies *)

Lemma throw_if_return (b : bool) (msg : string) :
  throw_if b msg = Return tt <-> b = false.
Proof. destruct b; simpl; split; congruence. Qed.

Lemma throw_if_then_return (b : bool) (msg : string) (r : result unit) :
  (throw_if b msg ;; r) = Return tt <-> b = false /\ r = Return tt.
Proof.
  destruct b; simpl; split.
  - discriminate.
  - intros [H _]. discriminate.
  - auto.
  - intros [_ H]. exact H.
Qed.

Lemma elem_In (x : string) (xs : list string) : JS.elem x xs = true <-> In x xs.
Proof.
  unfold JS.elem. rewrite existsb_exists. split.
  - intros (y & Hy & E). apply String.eqb_eq in E. subst y. exact Hy.
  - intros H. exists x. split; [ exact H | apply String.eqb_refl ].
Qed.

Lemma falsy_false (s : string) : JS.falsy s = false <-> s <> EmptyString.
Proof. destruct s; simpl; split; congruence. Qed.

Lemma validate_change (c : ChangeDetail.t) :
  ChangeDetail._validate c = Return tt <-> valid_change c.
Proof.
  unfold ChangeDetail._validate, valid_change.
  rewrite !throw_if_then_return, throw_if_return.
  rewrite negb_false_iff, elem_In, !falsy_false.
  rewrite <- not_true_iff_false, String.eqb_eq.
  rewrite !Z.ltb_ge, Z.leb_gt. intuition lia.
Qed.

Lemma Qltb_ge (a b : Q) : Qltb a b = false <-> (b <= a)%Q.
Proof.
  unfold Qltb. rewrite negb_false_iff. apply Qle_bool_iff.
Qed.

Lemma validate_improvement (ci : ClarityImprovement.t) :
  ClarityImprovement._validate ci = Return tt
  /\ Forall valid_change (ClarityImprovement.changes ci)
  <-> valid_improvement ci.
Proof.
  unfold ClarityImprovement._validate, valid_improvement.
  rewrite !throw_if_then_return, throw_if_return.
  rewrite negb_false_iff, elem_In, falsy_false, orb_false_iff, !Qltb_ge.
  rewrite Z.leb_gt, Nat.eqb_neq.
  destruct (ClarityImprovement.changes ci); simpl; intuition (try congruence; try lia).
Qed.

Lemma new_change_valid (cType orig impr why : string) (startPos endPos : Z) (c : ChangeDetail.t) :
  ChangeDetail.new cType orig impr why startPos endPos = Return c <->
  c = ChangeDetail.mk cType orig impr why startPos endPos /\ valid_change c.
Proof.
  unfold ChangeDetail.new. rewrite <- validate_change.
  destruct (ChangeDetail._validate (ChangeDetail.mk _ _ _ _ _ _)) eqn:E; simpl.
  - destruct a. split.
    + intros H. injection H as <-. auto.
    + intros [-> _]. reflexivity.
  - split; [ discriminate | ]. intros [-> H]. congruence.
Qed.

Lemma mapM_Return {A B} (f : A -> result B) (xs : list A) (ys : list B) :
  ClarityImprovement.mapM f xs = Return ys <-> Forall2 (fun x y => f x = Return y) xs ys.
Proof.
  revert ys. induction xs as [ | x xs' IH ]; intros ys; simpl.
  - split.
    + intros H. injection H as <-. constructor.
    + intros H. inversion H. reflexivity.
  - destruct (f x) as [y | m] eqn:Ex; simpl.
    + destruct (ClarityImprovement.mapM f xs') as [ys' | m] eqn:Em; simpl.
      * split.
        -- intros H. injection H as <-. constructor; [ exact Ex | ]. apply IH. reflexivity.
        -- intros H. inversion H as [ | ? y0 ? ys0 Hy Hys ]; subst.
           apply IH in Hys. congruence.
      * split; [ discriminate | ].
        intros H. inversion H as [ | ? y0 ? ys0 Hy Hys ]; subst.
        apply IH in Hys. discriminate.
    + split; [ discriminate | ].
      intros H. inversion H as [ | ? y0 ? ys0 Hy Hys ]; subst. congruence.
Qed.

(** Building validated records from plain ones changes nothing in them. *)
Lemma mapM_fromJSON (chs chs' : list ChangeDetail.t) :
  ClarityImprovement.mapM ChangeDetail.fromJSON chs = Return chs' <->
  chs' = chs /\ Forall valid_change chs.
Proof.
  rewrite mapM_Return. split.
  - intros H. induction H as [ | x y xs ys Hxy _ IH ]; [ auto | ].
    unfold ChangeDetail.fromJSON in Hxy. apply new_change_valid in Hxy.
    destruct Hxy as [-> Hv]. destruct IH as [-> Hvs].
    destruct x; simpl in *. auto.
  - intros [-> H]. induction H as [ | x xs Hx _ IH ]; constructor; [ | exact IH ].
    unfold ChangeDetail.fromJSON. apply new_change_valid. split; [ | ].
    + destruct x; reflexivity.
    + destruct x; exact Hx.
Qed.

Lemma new_improvement_valid (text iType : string) (confidence : Q)
    (chs : list ChangeDetail.t) (time : Z) (params : Params.t) (now : Z)
    (ci : ClarityImprovement.t) :
  Forall valid_change chs ->
  ClarityImprovement.new text iType confidence chs time params now = Return ci <->
  ci = ClarityImprovement.mk text iType confidence chs time params now
  /\ valid_improvement ci.
Proof.
  intros Hchs. unfold ClarityImprovement.new. rewrite <- validate_improvement.
  destruct (ClarityImprovement._validate (ClarityImprovement.mk _ _ _ _ _ _ _)) eqn:E; simpl.
  - destruct a. split.
    + intros H. injection H as <-. auto.
    + intros [-> _]. reflexivity.
  - split; [ discriminate | ]. intros [-> [H _]]. congruence.
Qed.

(** X4. A sample that passes the checks of the constructor survives the
    round trip through [toJSON] and [fromJSON] unchanged: the time stamp,
    the word count and the state are those of the sample, not those of a
    new one; and a sample that does not pass them is not read back at
    all. *)
Theorem textContent_json_round_trip :
  forall (tc : TextContent.t) (now : Z),
    (TextContent._validate tc = Return tt ->
     TextContent.fromJSON (TextContent.toJSON tc) now = Return tc)
    /\ (TextContent._validate tc <> Return tt ->
        JS.isReturn (TextContent.fromJSON (TextContent.toJSON tc) now) = false)
    /\ (TextContent._validate tc = Return tt <->
        1 <= JS.len (TextContent.originalText tc) <= 5000
        /\ In (TextContent.fieldType tc) TextContent.validFieldTypes
        /\ JS.trim (TextContent.fieldContext tc) <> EmptyString).
Proof.
  intros tc now.
  assert (Hsame : TextContent._validate
                    (TextContent.mk (TextContent.originalText tc) (TextContent.fieldType tc)
                       (TextContent.fieldContext tc) now
                       (TextContent._calculateWordCount (TextContent.originalText tc))
                       "Created")
                  = TextContent._validate tc) by reflexivity.
  unfold TextContent.fromJSON, TextContent.toJSON, TextContent.new.
  rewrite Hsame. split; [ | split ].
  - intros ->. simpl. destruct tc; reflexivity.
  - intros H. destruct (TextContent._validate tc) as [[] | m]; [ congruence | reflexivity ].
  - unfold TextContent._validate.
    rewrite !throw_if_then_return, throw_if_return.
    rewrite negb_false_iff, elem_In, falsy_false, !Z.eqb_neq, Z.ltb_ge.
    unfold JS.len.
    destruct (TextContent.fieldContext tc) as [ | c r ] eqn:E.
    + simpl. intuition (try congruence; try lia).
    + split.
      * intros (H1 & H2 & H3 & _ & H5). repeat split; try lia; try assumption.
        intros E'. rewrite E' in H5. simpl in H5. lia.
      * intros ((H1 & H2) & H3 & H4). repeat split; try lia; try assumption;
          try discriminate.
        destruct (JS.trim (String c r)); [ congruence | simpl; lia ].
Qed.

(** X5. An improvement survives the round trip through [toJSON] and
    [fromJSON] exactly when it and its change records satisfy the checks
    of their constructors; the time stamp read back is the one written, not
    the time of reading. *)
Theorem clarityImprovement_json_round_trip :
  forall (ci : ClarityImprovement.t) (now : Z),
    ClarityImprovement.fromJSON (ClarityImprovement.toJSON ci) now = Return ci
    <-> valid_improvement ci.
Proof.
  intros ci now. unfold ClarityImprovement.fromJSON, ClarityImprovement.toJSON.
  destruct ci as [text iType confidence chs time params stamp].
  cbn [ClarityImprovement.changes ClarityImprovement.improvedText
       ClarityImprovement.improvementType ClarityImprovement.confidenceScore
       ClarityImprovement.processingTime ClarityImprovement.apiParameters
       ClarityImprovement.timestamp].
  unfold ChangeDetail.toJSON. rewrite map_id.
  assert (Hstamp : valid_improvement
                     (ClarityImprovement.mk text iType confidence chs time params now)
                   <-> valid_improvement
                         (ClarityImprovement.mk text iType confidence chs time params stamp))
    by reflexivity.
  destruct (ClarityImprovement.mapM ChangeDetail.fromJSON chs) as [chs' | m] eqn:Em; simpl.
  - apply mapM_fromJSON in Em. destruct Em as [-> Hchs].
    destruct (ClarityImprovement.new _ _ _ _ _ _ now) as [ci' | m] eqn:En; simpl.
    + apply (new_improvement_valid _ _ _ _ _ _ _ _ Hchs) in En. destruct En as [-> Hv]. simpl.
      split; [ intros _; apply Hstamp, Hv | reflexivity ].
    + split; [ discriminate | ]. intros Hv. exfalso.
      apply Hstamp in Hv.
      assert (Hn : ClarityImprovement.new text iType confidence chs time params now
                   = Return (ClarityImprovement.mk text iType confidence chs time params now)).
      { apply (new_improvement_valid _ _ _ _ _ _ _ _ Hchs). auto. }
      congruence.
  - split; [ discriminate | ]. intros Hv. exfalso.
    destruct Hv as (_ & _ & _ & _ & _ & Hchs). simpl in Hchs.
    assert (Hm : ClarityImprovement.mapM ChangeDetail.fromJSON chs = Return chs).
    { apply mapM_fromJSON. auto. }
    congruence.
Qed.

(** ** Improvements built from an answer of the AI service *)

(** What [createFromAIResponse] returns, and what it leaves of the host. *)
Lemma createFromAIResponse_spec :
  forall (env : Host.env) (r : AIResponse.t) (txt : string) (h : Host.state),
    match ClarityImprovement.createFromAIResponse env r txt h with
    | (Return ci, h') =>
        exists an,
          r = AIResponse.Success an
          /\ valid_improvement ci
          /\ ClarityImprovement.improvedText ci = AIResponse.improvedText an
          /\ ClarityImprovement.processingTime ci = AIResponse.processingTime an
          /\ ClarityImprovement.improvementType ci
             = (if JS.falsy (AIResponse.apiUsed an) then "rewriter" else AIResponse.apiUsed an)
          /\ ClarityImprovement.confidenceScore ci
             = (if Qeq_bool (AIResponse.confidenceScore an) 0 then 7 # 10
                else AIResponse.confidenceScore an)
          /\ ClarityImprovement.changes ci
             = match AIResponse.changes an with
               | [] => [ChangeDetail.mk "clarity" txt (AIResponse.improvedText an)
                          "Overall clarity improvement" 0 (JS.len txt)]
               | changes => changes
               end
          /\ ClarityImprovement.timestamp ci = Host.now env (Host.ticks h)
          /\ h' = Host.mkState (S (Host.ticks h)) (Host.draws h) (Host.log h)
    | (Throw m, h') =>
        Host.log h' = Host.log h
        /\ (AIResponse.success r = false -> m = "Invalid AI response" /\ h' = h)
    end.
Proof.
  intros env r txt h. unfold ClarityImprovement.createFromAIResponse.
  destruct r as [an | code msg]; [ | simpl; auto ].
  unfold bind at 1. unfold lift at 1.
  assert (Hchs : forall chs,
             match AIResponse.changes an with
             | [] =>
                 c ← ChangeDetail.new "clarity" txt (AIResponse.improvedText an)
                       "Overall clarity improvement" 0 (JS.len txt);
                 Return [c]
             | changes => ClarityImprovement.mapM ChangeDetail.ofPlain changes
             end = Return chs ->
             chs = match AIResponse.changes an with
                   | [] => [ChangeDetail.mk "clarity" txt (AIResponse.improvedText an)
                              "Overall clarity improvement" 0 (JS.len txt)]
                   | changes => changes
                   end
             /\ Forall valid_change chs).
  { intros chs. destruct (AIResponse.changes an) as [ | c0 cs ] eqn:Ech.
    - destruct (ChangeDetail.new _ _ _ _ _ _) as [c | m] eqn:En; simpl; [ | discriminate ].
      apply new_change_valid in En. destruct En as [-> Hv].
      intros H. injection H as <-. auto.
    - change ChangeDetail.ofPlain with ChangeDetail.fromJSON.
      intros H. apply mapM_fromJSON in H. destruct H as [-> H]. auto. }
  match goal with
  | |- context [match ?e with Return _ => _ | Throw _ => _ end] =>
      destruct e as [chs | m] eqn:Ebuilt
  end; [ | simpl; split; [ reflexivity | discriminate ] ].
  destruct (Hchs chs eq_refl) as [Heq Hvalid].
  unfold bind, Host.dateNow, lift. simpl.
  destruct (ClarityImprovement.new _ _ _ _ _ _ _) as [ci | m] eqn:En;
    [ | simpl; split; [ reflexivity | discriminate ] ].
  apply (new_improvement_valid _ _ _ _ _ _ _ _ Hvalid) in En. destruct En as [-> Hv].
  exists an. simpl. rewrite <- Heq. auto 12.
Qed.

(** X6. Whatever [createFromAIResponse] returns is a validated
    improvement: its improved text is not empty, its type is [rewriter] or
    [prompt], its confidence lies in [0, 1], its processing time is
    positive, and it has at least one change, each with a known type, two
    different phrases that are not empty, a reason and a span
    [0 <= start < end]. The text, the time and the changes are those of
    the response (one whole-span change is made when the response has
    none); the type is the backend used, [rewriter] when none is named,
    and a confidence of 0 is replaced by 0.7. A response without success
    is refused with [Invalid AI response]. Only the clock is read. *)
Theorem createFromAIResponse_gives_a_valid_improvement :
  forall (env : Host.env) (r : AIResponse.t) (txt : string) (h : Host.state),
    match ClarityImprovement.createFromAIResponse env r txt h with
    | (Return ci, h') =>
        exists an,
          r = AIResponse.Success an
          /\ valid_improvement ci
          /\ ClarityImprovement.improvedText ci = AIResponse.improvedText an
          /\ ClarityImprovement.processingTime ci = AIResponse.processingTime an
          /\ ClarityImprovement.improvementType ci
             = (if JS.falsy (AIResponse.apiUsed an) then "rewriter" else AIResponse.apiUsed an)
          /\ ClarityImprovement.confidenceScore ci
             = (if Qeq_bool (AIResponse.confidenceScore an) 0 then 7 # 10
                else AIResponse.confidenceScore an)
          /\ ClarityImprovement.changes ci
             = match AIResponse.changes an with
               | [] => [ChangeDetail.mk "clarity" txt (AIResponse.improvedText an)
                          "Overall clarity improvement" 0 (JS.len txt)]
               | changes => changes
               end
          /\ ClarityImprovement.timestamp ci = Host.now env (Host.ticks h)
          /\ h' = Host.mkState (S (Host.ticks h)) (Host.draws h) (Host.log h)
    | (Throw m, h') =>
        Host.log h' = Host.log h
        /\ (AIResponse.success r = false -> m = "Invalid AI response" /\ h' = h)
    end.
Proof. exact createFromAIResponse_spec. Qed.

(** *** The most significant change *)

Lemma index_of_absent (type : string) (types : list string) :
  ~ In type types -> index_of type types = length types.
Proof.
  induction types as [ | t rest IH ]; [ reflexivity | ].
  simpl. intros H. destruct (String.eqb_spec t type) as [E | E]; [ tauto | ].
  rewrite IH; tauto.
Qed.

Lemma fold_longer (cs : list ChangeDetail.t) : forall c : ChangeDetail.t,
  In (fold_left ClarityImprovement.longer cs c) (c :: cs)
  /\ (forall d, In d (c :: cs) ->
        (String.length (ChangeDetail.originalPhrase d)
         <= String.length (ChangeDetail.originalPhrase
                             (fold_left ClarityImprovement.longer cs c)))%nat).
Proof.
  induction cs as [ | x cs' IH ]; intros c.
  - simpl. split; [ auto | ]. intros d [<- | []]. lia.
  - simpl fold_left. destruct (IH (ClarityImprovement.longer c x)) as [Hin Hmax].
    assert (Hc : (String.length (ChangeDetail.originalPhrase c)
                  <= String.length (ChangeDetail.originalPhrase
                                      (ClarityImprovement.longer c x)))%nat
                 /\ (String.length (ChangeDetail.originalPhrase x)
                     <= String.length (ChangeDetail.originalPhrase
                                         (ClarityImprovement.longer c x)))%nat
                 /\ (ClarityImprovement.longer c x = c \/ ClarityImprovement.longer c x = x)).
    { unfold ClarityImprovement.longer.
      destruct (Nat.ltb_spec (String.length (ChangeDetail.originalPhrase c))
                  (String.length (ChangeDetail.originalPhrase x))); repeat split; auto; lia. }
    destruct Hc as (Hc & Hx & Hor).
    pose proof (Hmax _ (or_introl eq_refl)) as Hl.
    split.
    + destruct Hin as [Hin | Hin]; [ | simpl; auto ].
      rewrite <- Hin. destruct Hor as [-> | ->]; simpl; auto.
    + intros d [<- | [<- | Hd]]; [ lia | lia | ]. apply Hmax. simpl. auto.
Qed.

Lemma getChangesByType_In (type : string) (ci : ClarityImprovement.t) (c : ChangeDetail.t) :
  In c (ClarityImprovement.getChangesByType type ci) <->
  In c (ClarityImprovement.changes ci) /\ ChangeDetail.changeType c = type.
Proof.
  unfold ClarityImprovement.getChangesByType. rewrite filter_In, String.eqb_eq. tauto.
Qed.

Lemma firstByPriority_spec (ci : ClarityImprovement.t) (types : list string) :
  match ClarityImprovement.firstByPriority types ci with
  | Some c =>
      In c (ClarityImprovement.changes ci)
      /\ In (ChangeDetail.changeType c) types
      /\ (forall d, In d (ClarityImprovement.changes ci) ->
            (index_of (ChangeDetail.changeType c) types
             <= index_of (ChangeDetail.changeType d) types)%nat
            /\ (ChangeDetail.changeType d = ChangeDetail.changeType c ->
                (String.length (ChangeDetail.originalPhrase d)
                 <= String.length (ChangeDetail.originalPhrase c))%nat))
  | None =>
      forall d, In d (ClarityImprovement.changes ci) -> ~ In (ChangeDetail.changeType d) types
  end.
Proof.
  induction types as [ | type rest IH ]; [ simpl; auto | ].
  simpl. destruct (ClarityImprovement.getChangesByType type ci) as [ | c0 cs ] eqn:Eby.
  - assert (Hnone : forall d, In d (ClarityImprovement.changes ci) ->
                      ChangeDetail.changeType d <> type).
    { intros d Hd E. assert (Hin : In d (ClarityImprovement.getChangesByType type ci))
        by (apply getChangesByType_In; auto).
      rewrite Eby in Hin. exact Hin. }
    destruct (ClarityImprovement.firstByPriority rest ci) as [c | ].
    + destruct IH as (Hin & Htype & Hall). split; [ exact Hin | ]. split; [ auto | ].
      intros d Hd. destruct (Hall d Hd) as [Hle Hlen]. split; [ | exact Hlen ].
      destruct (String.eqb_spec type (ChangeDetail.changeType c)) as [E | E];
        [ exfalso; apply (Hnone c Hin); auto | ].
      destruct (String.eqb_spec type (ChangeDetail.changeType d)) as [E' | E'];
        [ exfalso; apply (Hnone d Hd); auto | ].
      lia.
    + intros d Hd [E | Hr]; [ apply (Hnone d Hd); auto | exact (IH d Hd Hr) ].
  - destruct (fold_longer cs c0) as [Hin Hmax]. rewrite <- Eby in Hin, Hmax.
    apply getChangesByType_In in Hin. destruct Hin as [Hin Htype].
    split; [ exact Hin | ]. split; [ auto | ].
    intros d Hd. rewrite Htype, String.eqb_refl. split; [ lia | ].
    intros E. apply Hmax. apply getChangesByType_In. auto.
Qed.

(** X7. [getMostSignificantChange] answers [null] only for an improvement
    without changes. Otherwise it answers one of the changes: no other
    change has a type of higher priority
    (sentence-structure > clarity > word-choice > conciseness), and among
    the changes of its type none has a longer original phrase. When no
    change has one of the four types, it is the first change. *)
Theorem getMostSignificantChange_is_highest_priority_longest :
  forall ci : ClarityImprovement.t,
    match ClarityImprovement.getMostSignificantChange ci with
    | None => ClarityImprovement.changes ci = []
    | Some c =>
        In c (ClarityImprovement.changes ci)
        /\ (forall d, In d (ClarityImprovement.changes ci) ->
              (priority (ChangeDetail.changeType c) <= priority (ChangeDetail.changeType d))%nat
              /\ (In (ChangeDetail.changeType c) ClarityImprovement.priorityOrder ->
                  ChangeDetail.changeType d = ChangeDetail.changeType c ->
                  (String.length (ChangeDetail.originalPhrase d)
                   <= String.length (ChangeDetail.originalPhrase c))%nat))
        /\ (~ In (ChangeDetail.changeType c) ClarityImprovement.priorityOrder ->
            head (ClarityImprovement.changes ci) = Some c)
    end.
Proof.
  intros ci. unfold ClarityImprovement.getMostSignificantChange, priority.
  pose proof (firstByPriority_spec ci ClarityImprovement.priorityOrder) as Hspec.
  destruct (ClarityImprovement.changes ci) as [ | first rest ] eqn:Ech; [ reflexivity | ].
  destruct (ClarityImprovement.firstByPriority ClarityImprovement.priorityOrder ci) as [c | ].
  - destruct Hspec as (Hin & Htype & Hall). split; [ exact Hin | ]. split.
    + intros d Hd. destruct (Hall d Hd) as [Hle Hlen]. auto.
    + intros Hno. contradiction.
  - split; [ simpl; auto | ]. split; [ | reflexivity ].
    intros d Hd. split.
    + rewrite !index_of_absent; [ lia | apply Hspec; exact Hd | apply Hspec; simpl; auto ].
    + intros Hyes. exfalso. apply (Hspec first); simpl; auto.
Qed.

(** *** Confidence levels *)

Lemma Qle_bool_trans_68 (c : Q) : Qle_bool (8 # 10) c = true -> Qle_bool (6 # 10) c = true.
Proof.
  rewrite !Qle_bool_iff. intros H. apply Qle_trans with (8 # 10); [ | exact H ].
  unfold Qle. simpl. lia.
Qed.

(** X8. The three confidence levels of the improvements that the analysis
    builds exclude each other and leave no gap. For every improvement that
    [createFromAIResponse] returns (its confidence is a number between 0
    and 1: what is not a number is refused or, like 0, replaced by 0.7),
    exactly one of [isHighConfidence], [isMediumConfidence] and
    [isLowConfidence] holds, and [getSummary] names it. The quality
    assessment uses the same two thresholds: the quality of the result
    made of such an improvement is poor when the improved text is the
    original, and else good, medium or poor as the confidence level is
    high, medium or low. *)
Theorem confidence_levels_partition_and_match_quality :
  forall (env : Host.env) (r : AIResponse.t) (txt : string) (h h' : Host.state)
         (ci : ClarityImprovement.t) (tc : TextContent.t),
    ClarityImprovement.createFromAIResponse env r txt h = (Return ci, h') ->
    let high := ClarityImprovement.isHighConfidence ci in
    let medium := ClarityImprovement.isMediumConfidence ci in
    let low := ClarityImprovement.isLowConfidence ci in
    (0 <= ClarityImprovement.confidenceScore ci <= 1)%Q
    /\ (high = true /\ medium = false /\ low = false
        /\ confidenceLevel (getSummary ci) = "high"
        \/ high = false /\ medium = true /\ low = false
           /\ confidenceLevel (getSummary ci) = "medium"
        \/ high = false /\ medium = false /\ low = true
           /\ confidenceLevel (getSummary ci) = "low")
    /\ TextAnalyzer.quality (TextAnalyzer.assessAnalysisQuality (result_of tc ci))
       = if (TextContent.originalText tc =? ClarityImprovement.improvedText ci)%string
         then "poor"
         else quality_of_level (confidenceLevel (getSummary ci)).
Proof.
  intros env r txt h h' ci tc Hmade. cbv zeta.
  pose proof (createFromAIResponse_spec env r txt h) as Hspec. rewrite Hmade in Hspec.
  destruct Hspec as (an & _ & (Htext & _ & Hscore & _) & _).
  apply falsy_false in Htext.
  split; [ exact Hscore | ].
  pose proof (assessAnalysisQuality_rules (result_of tc ci) Htext) as Hrules.
  cbv zeta in Hrules. rewrite Hrules. clear Hrules.
  unfold getSummary, ClarityImprovement.isHighConfidence,
    ClarityImprovement.isMediumConfidence, ClarityImprovement.isLowConfidence, Qltb.
  simpl. pose proof (Qle_bool_trans_68 (ClarityImprovement.confidenceScore ci)) as Ht.
  destruct (Qle_bool (8 # 10) _).
  - rewrite (Ht eq_refl). simpl. split; [ auto | ].
    destruct (String.eqb _ _); reflexivity.
  - destruct (Qle_bool (6 # 10) _); simpl; (split; [ auto 10 | ]);
      destruct (String.eqb _ _); reflexivity.
Qed.

Lemma confidence_levels_witness :
  exists (ci : ClarityImprovement.t) (h' : Host.state),
    ClarityImprovement.createFromAIResponse steadyClock confidentResponse "hello world"
      (Host.mkState 0 0 []) = (Return ci, h')
    /\ ClarityImprovement.isHighConfidence ci = true
    /\ ClarityImprovement.isMediumConfidence ci = false
    /\ ClarityImprovement.isLowConfidence ci = false
    /\ TextAnalyzer.quality
         (TextAnalyzer.assessAnalysisQuality
            (result_of (TextContent.mk "hello world" "textarea" "#notes" 1700000000000 2
                          "Created") ci))
       = "good".
Proof.
  destruct (ClarityImprovement.createFromAIResponse steadyClock confidentResponse
              "hello world" (Host.mkState 0 0 [])) as [[ci | m] h'] eqn:Hmade;
    [ | vm_compute in Hmade; discriminate ].
  exists ci, h'. split; [ reflexivity | ].
  destruct (confidence_levels_partition_and_match_quality steadyClock confidentResponse
              "hello world" (Host.mkState 0 0 []) h' ci
              (TextContent.mk "hello world" "textarea" "#notes" 1700000000000 2 "Created")
              Hmade) as (_ & Hlevel & Hquality).
  cbv zeta in Hlevel.
  assert (Hhigh : ClarityImprovement.isHighConfidence ci = true).
  { vm_compute in Hmade. injection Hmade as <- _. reflexivity. }
  assert (Hdiff : ("hello world" =? ClarityImprovement.improvedText ci)%string = false).
  { vm_compute in Hmade. injection Hmade as <- _. reflexivity. }
  rewrite Hhigh in Hlevel.
  destruct Hlevel as [(_ & Hm & Hl & Hs) | [(Hf & _) | (Hf & _)]]; try discriminate.
  split; [ exact Hhigh | ]. split; [ exact Hm | ]. split; [ exact Hl | ].
  rewrite Hquality. cbn [TextContent.originalText]. rewrite Hdiff, Hs. reflexivity.
Defined.

(** ** The AI service: what an attempt returns, and when the fallback runs *)

(** *** The clock only advances *)

Lemma advances_ret {A} (a : A) : advances (ret a).
Proof. intros w. simpl. lia. Qed.

Lemma advances_throw {A} (msg : string) : advances (@throw World A msg).
Proof. intros w. simpl. lia. Qed.

Lemma advances_lift {A} (r : result A) : advances (lift r).
Proof. intros w. simpl. lia. Qed.

Lemma advances_bind {A C} (c : M A) (k : A -> M C) :
  advances c -> (forall a, advances (k a)) -> advances (bind c k).
Proof.
  intros Hc Hk w. unfold bind. specialize (Hc w).
  destruct (c w) as [[a | m] w']; simpl in *; [ | exact Hc ].
  specialize (Hk a w'). lia.
Qed.

Lemma advances_try_catch {A} (c : M A) (h : string -> M A) :
  advances c -> (forall m, advances (h m)) -> advances (try_catch c h).
Proof.
  intros Hc Hh w. unfold try_catch. specialize (Hc w).
  destruct (c w) as [[a | m] w']; simpl in *; [ exact Hc | ].
  specialize (Hh m w'). lia.
Qed.

Lemma advances_getAI : advances getAI.
Proof. intros w. simpl. lia. Qed.

Lemma advances_modifySessions f : advances (modifySessions f).
Proof. intros w. simpl. lia. Qed.

Lemma advances_modifyTimers f : advances (modifyTimers f).
Proof. intros w. simpl. lia. Qed.

Lemma advances_dateNow env : advances (dateNow env).
Proof. intros w. simpl. lia. Qed.

Lemma advances_mathRandom env : advances (mathRandom env).
Proof. intros w. simpl. lia. Qed.

Lemma advances_emit e : advances (emit e).
Proof. intros w. simpl. lia. Qed.

Lemma advances_typeofDefined env a : advances (typeofDefined env a).
Proof. intros w. simpl. lia. Qed.

Lemma advances_hostCreate env a p : advances (hostCreate env a p).
Proof. intros w. simpl. lia. Qed.

Lemma advances_hostRun env a s input options : advances (hostRun env a s input options).
Proof. intros w. simpl. lia. Qed.

Ltac clock_step :=
  match goal with
  | |- advances (bind _ _) => apply advances_bind; [ | intros ? ]
  | |- advances (try_catch _ _) => apply advances_try_catch; [ | intros ? ]
  | |- advances (match ?x with _ => _ end) => destruct x
  | |- advances (ret _) => apply advances_ret
  | |- advances (throw _) => apply advances_throw
  | |- advances (lift _) => apply advances_lift
  | |- advances getAI => apply advances_getAI
  | |- advances (modifySessions _) => apply advances_modifySessions
  | |- advances (modifyTimers _) => apply advances_modifyTimers
  | |- advances (dateNow _) => apply advances_dateNow
  | |- advances (mathRandom _) => apply advances_mathRandom
  | |- advances (emit _) => apply advances_emit
  | |- advances (typeofDefined _ _) => apply advances_typeofDefined
  | |- advances (hostCreate _ _ _) => apply advances_hostCreate
  | |- advances (hostRun _ _ _ _ _) => apply advances_hostRun
  | |- advances _ => assumption
  end.

Lemma advances_createSession env aType p : advances (AIService.createSession env aType p).
Proof.
  unfold AIService.createSession, AIService._generateSessionId,
    AIService._scheduleSessionCleanup. repeat clock_step.
Qed.

Lemma advances_getOrCreateSession env aType p :
  advances (AIService._getOrCreateSession env aType p).
Proof.
  pose proof (advances_createSession env aType (Some p)).
  unfold AIService._getOrCreateSession. repeat clock_step.
Qed.

(** *** One attempt that returns a result *)

(** A result of an attempt on backend [a]: a session was found or made,
    the backend answered [improvedText] on it, and the rest of the result
    is computed from the text, the answer and two clock readings, the
    second taken after the first. *)
Lemma analyzeWith_success env (a : Host.api) (txt : string) (p : Params.t) (w w1 : World)
    (an : AIResponse.analysis) :
  AIService._analyzeWith env a txt p w = (Return (Some an), w1) ->
  exists (h : Host.handle) (w0 : World) (first second : nat),
    Host.defined env a = true
    /\ AIService._getOrCreateSession env (Host.name a) p
         (snd (dateNow env (snd (emit (Host.Typeof a) w)))) = (Return h, w0)
    /\ Host.run env a (Host.log (host w0)) h (input_of a txt p) (options_of a p)
       = Return (AIResponse.improvedText an)
    /\ (first < second)%nat
    /\ an = AIResponse.mkAnalysis (AIResponse.improvedText an)
              (AIService._calculateConfidenceScore txt (AIResponse.improvedText an))
              (Host.now env second - Host.now env first)
              (Host.name a)
              (AIService._generateChangeDetails txt (AIResponse.improvedText an)).
Proof.
  pose proof (advances_getOrCreateSession env (Host.name a) p
                (snd (dateNow env (snd (emit (Host.Typeof a) w))))) as Hadv.
  destruct a; simpl in *;
    unfold AIService._analyzeWithRewriter, AIService._analyzeWithPrompt;
    unfold bind at 1; unfold typeofDefined, onHost, Host.typeofDefined;
    unfold bind at 1; simpl;
    (destruct (Host.defined env _); simpl; [ | discriminate ]);
    unfold try_catch; unfold bind at 1; simpl;
    unfold bind at 1;
    match goal with
    | |- context [AIService._getOrCreateSession env ?n p ?x] =>
        destruct (AIService._getOrCreateSession env n p x) as [[h | m] w0] eqn:Es
    end; try discriminate;
    unfold bind at 1; unfold hostRun, onHost, Host.callRun;
    match goal with
    | |- context [Host.run env ?b ?l ?s ?i ?o] =>
        destruct (Host.run env b l s i o) as [imp | m] eqn:Er
    end; try discriminate;
    simpl; intros H; injection H as <- <-; simpl in *;
    exists h, w0, (Host.ticks (host w)), (Host.ticks (host w0));
    (split; [ reflexivity | ]); (split; [ reflexivity | ]);
    (split; [ exact Er | ]); (split; [ lia | reflexivity ]).
Qed.

(** *** The paths of [analyzeText] after the validation *)

Lemma analyzeText_validated env (request : AIService.AnalysisRequest) (txt : string)
    (w : World) :
  AIService.text request = AIService.Str txt ->
  AIService._validateAnalysisRequest request = Return tt ->
  let p := default [] (AIService.req_parameters request) in
  match AIService.api_of (AIService.req_apiType request) with
  | None => AIService.analyzeText env request w = (Return unavailable, w)
  | Some a =>
      exists r1 w1,
        AIService._analyzeWith env a txt p w = (Return r1, w1)
        /\ match r1 with
           | Some an => AIService.analyzeText env request w = (Return (AIResponse.Success an), w1)
           | None =>
               if fallbackEnabled (ai w1) then
                 exists r2 w2,
                   AIService._analyzeWith env (Host.other a) txt p
                     (snd (emit (Host.Console (AIService.fallbackNotice a)) w1))
                   = (Return r2, w2)
                   /\ AIService.analyzeText env request w = (Return (fallbackResponse a r2), w2)
               else AIService.analyzeText env request w = (Return unavailable, w1)
           end
  end.
Proof.
  intros Ht Hv p. unfold AIService.analyzeText, try_catch. rewrite Hv, Ht. fold p.
  destruct (AIService.api_of (AIService.req_apiType request)) as [a | ]; [ | reflexivity ].
  destruct (analyzeWith_returns env a txt p w) as (r1 & w1 & Hfirst).
  exists r1, w1. split; [ exact Hfirst | ].
  destruct r1 as [an | ].
  - unfold bind at 1. unfold lift at 1.
    unfold bind at 1. rewrite Hfirst. reflexivity.
  - destruct (fallbackEnabled (ai w1)) eqn:Hfb.
    + set (w1' := snd (emit (Host.Console (AIService.fallbackNotice a)) w1)).
      destruct (analyzeWith_returns env (Host.other a) txt p w1') as (r2 & w2 & Hsecond).
      exists r2, w2. split; [ exact Hsecond | ].
      unfold bind at 1. unfold lift at 1.
      unfold bind at 1. rewrite Hfirst.
      unfold bind at 1. unfold getAI at 1.
      unfold bind at 1. rewrite Hfb.
      unfold bind at 1. fold w1'.
      replace (emit (Host.Console (AIService.fallbackNotice a)) w1) with (Return tt, w1')
        by reflexivity.
      unfold bind at 1. rewrite Hsecond. unfold ret.
      destruct r2; reflexivity.
    + unfold bind at 1. unfold lift at 1.
      unfold bind at 1. rewrite Hfirst.
      unfold bind at 1. unfold getAI at 1.
      unfold bind at 1. rewrite Hfb. reflexivity.
Qed.

(** X9. The fallback runs only when it is needed and enabled. For a
    request that passes the validation and names a backend: when the
    attempt on that backend returns a result, [analyzeText] returns this
    very result, tagged with that backend; when it returns [null] and the
    fallback is disabled, [analyzeText] returns the failure value
    [API_UNAVAILABLE]. In both cases the program state is the one the
    first attempt left: no fallback notice, no second attempt. *)
Theorem fallback_only_after_a_failed_attempt :
  forall (env : Host.env) (request : AIService.AnalysisRequest) (txt : string)
         (a : Host.api) (w w1 : World) (r1 : option AIResponse.analysis),
    AIService.text request = AIService.Str txt ->
    AIService._validateAnalysisRequest request = Return tt ->
    AIService.api_of (AIService.req_apiType request) = Some a ->
    AIService._analyzeWith env a txt (default [] (AIService.req_parameters request)) w
      = (Return r1, w1) ->
    match r1 with
    | Some an =>
        AIService.analyzeText env request w = (Return (AIResponse.Success an), w1)
        /\ AIResponse.apiUsed an = Host.name a
    | None =>
        fallbackEnabled (ai w) = false ->
        AIService.analyzeText env request w = (Return unavailable, w1)
    end.
Proof.
  intros env request txt a w w1 r1 Ht Hv Ha Hfirst.
  pose proof (analyzeText_validated env request txt w Ht Hv) as Hpaths.
  cbv zeta in Hpaths. rewrite Ha in Hpaths.
  destruct Hpaths as (r1' & w1' & Hfirst' & Hrest).
  rewrite Hfirst in Hfirst'. injection Hfirst' as <- <-.
  destruct r1 as [an | ].
  - split; [ exact Hrest | ].
    destruct (analyzeWith_success env a txt _ w w1 an Hfirst)
      as (h & w0 & first & second & _ & _ & _ & _ & ->). reflexivity.
  - intros Hfb.
    pose proof (keeps_fallbackEnabled_analyzeWith env a txt
                  (default [] (AIService.req_parameters request)) w) as Hkeep.
    rewrite Hfirst in Hkeep. simpl in Hkeep. rewrite Hkeep, Hfb in Hrest. exact Hrest.
Qed.

Lemma fallback_only_after_a_failed_attempt_witness :
  AIService.analyzeText bareHost rewriterRequest (withoutFallback initial)
  = (Return unavailable, snd (emit (Host.Typeof Host.Rewriter) (withoutFallback initial))).
Proof.
  apply (fallback_only_after_a_failed_attempt bareHost rewriterRequest "hello hello world"
           Host.Rewriter (withoutFallback initial)
           (snd (emit (Host.Typeof Host.Rewriter) (withoutFallback initial))) None);
    reflexivity.
Defined.

(** X10. An [apiType] that names neither backend is not a validation
    error: for a request with a valid text and valid parameters whose
    [apiType] is some other non-empty string, [analyzeText] returns the
    failure value [API_UNAVAILABLE] and has asked nothing of the host, not
    even whether a backend is defined; no fallback is tried either. *)
Theorem unknown_apiType_is_reported_unavailable :
  forall (env : Host.env) (request : AIService.AnalysisRequest) (txt : string) (w : World),
    AIService.text request = AIService.Str txt ->
    txt <> EmptyString ->
    JS.len txt <= 5000 ->
    AIService.req_apiType request <> EmptyString ->
    AIService.req_apiType request <> "rewriter" ->
    AIService.req_apiType request <> "prompt" ->
    AIService._validateParameters (default [] (AIService.req_parameters request)) = Return tt ->
    AIService.analyzeText env request w = (Return unavailable, w).
Proof.
  intros env request txt w Ht Hne Hlen Hsome Hr Hp Hparams.
  assert (Hv : AIService._validateAnalysisRequest request = Return tt).
  { unfold AIService._validateAnalysisRequest. rewrite Ht.
    destruct txt as [ | c s ]; [ contradiction | ].
    apply Z.ltb_ge in Hlen. rewrite Hlen. simpl.
    destruct (AIService.req_apiType request) as [ | c' s' ]; [ contradiction | ].
    simpl. destruct (AIService.req_parameters request); [ exact Hparams | reflexivity ]. }
  pose proof (analyzeText_validated env request txt w Ht Hv) as Hpaths.
  cbv zeta in Hpaths. unfold AIService.api_of in Hpaths.
  apply String.eqb_neq in Hr, Hp. rewrite Hr, Hp in Hpaths. exact Hpaths.
Qed.

Lemma unknown_apiType_witness :
  AIService.analyzeText answeringHost otherRequest initial = (Return unavailable, initial).
Proof.
  apply (unknown_apiType_is_reported_unavailable answeringHost otherRequest
           "hello hello world" initial); try reflexivity; discriminate.
Defined.

(** X11. [getAvailableApis] lists the backends that are defined, the
    rewriter first, and changes nothing but the record of its two probes.
    When it lists none, every request that passes the validation gets the
    failure value [API_UNAVAILABLE], whatever backend it names and whether
    or not the fallback is enabled: nothing is thrown, and no session is
    made and no timer started. *)
Theorem no_backend_means_unavailable :
  forall (env : Host.env) (w : World),
    AIService.getAvailableApis env w
    = (Return ((if Host.defined env Host.Rewriter then ["rewriter"] else [])
               ++ (if Host.defined env Host.Prompt then ["prompt"] else []))%list,
       set_host (Host.mkState (Host.ticks (host w)) (Host.draws (host w))
                   (Host.log (host w) ++ [Host.Typeof Host.Rewriter; Host.Typeof Host.Prompt]))
                w)
    /\ (fst (AIService.getAvailableApis env w) = Return [] ->
        forall (request : AIService.AnalysisRequest) (txt : string) (w0 : World),
          AIService.text request = AIService.Str txt ->
          AIService._validateAnalysisRequest request = Return tt ->
          exists w1,
            AIService.analyzeText env request w0 = (Return unavailable, w1)
            /\ ai w1 = ai w0 /\ ta w1 = ta w0).
Proof.
  intros env w.
  assert (Hlist : AIService.getAvailableApis env w
    = (Return ((if Host.defined env Host.Rewriter then ["rewriter"] else [])
               ++ (if Host.defined env Host.Prompt then ["prompt"] else []))%list,
       set_host (Host.mkState (Host.ticks (host w)) (Host.draws (host w))
                   (Host.log (host w) ++ [Host.Typeof Host.Rewriter; Host.Typeof Host.Prompt]))
                w)).
  { unfold AIService.getAvailableApis, AIService.isApiAvailable. simpl.
    unfold bind, typeofDefined, onHost, Host.typeofDefined, bind, Host.emit, ret. simpl.
    rewrite <- app_assoc. simpl.
    destruct (Host.defined env Host.Rewriter), (Host.defined env Host.Prompt); reflexivity. }
  split; [ exact Hlist | ].
  rewrite Hlist. simpl. intros Hnone request txt w0 Ht Hv.
  assert (Hdef : forall a, Host.defined env a = false).
  { intros a. destruct (Host.defined env Host.Rewriter) eqn:Hr;
      destruct (Host.defined env Host.Prompt) eqn:Hp; try discriminate.
    destruct a; assumption. }
  pose proof (analyzeText_validated env request txt w0 Ht Hv) as Hpaths.
  cbv zeta in Hpaths.
  destruct (AIService.api_of (AIService.req_apiType request)) as [a | ].
  - destruct Hpaths as (r1 & w1 & Hfirst & Hrest).
    rewrite (analyzeWith_unavailable env a txt _ w0 (Hdef a)) in Hfirst.
    injection Hfirst as <- <-. simpl in Hrest.
    destruct (fallbackEnabled (ai w0)).
    + destruct Hrest as (r2 & w2 & Hsecond & Hrest).
      rewrite (analyzeWith_unavailable env (Host.other a) txt _ _ (Hdef (Host.other a)))
        in Hsecond.
      injection Hsecond as <- <-. eexists. split; [ exact Hrest | ]. split; reflexivity.
    + eexists. split; [ exact Hrest | ]. split; reflexivity.
  - exists w0. auto.
Qed.

(** ** Sessions: how they are made, and how they end *)

(** [createSession] on a valid request, path by path. *)
Lemma createSession_valid_paths env (a : Host.api) (p : Params.t) (w : World) :
  AIService._validateParameters p = Return tt ->
  AIService.createSession env (Host.name a) (Some p) w =
    if negb (Host.defined env a)
    then (Return (AIService.SessionError "API_NOT_AVAILABLE" (not_available a)), probed a w)
    else
      match Host.create env a (Host.log (host w) ++ [Host.Typeof a]) p with
      | Return h =>
          (Return (AIService.SessionCreated (next_session_id env w)
                     (AIService.mkCapabilities 5000 ["en"])),
           stored env a p h w)
      | Throw m =>
          (if validation_phrase m then Throw m
           else Return (AIService.SessionError "SESSION_FAILED" m),
           asked a p w)
      end.
Proof.
  intros Hp. unfold AIService.createSession, try_catch, bind at 1, lift.
  assert (Hv : AIService._validateSessionRequest (Host.name a) (Some p) = Return tt).
  { unfold AIService._validateSessionRequest. destruct a; simpl; exact Hp. }
  rewrite Hv. unfold AIService._generateSessionId.
  unfold bind, dateNow, mathRandom, onHost, Host.dateNow, Host.mathRandom, ret. simpl.
  rewrite api_of_name.
  unfold typeofDefined, hostCreate, onHost, Host.typeofDefined, Host.callCreate,
    bind, Host.emit, ret. simpl.
  destruct (Host.defined env a); simpl.
  - destruct (Host.create env a _ p) as [h | m]; simpl.
    + unfold stored, next_session_id. rewrite <- app_assoc. reflexivity.
    + fold (validation_phrase m). unfold asked. rewrite <- app_assoc. simpl.
      destruct (validation_phrase m); reflexivity.
  - destruct a; reflexivity.
Qed.

(** X12. [createSession] on a valid request for backend [a] answers with a
    value, except in one case. When [a] is not defined it answers
    [API_NOT_AVAILABLE] without calling [create]. When [create] throws, it
    answers [SESSION_FAILED] with the message of the backend; but when
    that message contains one of the four phrases by which the method
    tells its own validation errors, the exception of the backend is
    thrown on to the caller. In all these cases no session is stored and
    no timer started, though a session id was drawn. When [create]
    returns, the session is stored under a new id, with [createdAt] and
    [lastUsed] read from the clock, and one timer is started. *)
Theorem createSession_reports_backend_failures :
  forall (env : Host.env) (a : Host.api) (p : Params.t) (w : World),
    AIService._validateParameters p = Return tt ->
    let outcome := AIService.createSession env (Host.name a) (Some p) w in
    let answer := Host.create env a (Host.log (host w) ++ [Host.Typeof a]) p in
    (Host.defined env a = false ->
     outcome = (Return (AIService.SessionError "API_NOT_AVAILABLE" (not_available a)),
                probed a w))
    /\ (Host.defined env a = true ->
        forall m, answer = Throw m ->
          outcome = (if validation_phrase m then Throw m
                     else Return (AIService.SessionError "SESSION_FAILED" m),
                     asked a p w))
    /\ (Host.defined env a = true ->
        forall h, answer = Return h ->
          outcome = (Return (AIService.SessionCreated (next_session_id env w)
                               (AIService.mkCapabilities 5000 ["en"])),
                     stored env a p h w)
          /\ AIService.map_get (next_session_id env w) (sessions (ai (stored env a p h w)))
             = Some (mkSessionData h (Host.name a) p
                       (Host.now env (S (Host.ticks (host w))))
                       (Host.now env (S (S (Host.ticks (host w)))))))
    /\ ((exists m, fst outcome = Throw m) <->
        Host.defined env a = true
        /\ exists m, answer = Throw m /\ validation_phrase m = true)
    /\ ((forall id caps, fst outcome <> Return (AIService.SessionCreated id caps)) ->
        sessions (ai (snd outcome)) = sessions (ai w)
        /\ timers (ai (snd outcome)) = timers (ai w)).
Proof.
  intros env a p w Hp outcome answer. subst outcome answer.
  rewrite (createSession_valid_paths env a p w Hp).
  destruct (Host.defined env a); simpl.
  - destruct (Host.create env a _ p) as [h | m] eqn:Ec.
    + split; [ discriminate | ]. split; [ intros _ m; discriminate | ].
      split.
      { intros _ h' E. injection E as <-. split; [ reflexivity | ].
        simpl. apply map_get_map_set. }
      split.
      { simpl. split; [ intros [m E]; discriminate | ].
        intros (_ & m & E & _). discriminate. }
      simpl. intros Hno. exfalso. eapply Hno. reflexivity.
    + split; [ discriminate | ].
      split; [ intros _ m' E; injection E as <-; reflexivity | ].
      split; [ intros _ h; discriminate | ].
      split.
      { simpl. destruct (validation_phrase m) eqn:Ev; simpl.
        - split; [ intros _; eauto | eauto ].
        - split; [ intros [m' E]; discriminate | ].
          intros (_ & m' & E & Ev'). injection E as <-. congruence. }
      intros _. split; reflexivity.
  - split; [ reflexivity | ]. split; [ discriminate | ]. split; [ discriminate | ].
    split.
    { simpl. split; [ intros [m E]; discriminate | ]. intros [E _]. discriminate. }
    intros _. split; reflexivity.
Qed.

Lemma createSession_reports_backend_failures_witness :
  fst (AIService.createSession refusingHost "rewriter" (Some plainParameters) initial)
  = Throw "Invalid API type of model".
Proof.
  destruct (createSession_reports_backend_failures refusingHost Host.Rewriter
              plainParameters initial eq_refl) as (_ & H & _).
  exact (f_equal fst (H eq_refl "Invalid API type of model" eq_refl)).
Defined.

(** *** [destroySession] *)

Lemma map_get_map_delete (id k : string) (m : list (string * SessionData)) :
  AIService.map_get k (AIService.map_delete id m)
  = if (id =? k)%string then None else AIService.map_get k m.
Proof.
  unfold AIService.map_delete. induction m as [ | [k' d] m IH ]; simpl.
  - destruct (String.eqb id k); reflexivity.
  - destruct (String.eqb_spec k' id) as [-> | Hne]; simpl.
    + rewrite IH. destruct (String.eqb id k); reflexivity.
    + rewrite IH. destruct (String.eqb_spec k' k) as [-> | Hne'].
      * apply not_eq_sym in Hne. apply String.eqb_neq in Hne. rewrite Hne. reflexivity.
      * reflexivity.
Qed.

Lemma map_get_None (id : string) (m : list (string * SessionData)) :
  AIService.map_get id m = None <-> ~ In id (map fst m).
Proof.
  induction m as [ | [k d] m IH ]; simpl; [ tauto | ].
  destruct (String.eqb_spec k id) as [-> | Hne].
  - split; [ discriminate | ]. intros H. exfalso. auto.
  - rewrite IH. tauto.
Qed.

Lemma map_delete_absent (id : string) (m : list (string * SessionData)) :
  ~ In id (map fst m) -> AIService.map_delete id m = m.
Proof.
  unfold AIService.map_delete. induction m as [ | [k d] m IH ]; simpl; [ reflexivity | ].
  intros H. destruct (String.eqb_spec k id) as [-> | Hne]; simpl.
  - exfalso. auto.
  - rewrite IH; tauto.
Qed.

Lemma map_delete_length (id : string) (m : list (string * SessionData)) :
  NoDup (map fst m) -> In id (map fst m) ->
  S (length (AIService.map_delete id m)) = length m.
Proof.
  induction m as [ | [k d] m IH ]; simpl; [ tauto | ].
  intros Hnd Hin. apply NoDup_cons in Hnd. destruct Hnd as [Hk Hnd].
  simpl in Hk. rewrite list_elem_of_In in Hk.
  unfold AIService.map_delete in *. simpl.
  destruct (String.eqb_spec k id) as [-> | Hne]; simpl.
  - f_equal. f_equal. apply (map_delete_absent id m Hk).
  - f_equal. apply IH; [ exact Hnd | ]. destruct Hin; [ contradiction | assumption ].
Qed.

(** What [destroySession] does, for each of its two paths. *)
Lemma destroySession_paths destroy (id : string) (w : World) :
  AIService.destroySession destroy id w =
    match AIService.map_get id (sessions (ai w)) with
    | None => (Return false, w)
    | Some d =>
        (Return true,
         snd (modifySessions (AIService.map_delete id)
                (match destroy (session d) with
                 | Some (Throw _) =>
                     snd (emit (Host.Console ("Failed to destroy session " ++ id ++ ":")) w)
                 | _ => w
                 end)))
    end.
Proof.
  unfold AIService.destroySession. unfold bind at 1. unfold getAI at 1.
  destruct (AIService.map_get id (sessions (ai w))) as [d | ]; [ | reflexivity ].
  unfold bind, try_catch, lift, ret.
  destruct (destroy (session d)) as [[[] | m] | ]; reflexivity.
Qed.

(** X13. [destroySession] never throws, whatever [destroy] does. For an id
    that is not in the table it answers [false] and changes nothing. For
    an id that is, it answers [true] and removes that entry and no other,
    even when [destroy] throws (a warning is logged then); the history,
    the timers and the clock are as before. A second call for the same id
    answers [false]. *)
Theorem destroySession_removes_that_session_only :
  forall (destroy : Host.handle -> option (result unit)) (id : string) (w : World),
    let '(r, w') := AIService.destroySession destroy id w in
    r = Return (match AIService.map_get id (sessions (ai w)) with Some _ => true | None => false end)
    /\ sessions (ai w') = AIService.map_delete id (sessions (ai w))
    /\ AIService.map_get id (sessions (ai w')) = None
    /\ (forall k, k <> id ->
          AIService.map_get k (sessions (ai w')) = AIService.map_get k (sessions (ai w)))
    /\ (AIService.map_get id (sessions (ai w)) = None -> w' = w)
    /\ (NoDup (map fst (sessions (ai w))) ->
        AIService.map_get id (sessions (ai w)) <> None ->
        S (length (sessions (ai w'))) = length (sessions (ai w)))
    /\ ta w' = ta w
    /\ timers (ai w') = timers (ai w)
    /\ Host.ticks (host w') = Host.ticks (host w)
    /\ AIService.destroySession destroy id w' = (Return false, w').
Proof.
  intros destroy id w. rewrite destroySession_paths.
  destruct (AIService.map_get id (sessions (ai w))) as [d | ] eqn:Eget.
  - set (w0 := match destroy (session d) with
               | Some (Throw _) =>
                   snd (emit (Host.Console ("Failed to destroy session " ++ id ++ ":")) w)
               | _ => w
               end).
    assert (Hai : ai w0 = ai w /\ ta w0 = ta w /\ Host.ticks (host w0) = Host.ticks (host w)).
    { unfold w0. destruct (destroy (session d)) as [[[] | m] | ]; auto. }
    destruct Hai as (Hai & Hta & Hticks).
    assert (Hgone : AIService.map_get id (AIService.map_delete id (sessions (ai w))) = None).
    { rewrite map_get_map_delete, String.eqb_refl. reflexivity. }
    set (w' := snd (modifySessions (AIService.map_delete id) w0)).
    assert (Hs : sessions (ai w') = AIService.map_delete id (sessions (ai w))).
    { unfold w'. simpl. rewrite Hai. reflexivity. }
    assert (Hrest : ta w' = ta w /\ timers (ai w') = timers (ai w)
                    /\ Host.ticks (host w') = Host.ticks (host w)).
    { unfold w'. simpl. rewrite Hai. auto. }
    destruct Hrest as (Hta' & Htm' & Htk').
    rewrite Hs. repeat split; auto.
    + intros k Hk. rewrite map_get_map_delete.
      apply not_eq_sym in Hk. apply String.eqb_neq in Hk. rewrite Hk. reflexivity.
    + discriminate.
    + intros Hnd _. apply map_delete_length; [ exact Hnd | ].
      destruct (in_dec string_dec id (map fst (sessions (ai w)))) as [Hin | Hout];
        [ exact Hin | ].
      apply map_get_None in Hout. congruence.
    + rewrite destroySession_paths, Hs, Hgone. reflexivity.
  - assert (Hsame : AIService.map_delete id (sessions (ai w)) = sessions (ai w)).
    { apply map_delete_absent, map_get_None, Eget. }
    split; [ reflexivity | ]. split; [ symmetry; exact Hsame | ].
    split; [ exact Eget | ]. split; [ reflexivity | ]. split; [ reflexivity | ].
    split; [ intros _ H; contradiction | ].
    split; [ reflexivity | ]. split; [ reflexivity | ]. split; [ reflexivity | ].
    rewrite destroySession_paths, Eget. reflexivity.
Qed.

(** *** [cleanup] *)

Lemma forEach_destroySession destroy (ids : list string) : forall w : World,
  let '(r, w') := AIService.forEach (AIService.destroySession destroy) ids w in
  r = Return tt
  /\ sessions (ai w')
     = fold_left (fun m id => AIService.map_delete id m) ids (sessions (ai w))
  /\ ta w' = ta w
  /\ timers (ai w') = timers (ai w)
  /\ fallbackEnabled (ai w') = fallbackEnabled (ai w)
  /\ Host.ticks (host w') = Host.ticks (host w).
Proof.
  induction ids as [ | id ids' IH ]; intros w.
  - simpl. auto 10.
  - simpl. unfold bind.
    pose proof (destroySession_paths destroy id w) as Hpath.
    destruct (AIService.destroySession destroy id w) as [r w1] eqn:Ed.
    assert (Hstep : exists b, r = Return b
                              /\ sessions (ai w1) = AIService.map_delete id (sessions (ai w))
                              /\ ta w1 = ta w /\ timers (ai w1) = timers (ai w)
                              /\ fallbackEnabled (ai w1) = fallbackEnabled (ai w)
                              /\ Host.ticks (host w1) = Host.ticks (host w)).
    { destruct (AIService.map_get id (sessions (ai w))) as [d | ] eqn:Eget.
      - injection Hpath as -> ->. exists true. simpl.
        destruct (destroy (session d)) as [[[] | m] | ]; simpl; auto 10.
      - injection Hpath as -> ->. exists false.
        rewrite (map_delete_absent id); [ auto 10 | apply map_get_None, Eget ]. }
    destruct Hstep as (b & -> & Hs & Hta & Htm & Hfb & Htk).
    specialize (IH w1).
    destruct (AIService.forEach (AIService.destroySession destroy) ids' w1) as [r' w'].
    destruct IH as (-> & Hs' & Hta' & Htm' & Hfb' & Htk').
    rewrite Hs', Hs. repeat split; congruence.
Qed.

Lemma delete_all_keys (ids : list string) : forall m : list (string * SessionData),
  (forall k, In k (map fst m) -> In k ids) ->
  fold_left (fun m id => AIService.map_delete id m) ids m = [].
Proof.
  induction ids as [ | id ids' IH ]; intros m Hkeys.
  - destruct m as [ | [k d] m' ]; [ reflexivity | ].
    exfalso. apply (Hkeys k). simpl. auto.
  - simpl. apply IH. intros k Hk.
    assert (Hget : AIService.map_get k (AIService.map_delete id m) <> None).
    { intros E. apply map_get_None in E. contradiction. }
    rewrite map_get_map_delete in Hget.
    destruct (String.eqb_spec id k) as [-> | Hne]; [ contradiction | ].
    assert (Hin : In k (map fst m)).
    { destruct (in_dec string_dec k (map fst m)) as [Hin | Hout]; [ exact Hin | ].
      apply map_get_None in Hout. contradiction. }
    destruct (Hkeys k Hin) as [E | Hrest]; [ contradiction | exact Hrest ].
Qed.

(** X14. [cleanup] empties the session table and never throws, whatever the
    [destroy] of each session does; the history and the pending timers are
    as before (the timers find no session when they fire). *)
Theorem cleanup_leaves_no_session :
  forall (env : Host.env) (destroy : Host.handle -> option (result unit)) (w : World),
    let '(r, w') := AIService.cleanup destroy w in
    r = Return tt
    /\ sessions (ai w') = []
    /\ fst (AIService.getSessionCount w') = Return 0
    /\ ta w' = ta w
    /\ timers (ai w') = timers (ai w)
    /\ (forall id, fst (AIService.sessionCleanupTimer env destroy id w') = Return tt
                   /\ sessions (ai (snd (AIService.sessionCleanupTimer env destroy id w'))) = []).
Proof.
  intros env destroy w. unfold AIService.cleanup. unfold bind, getAI.
  pose proof (forEach_destroySession destroy (map fst (sessions (ai w))) w) as H.
  destruct (AIService.forEach _ _ w) as [r w'].
  destruct H as (-> & Hs & Hta & Htm & _).
  rewrite delete_all_keys in Hs by auto.
  repeat split; auto.
  - unfold AIService.getSessionCount, bind, getAI, ret. rewrite Hs. reflexivity.
  - unfold AIService.sessionCleanupTimer, bind, modifyTimers, getAI. simpl.
    rewrite Hs. reflexivity.
  - unfold AIService.sessionCleanupTimer, bind, modifyTimers, getAI. simpl.
    rewrite Hs. simpl. exact Hs.
Qed.

(** *** The clean-up timer of a session *)

(** What the timer of session [id] does when it fires in the state [w]. *)
Lemma sessionCleanupTimer_paths env destroy (id : string) (w : World) :
  let w0 := snd (modifyTimers (AIService.fired id) w) in
  AIService.sessionCleanupTimer env destroy id w =
    match AIService.map_get id (sessions (ai w)) with
    | None => (Return tt, w0)
    | Some d =>
        if sessionTimeout (ai w) <? Host.now env (Host.ticks (host w)) - lastUsed d
        then (Return tt, snd (AIService.destroySession destroy id (snd (dateNow env w0))))
        else (Return tt, snd (dateNow env w0))
    end.
Proof.
  cbv zeta. unfold AIService.sessionCleanupTimer.
  unfold bind at 1. unfold modifyTimers at 1.
  unfold bind at 1. unfold getAI at 1. cbn [ai set_ai sessions set_timers sessionTimeout].
  destruct (AIService.map_get id (sessions (ai w))) as [d | ] eqn:Eget; [ | reflexivity ].
  unfold bind at 1. unfold dateNow at 1, onHost at 1, Host.dateNow at 1.
  cbn [host set_ai].
  destruct (_ <? _); [ | reflexivity ].
  unfold bind. rewrite !destroySession_paths. simpl. rewrite Eget. reflexivity.
Qed.

Lemma touch_map_get aType p t (m : list (string * SessionData)) id d :
  cached aType p m = Some (id, d) ->
  AIService.map_get id m = Some d ->
  AIService.map_get id (AIService.touch aType p t m) = Some (set_lastUsed t d).
Proof.
  unfold cached. induction m as [ | [k v] m IH ]; simpl; [ discriminate | ].
  destruct (AIService.matches aType p v) eqn:Hv.
  - intros H. injection H as <- <-. simpl. rewrite String.eqb_refl. reflexivity.
  - intros Hc Hget. simpl. destruct (String.eqb_spec k id) as [-> | Hne].
    + injection Hget as <-. apply find_some in Hc. simpl in Hc. destruct Hc as [_ Hd].
      congruence.
    + apply IH; assumption.
Qed.

Lemma fired_count (id : string) (pending : list string) :
  count_occ string_dec (AIService.fired id pending) id
  = pred (count_occ string_dec pending id).
Proof.
  induction pending as [ | x rest IH ]; [ reflexivity | ].
  simpl. destruct (String.eqb_spec x id) as [-> | Hne].
  - destruct (string_dec id id); [ reflexivity | contradiction ].
  - simpl. destruct (string_dec x id); [ contradiction | exact IH ].
Qed.

(** X15. A session that is used again is not given a new timer, so it
    outlives the one it has. When [_getOrCreateSession] finds a stored
    session, it sets [lastUsed] and starts no timer. When the timer of that
    session then fires, it is no longer pending; it destroys the session
    only if more than [sessionTimeout] milliseconds have passed since the
    last use, and otherwise leaves the session in the table with one timer
    less: none, if it had the one timer that [createSession] starts. *)
Theorem reused_session_outlives_its_timer :
  forall (env : Host.env) (destroy : Host.handle -> option (result unit))
         (aType : string) (p : Params.t) (w : World) (id : string) (d : SessionData),
    cached aType p (sessions (ai w)) = Some (id, d) ->
    AIService.map_get id (sessions (ai w)) = Some d ->
    let w1 := snd (AIService._getOrCreateSession env aType p w) in
    let used := Host.now env (Host.ticks (host w)) in
    let fire := Host.now env (Host.ticks (host w1)) in
    let w2 := snd (AIService.sessionCleanupTimer env destroy id w1) in
    timers (ai w1) = timers (ai w)
    /\ AIService.map_get id (sessions (ai w1)) = Some (set_lastUsed used d)
    /\ fst (AIService.sessionCleanupTimer env destroy id w1) = Return tt
    /\ timers (ai w2) = AIService.fired id (timers (ai w))
    /\ (count_occ string_dec (timers (ai w)) id = 1%nat -> ~ In id (timers (ai w2)))
    /\ (fire - used <= sessionTimeout (ai w) ->
        sessions (ai w2) = sessions (ai w1))
    /\ (sessionTimeout (ai w) < fire - used ->
        sessions (ai w2) = AIService.map_delete id (sessions (ai w1))
        /\ AIService.map_get id (sessions (ai w2)) = None).
Proof.
  intros env destroy aType p w id d Hc Hget w1 used fire w2.
  assert (Hw1 : w1 = reused env aType p w).
  { unfold w1. rewrite (getOrCreateSession_hit env aType p w id d Hc). reflexivity. }
  assert (Htm : timers (ai w1) = timers (ai w)) by (rewrite Hw1; reflexivity).
  assert (Hto : sessionTimeout (ai w1) = sessionTimeout (ai w)) by (rewrite Hw1; reflexivity).
  assert (Hget1 : AIService.map_get id (sessions (ai w1)) = Some (set_lastUsed used d)).
  { rewrite Hw1. unfold reused. simpl. apply touch_map_get; assumption. }
  pose proof (sessionCleanupTimer_paths env destroy id w1) as Hpath.
  cbv zeta in Hpath. rewrite Hget1, Hto in Hpath. fold fire in Hpath.
  cbn [lastUsed set_lastUsed] in Hpath.
  assert (Hout : fst (AIService.sessionCleanupTimer env destroy id w1) = Return tt
                 /\ timers (ai w2) = AIService.fired id (timers (ai w))
                 /\ sessions (ai w2)
                    = if sessionTimeout (ai w) <? fire - used
                      then AIService.map_delete id (sessions (ai w1))
                      else sessions (ai w1)).
  { unfold w2. rewrite Hpath. destruct (sessionTimeout (ai w) <? fire - used).
    - assert (Hg : AIService.map_get id
                     (sessions (ai (snd (dateNow env
                                           (snd (modifyTimers (AIService.fired id) w1))))))
                   = Some (set_lastUsed used d)) by exact Hget1.
      rewrite destroySession_paths, Hg. cbn [snd fst].
      split; [ reflexivity | ].
      destruct (destroy _) as [[[] | m] | ]; simpl; rewrite Htm; auto.
    - simpl. rewrite Htm. auto. }
  destruct Hout as (Hr & Htm2 & Hs2).
  split; [ exact Htm | ]. split; [ exact Hget1 | ]. split; [ exact Hr | ].
  split; [ exact Htm2 | ]. split; [ | split ].
  - intros Hone Hin. rewrite Htm2 in Hin.
    apply (count_occ_In string_dec) in Hin. rewrite fired_count, Hone in Hin.
    simpl in Hin. lia.
  - intros Hle. rewrite Hs2. apply Z.ltb_ge in Hle. rewrite Hle. reflexivity.
  - intros Hlt. rewrite Hs2. apply Z.ltb_lt in Hlt. rewrite Hlt.
    split; [ reflexivity | ]. rewrite map_get_map_delete, String.eqb_refl. reflexivity.
Qed.

(** X15 on that page: the session is used again, its timer fires 7 ms
    later and finds it used; the session stays, without a timer. *)
Lemma reused_session_outlives_its_timer_witness :
  let w1 := snd (AIService._getOrCreateSession answeringHost "rewriter" plainParameters
                   withSession) in
  let w2 := snd (AIService.sessionCleanupTimer answeringHost (fun _ => Some (Return tt))
                   "ai_session_1700000000000_q1w2e3" w1) in
  timers (ai w2) = [] /\ length (sessions (ai w2)) = 1%nat.
Proof.
  destruct (reused_session_outlives_its_timer answeringHost (fun _ => Some (Return tt))
              "rewriter" plainParameters withSession "ai_session_1700000000000_q1w2e3"
              (mkSessionData 1%nat "rewriter" plainParameters 1700000000007 1700000000014)
              eq_refl eq_refl)
    as (_ & _ & _ & Htm & _ & Hs & _).
  split; [ exact Htm | ]. rewrite Hs; [ reflexivity | vm_compute; discriminate ].
Defined.

(** ** An analysis from end to end *)

(** The confidence of two texts that are not empty is one of four doubles:
    0.7, 0.7999999999999999, 0.8999999999999999 and 1. *)
Lemma confidence_values_nonempty (original improved : string) :
  original <> EmptyString -> improved <> EmptyString ->
  let c := AIService._calculateConfidenceScore original improved in
  c = (7 # 10)%Q
  \/ c = (7205759403792793 # 9007199254740992)%Q
  \/ c = (2026619832316723 # 2251799813685248)%Q
  \/ c = 1%Q.
Proof.
  intros Ho Hi. cbv zeta. unfold AIService._calculateConfidenceScore.
  apply falsy_false in Ho, Hi. rewrite Ho, Hi. cbn [orb]. cbv zeta.
  destruct (Qltb (1 # 10) _); destruct (_ && _).
  - right. right. right. vm_compute. reflexivity.
  - right. left. vm_compute. reflexivity.
  - right. right. left. vm_compute. reflexivity.
  - left. reflexivity.
Qed.

Lemma confidence_bounds_nonempty (original improved : string) :
  original <> EmptyString -> improved <> EmptyString ->
  let c := AIService._calculateConfidenceScore original improved in
  (7 # 10 <= c <= 1)%Q /\ Qeq_bool c 0 = false /\ Qltb c (6 # 10) = false.
Proof.
  intros Ho Hi. cbv zeta.
  pose proof (confidence_values_nonempty original improved Ho Hi) as Hv. cbv zeta in Hv.
  destruct Hv as [E | [E | [E | E]]]; rewrite E;
    (split; [ split; vm_compute; discriminate | split; vm_compute; reflexivity ]).
Qed.

(** X16. The confidence that the AI service computes is 0 when one of the
    two texts is empty, and else lies between 0.7 and 1. So a result of
    the service for two texts that are not empty never has a low
    confidence (below 0.6): the reason [Low confidence score] is never
    given for it, and when the two texts differ its quality is never
    poor. *)
Theorem service_confidence_is_never_low :
  forall (original improved : string) (r : TextAnalyzer.AnalysisResult),
    let c := AIService._calculateConfidenceScore original improved in
    (original = EmptyString \/ improved = EmptyString -> c = 0%Q)
    /\ (original <> EmptyString -> improved <> EmptyString -> (7 # 10 <= c <= 1)%Q)
    /\ (original <> EmptyString ->
        improved <> EmptyString ->
        TextAnalyzer.improvedText r = improved ->
        TextAnalyzer.originalText r = original ->
        TextAnalyzer.confidenceScore r = c ->
        ~ In "Low confidence score" (TextAnalyzer.reasons (TextAnalyzer.assessAnalysisQuality r))
        /\ (original <> improved ->
            TextAnalyzer.quality (TextAnalyzer.assessAnalysisQuality r) <> "poor")).
Proof.
  intros original improved r. cbv zeta. split; [ | split ].
  - unfold AIService._calculateConfidenceScore.
    intros [-> | ->]; [ reflexivity | ]. destruct original; reflexivity.
  - intros Ho Hi. apply confidence_bounds_nonempty; assumption.
  - intros Ho Hi Himp Horig Hc.
    assert (Hne : JS.falsy (TextAnalyzer.improvedText r) = false)
      by (rewrite Himp; apply falsy_false, Hi).
    pose proof (assessAnalysisQuality_rules r Hne) as Hrules. cbv zeta in Hrules.
    rewrite Hrules. clear Hrules. rewrite Hc, Horig, Himp. simpl.
    assert (Hlow : Qltb (AIService._calculateConfidenceScore original improved) (6 # 10)
                   = false).
    { apply confidence_bounds_nonempty; assumption. }
    rewrite Hlow. split.
    + rewrite !in_app_iff.
      destruct (Qltb _ (8 # 10)); destruct (2000 <? _); destruct (String.eqb _ _);
        destruct (undocumented r); destruct (significantLengthChange r); simpl;
        intuition discriminate.
    + intros Hdiff. apply String.eqb_neq in Hdiff. rewrite Hdiff.
      destruct (Qltb _ (8 # 10)); discriminate.
Qed.

(** *** A backend that answers *)

(** The response of the AI service to the request made for a sample, on a
    page whose preferred backend answers. *)
Lemma analyzeText_answer env prefs (tc : TextContent.t) (a : Host.api) (improved : string)
    (w : World) :
  TextContent.originalText tc <> EmptyString ->
  JS.len (TextContent.originalText tc) <= 5000 ->
  AIService.api_of (AIService.req_apiType (TextAnalyzer._createAnalysisRequest tc prefs))
    = Some a ->
  Host.defined env a = true ->
  (forall log q, JS.isReturn (Host.create env a log q) = true) ->
  answers env a (TextContent.originalText tc) improved ->
  exists (w1 : World) (first second : nat),
    (first < second)%nat
    /\ AIService.analyzeText env (TextAnalyzer._createAnalysisRequest tc prefs) w
       = (Return (AIResponse.Success
                    (AIResponse.mkAnalysis improved
                       (AIService._calculateConfidenceScore (TextContent.originalText tc)
                          improved)
                       (Host.now env second - Host.now env first)
                       (Host.name a)
                       (AIService._generateChangeDetails (TextContent.originalText tc)
                          improved))),
          w1).
Proof.
  intros Hne Hlen Ha Hdef Hcreate Hanswer.
  set (request := TextAnalyzer._createAnalysisRequest tc prefs) in *.
  set (txt := TextContent.originalText tc) in *.
  pose proof (preference_parameters_valid tc prefs) as Hp. fold request in Hp.
  assert (Hv : AIService._validateAnalysisRequest request = Return tt)
    by exact (validateAnalysisRequest_ok request txt a eq_refl Hne Hlen Ha Hp).
  destruct (analyzeWith_answer env a txt improved _ w Hdef Hcreate Hp Hanswer)
    as (an & w1 & Hrun & Himp).
  destruct (analyzeWith_success env a txt _ w w1 an Hrun)
    as (h & w0 & first & second & _ & _ & _ & Hlt & Han).
  rewrite Himp in Han.
  pose proof (analyzeText_validated env request txt w eq_refl Hv) as Hpaths.
  cbv zeta in Hpaths. rewrite Ha in Hpaths.
  destruct Hpaths as (r1 & w1' & Hfirst & Hrest).
  rewrite Hrun in Hfirst. injection Hfirst as <- <-.
  exists w1, first, second. split; [ exact Hlt | ]. rewrite Hrest, Han. reflexivity.
Qed.

Lemma ellipsis_nonempty (n k : nat) (s : string) :
  s <> EmptyString -> JS.ellipsis n k s <> EmptyString.
Proof.
  intros Hs. unfold JS.ellipsis. destruct (n <? String.length s)%nat; [ | exact Hs ].
  destruct (String.substring 0 k s); discriminate.
Qed.

Lemma isEmpty_false_nonempty (tc : TextContent.t) :
  TextContent.isEmpty tc = false ->
  TextContent.originalText tc <> EmptyString /\ 0 < JS.len (TextContent.originalText tc).
Proof.
  unfold TextContent.isEmpty. intros H.
  destruct (TextContent.originalText tc) as [ | c s ]; [ discriminate | ].
  split; [ discriminate | ]. unfold JS.len. simpl. lia.
Qed.

(** X17. The analysis of a new sample succeeds when the preferred backend
    is available, makes a session and answers a text that is not empty and
    differs from the sample's text within the first 47 characters (or is
    not longer than 50), and the clock runs. The sample is then analyzed;
    the result has the answer as improved text, one change of type clarity
    that spans the whole text, whose phrases are the two texts cut at 47
    characters, the confidence of the heuristic, a positive processing
    time and the backend as type; and the history starts with its entry. *)
Theorem analysis_of_an_answering_backend :
  forall (env : Host.env) (prefs : TextAnalyzer.Preferences) (tc : TextContent.t)
         (a : Host.api) (improved : string) (w : World),
    TextContent.state tc = "Created" ->
    TextContent.isEmpty tc = false ->
    JS.len (TextContent.originalText tc) <= 5000 ->
    AIService.api_of (AIService.req_apiType (TextAnalyzer._createAnalysisRequest tc prefs))
      = Some a ->
    Host.defined env a = true ->
    (forall log q, JS.isReturn (Host.create env a log q) = true) ->
    answers env a (TextContent.originalText tc) improved ->
    clock_runs env ->
    improved <> EmptyString ->
    JS.ellipsis 50 47 (TextContent.originalText tc) <> JS.ellipsis 50 47 improved ->
    (0 < maxHistorySize (ta w))%nat ->
    exists (res : TextAnalyzer.AnalysisResult) (w' : World) (e : HistoryEntry)
           (rest : list HistoryEntry),
      TextAnalyzer.analyzeTextContent env prefs (tc, w)
      = (Return res, (TextContent.set_state "Analyzed" tc, w'))
      /\ TextAnalyzer.originalText res = TextContent.originalText tc
      /\ TextAnalyzer.improvedText res = improved
      /\ TextAnalyzer.changes res = [overall_change (TextContent.originalText tc) improved]
      /\ TextAnalyzer.confidenceScore res
         = AIService._calculateConfidenceScore (TextContent.originalText tc) improved
      /\ 0 < TextAnalyzer.processingTime res
      /\ TextAnalyzer.improvementType res = Host.name a
      /\ TextAnalyzer.textContentId res = TextContent.timestamp tc
      /\ analysisHistory (ta w') = e :: rest
      /\ historyView e = resultView res.
Proof.
  intros env prefs tc a improved w Hst Hempty Hlen Ha Hdef Hcreate Hanswer Hclock
    Himp Hdiff Hmax.
  destruct (isEmpty_false_nonempty tc Hempty) as [Hne Hpos].
  set (txt := TextContent.originalText tc) in *.
  destruct (analyzeText_answer env prefs tc a improved w Hne Hlen Ha Hdef Hcreate Hanswer)
    as (w1 & first & second & Hlt & Hanalyze).
  fold txt in Hanalyze.
  assert (Htxt : txt <> improved) by (intros E; apply Hdiff; rewrite E; reflexivity).
  assert (Hchanges : AIService._generateChangeDetails txt improved
                     = [overall_change txt improved]).
  { unfold AIService._generateChangeDetails. apply String.eqb_neq in Htxt.
    rewrite Htxt. reflexivity. }
  rewrite Hchanges in Hanalyze.
  destruct (confidence_bounds_nonempty txt improved Hne Himp) as (Hconf & Hnz & _).
  cbv zeta in Hconf, Hnz.
  assert (Hchange : valid_change (overall_change txt improved)).
  { unfold valid_change, overall_change. simpl.
    repeat split; try discriminate; auto using ellipsis_nonempty; try lia. }
  set (time := Host.now env second - Host.now env first) in *.
  assert (Htime : 0 < time) by (unfold time; specialize (Hclock first second Hlt); lia).
  set (an := AIResponse.mkAnalysis improved
               (AIService._calculateConfidenceScore txt improved) time (Host.name a)
               [overall_change txt improved]) in *.
  set (ci := ClarityImprovement.mk improved (Host.name a)
               (AIService._calculateConfidenceScore txt improved)
               [overall_change txt improved] time []
               (Host.now env (Host.ticks (host w1)))).
  assert (Hbuilt : ClarityImprovement.createFromAIResponse env (AIResponse.Success an) txt
                     (host w1)
                   = (Return ci,
                      Host.mkState (S (Host.ticks (host w1))) (Host.draws (host w1))
                        (Host.log (host w1)))).
  { unfold ClarityImprovement.createFromAIResponse, an.
    cbn [AIResponse.changes AIResponse.improvedText AIResponse.apiUsed
         AIResponse.confidenceScore AIResponse.processingTime].
    unfold bind at 1. unfold lift at 1.
    assert (Hmap : ClarityImprovement.mapM ChangeDetail.ofPlain [overall_change txt improved]
                   = Return [overall_change txt improved]).
    { change ChangeDetail.ofPlain with ChangeDetail.fromJSON. apply mapM_fromJSON. auto. }
    rewrite Hmap. unfold bind, Host.dateNow, lift. cbn [fst snd].
    rewrite Hnz.
    assert (Hname : JS.falsy (Host.name a) = false) by (destruct a; reflexivity).
    rewrite Hname.
    assert (Hnew : ClarityImprovement.new improved (Host.name a)
                     (AIService._calculateConfidenceScore txt improved)
                     [overall_change txt improved] time []
                     (Host.now env (Host.ticks (host w1))) = Return ci).
    { apply new_improvement_valid; [ auto | ]. split; [ reflexivity | ].
      unfold valid_improvement, ci. simpl.
      split; [ apply falsy_false, falsy_false, Himp | ].
      split; [ destruct a; simpl; auto | ].
      split; [ split; [ | apply Hconf ];
               apply Qle_trans with (7 # 10); [ unfold Qle; simpl; lia | apply Hconf ] | ].
      split; [ discriminate | ]. split; [ exact Htime | auto ]. }
    rewrite Hnew. reflexivity. }
  rewrite analyzeTextContent_paths, Hempty, Hst. simpl negb. cbv iota zeta.
  fold txt. rewrite Hanalyze, Hbuilt.
  destruct (addToHistory_run env txt ci
              (set_host (Host.mkState (S (Host.ticks (host w1))) (Host.draws (host w1))
                           (Host.log (host w1))) w1))
    as (e & Horig & Hci & Hadd).
  rewrite Hadd. cbn [snd].
  assert (Hta : ta w1 = ta w).
  { pose proof (keeps_ta_analyzeText env (TextAnalyzer._createAnalysisRequest tc prefs) w)
      as H. rewrite Hanalyze in H. exact H. }
  cbn [ta set_host]. rewrite Hta.
  set (history := if (maxHistorySize (ta w) <? S (length (analysisHistory (ta w))))%nat
                  then firstn (maxHistorySize (ta w)) (e :: analysisHistory (ta w))
                  else e :: analysisHistory (ta w)).
  assert (Hhead : exists rest, history = e :: rest).
  { unfold history.
    destruct (maxHistorySize (ta w) <? S (length (analysisHistory (ta w))))%nat; [ | eauto ].
    destruct (maxHistorySize (ta w)) as [ | k ] eqn:Ek; [ lia | ]. simpl. eauto. }
  destruct Hhead as [rest Hrest].
  exists (result_of tc ci), (mkWorld
    (Host.mkState (S (S (S (Host.ticks (host w1))))) (S (Host.draws (host w1)))
       (Host.log (host w1)))
    (ai w1) (set_analysisHistory history (ta w))), e, rest.
  split; [ reflexivity | ].
  unfold result_of, ci. simpl.
  repeat split; auto.
  unfold historyView, resultView. rewrite Horig, Hci. reflexivity.
Qed.

Lemma analysis_of_an_answering_backend_witness :
  exists (res : TextAnalyzer.AnalysisResult) (w' : World) (e : HistoryEntry)
         (rest : list HistoryEntry),
    TextAnalyzer.analyzeTextContent answeringHost TextAnalyzer.noPreferences (note, initial)
    = (Return res, (TextContent.set_state "Analyzed" note, w'))
    /\ TextAnalyzer.originalText res = "so I was at this place today"
    /\ TextAnalyzer.improvedText res = "Clear: so I was at this place today"
    /\ TextAnalyzer.changes res
       = [overall_change "so I was at this place today"
            "Clear: so I was at this place today"]
    /\ TextAnalyzer.confidenceScore res
       = AIService._calculateConfidenceScore "so I was at this place today"
           "Clear: so I was at this place today"
    /\ 0 < TextAnalyzer.processingTime res
    /\ TextAnalyzer.improvementType res = "rewriter"
    /\ TextAnalyzer.textContentId res = 1700000000000
    /\ analysisHistory (ta w') = e :: rest
    /\ historyView e = resultView res.
Proof.
  apply (analysis_of_an_answering_backend answeringHost TextAnalyzer.noPreferences note
           Host.Rewriter "Clear: so I was at this place today" initial);
    try reflexivity; try discriminate.
  - intros log h p options. reflexivity.
  - intros i j Hij. simpl. lia.
  - simpl. lia.
Defined.

(** *** What every result looks like *)

(** A successful response of [analyzeText] was computed by one of the two
    attempts. *)
Lemma analyzeText_success_shape env (request : AIService.AnalysisRequest) (txt : string)
    (w w1 : World) (an : AIResponse.analysis) :
  AIService.text request = AIService.Str txt ->
  AIService.analyzeText env request w = (Return (AIResponse.Success an), w1) ->
  exists (a : Host.api) (first second : nat),
    (first < second)%nat
    /\ an = AIResponse.mkAnalysis (AIResponse.improvedText an)
              (AIService._calculateConfidenceScore txt (AIResponse.improvedText an))
              (Host.now env second - Host.now env first)
              (Host.name a)
              (AIService._generateChangeDetails txt (AIResponse.improvedText an)).
Proof.
  intros Ht Hrun.
  destruct (AIService._validateAnalysisRequest request) as [[] | m] eqn:Hv.
  - pose proof (analyzeText_validated env request txt w Ht Hv) as Hpaths.
    cbv zeta in Hpaths.
    destruct (AIService.api_of (AIService.req_apiType request)) as [a | ].
    + destruct Hpaths as (r1 & w1' & Hfirst & Hrest).
      destruct r1 as [an1 | ].
      * rewrite Hrest in Hrun. injection Hrun as -> ->.
        destruct (analyzeWith_success env a txt _ w w1 an Hfirst)
          as (h & w0 & first & second & _ & _ & _ & Hlt & Han).
        exists a, first, second. auto.
      * destruct (fallbackEnabled (ai w1')).
        -- destruct Hrest as (r2 & w2 & Hsecond & Hrest).
           rewrite Hrest in Hrun. destruct r2 as [an2 | ]; [ | discriminate ].
           simpl in Hrun. injection Hrun as <- <-.
           destruct (analyzeWith_success env (Host.other a) txt _ _ w2 an2 Hsecond)
             as (h & w0 & first & second & _ & _ & _ & Hlt & Han).
           exists (Host.other a), first, second. split; [ exact Hlt | ].
           rewrite Han at 1. reflexivity.
        -- rewrite Hrest in Hrun. discriminate.
    + rewrite Hpaths in Hrun. discriminate.
  - unfold AIService.analyzeText, try_catch, bind at 1, lift in Hrun.
    rewrite Hv in Hrun.
    destruct (String.eqb m "Text cannot be empty"); [ discriminate | ].
    destruct (String.eqb m "TEXT_TOO_LONG"); discriminate.
Qed.

(** The steps of an analysis that returns a result. *)
Lemma analyzeTextContent_Return env prefs (tc tc' : TextContent.t) (w w' : World)
    (res : TextAnalyzer.AnalysisResult) :
  TextAnalyzer.analyzeTextContent env prefs (tc, w) = (Return res, (tc', w')) ->
  exists an w1 ci h2,
    TextContent.isEmpty tc = false
    /\ TextContent.state tc = "Created"
    /\ AIService.analyzeText env (TextAnalyzer._createAnalysisRequest tc prefs) w
       = (Return (AIResponse.Success an), w1)
    /\ ClarityImprovement.createFromAIResponse env (AIResponse.Success an)
         (TextContent.originalText tc) (host w1) = (Return ci, h2)
    /\ res = result_of tc ci
    /\ tc' = TextContent.set_state "Analyzed" tc
    /\ w' = snd (TextAnalyzer._addToHistory env (TextContent.originalText tc) ci
                   (set_host h2 w1)).
Proof.
  rewrite analyzeTextContent_paths.
  destruct (TextContent.isEmpty tc); [ discriminate | ].
  destruct (String.eqb_spec (TextContent.state tc) "Created") as [Hst | Hst];
    cbn [negb]; cbv zeta.
  - destruct (AIService.analyzeText env _ w) as [[[an | code msg] | m] w1];
      try discriminate.
    match goal with
    | |- context [ClarityImprovement.createFromAIResponse env ?r ?t (host w1)] =>
        destruct (ClarityImprovement.createFromAIResponse env r t (host w1))
          as [[ci | m] h2] eqn:Hb; [ | discriminate ]
    end.
    intros H. injection H as <- <- <-. exists an, w1, ci, h2. auto 10.
  - destruct (String.eqb _ "Analyzed"); discriminate.
Qed.

(** X18. Every result that [analyzeTextContent] returns has the same
    shape, whatever the backends do. The sample was new and is now
    analyzed. The improved text is not empty and differs from the
    original; there is exactly one change, of type clarity, spanning the
    whole text, whose two phrases (the texts, cut to 47 characters and an
    ellipsis when longer than 50) differ; the confidence is the one of the
    heuristic and at least 0.7; the processing time is positive; the type
    is [rewriter] or [prompt]. So the quality assessed for a result is
    never poor, and never lacks documented changes. *)
Theorem every_result_has_one_overall_change :
  forall (env : Host.env) (prefs : TextAnalyzer.Preferences) (tc tc' : TextContent.t)
         (w w' : World) (res : TextAnalyzer.AnalysisResult),
    TextAnalyzer.analyzeTextContent env prefs (tc, w) = (Return res, (tc', w')) ->
    let txt := TextContent.originalText tc in
    let improved := TextAnalyzer.improvedText res in
    TextContent.state tc = "Created"
    /\ tc' = TextContent.set_state "Analyzed" tc
    /\ TextAnalyzer.originalText res = txt
    /\ improved <> EmptyString
    /\ improved <> txt
    /\ TextAnalyzer.changes res = [overall_change txt improved]
    /\ JS.ellipsis 50 47 txt <> JS.ellipsis 50 47 improved
    /\ TextAnalyzer.confidenceScore res = AIService._calculateConfidenceScore txt improved
    /\ (7 # 10 <= TextAnalyzer.confidenceScore res <= 1)%Q
    /\ 0 < TextAnalyzer.processingTime res
    /\ In (TextAnalyzer.improvementType res) ["rewriter"; "prompt"]
    /\ TextAnalyzer.quality (TextAnalyzer.assessAnalysisQuality res) <> "poor"
    /\ ~ In "No specific changes documented"
           (TextAnalyzer.reasons (TextAnalyzer.assessAnalysisQuality res)).
Proof.
  intros env prefs tc tc' w w' res Hrun txt improved.
  destruct (analyzeTextContent_Return env prefs tc tc' w w' res Hrun)
    as (an & w1 & ci & h2 & Hempty & Hst & Hanalyze & Hbuilt & -> & -> & _).
  destruct (isEmpty_false_nonempty tc Hempty) as [Hne _]. fold txt in Hne.
  destruct (analyzeText_success_shape env (TextAnalyzer._createAnalysisRequest tc prefs)
              txt w w1 an eq_refl Hanalyze)
    as (a & first & second & Hlt & Han).
  pose proof (createFromAIResponse_spec env (AIResponse.Success an) txt (host w1)) as Hspec.
  fold txt in Hbuilt. rewrite Hbuilt in Hspec.
  destruct Hspec as (an' & Ean & Hvalid & Htext & Htime & Htype & Hconf & Hchanges & _).
  injection Ean as <-.
  destruct Hvalid as (Himp & Hitype & Hrange & _ & Hpos & Hall).
  subst improved. unfold result_of. cbn [TextAnalyzer.improvedText TextAnalyzer.originalText
    TextAnalyzer.changes TextAnalyzer.confidenceScore TextAnalyzer.processingTime
    TextAnalyzer.improvementType].
  set (improved := ClarityImprovement.improvedText ci) in *.
  rewrite <- Htext in Han.
  assert (Hgen : AIResponse.changes an = AIService._generateChangeDetails txt improved)
    by (rewrite Han; reflexivity).
  assert (Hconf' : ClarityImprovement.confidenceScore ci
                   = AIService._calculateConfidenceScore txt improved).
  { rewrite Hconf. destruct (confidence_bounds_nonempty txt improved Hne Himp)
      as (_ & Hnz & _). cbv zeta in Hnz.
    rewrite Han. cbn [AIResponse.confidenceScore]. rewrite Hnz. reflexivity. }
  assert (Hdiff : improved <> txt /\ ClarityImprovement.changes ci
                                     = [overall_change txt improved]).
  { rewrite Hgen in Hchanges. unfold AIService._generateChangeDetails in Hchanges.
    destruct (String.eqb_spec txt improved) as [E | E]; simpl in Hchanges.
    - exfalso. rewrite Hchanges in Hall. inversion Hall as [ | c cs Hc _ ]; subst c cs.
      destruct Hc as (_ & _ & _ & Hd & _). simpl in Hd. rewrite <- Htext in Hd. auto.
    - split; [ auto | exact Hchanges ]. }
  destruct Hdiff as [Hdiff Hone].
  assert (Hcut : JS.ellipsis 50 47 txt <> JS.ellipsis 50 47 improved).
  { rewrite Hone in Hall. inversion Hall as [ | c cs Hc _ ]; subst c cs.
    destruct Hc as (_ & _ & _ & Hd & _). exact Hd. }
  assert (Hbounds : (7 # 10 <= ClarityImprovement.confidenceScore ci <= 1)%Q).
  { rewrite Hconf'. apply confidence_bounds_nonempty; assumption. }
  assert (Hfalsy : JS.falsy improved = false) by (apply falsy_false; exact Himp).
  pose proof (assessAnalysisQuality_rules (result_of tc ci) Hfalsy) as Hrules.
  cbv zeta in Hrules. unfold result_of in Hrules.
  cbn [TextAnalyzer.improvedText TextAnalyzer.originalText TextAnalyzer.confidenceScore
       TextAnalyzer.processingTime] in Hrules.
  fold txt improved in Hrules.
  assert (Hsame : (txt =? improved)%string = false)
    by (apply String.eqb_neq; auto).
  assert (Hlow : Qltb (ClarityImprovement.confidenceScore ci) (6 # 10) = false).
  { apply Qltb_ge. apply Qle_trans with (7 # 10); [ unfold Qle; simpl; lia | apply Hbounds ]. }
  rewrite Hsame, Hlow in Hrules.
  assert (Hdoc : undocumented
                   (TextAnalyzer.mkResult txt improved
                      (map ChangeDetail.toJSON (ClarityImprovement.changes ci))
                      (ClarityImprovement.confidenceScore ci)
                      (ClarityImprovement.processingTime ci)
                      (ClarityImprovement.improvementType ci)
                      (TextContent.timestamp tc)) = false).
  { unfold undocumented. simpl. rewrite Hone. reflexivity. }
  rewrite Hdoc in Hrules.
  split; [ exact Hst | ]. split; [ reflexivity | ]. split; [ reflexivity | ].
  split; [ exact Himp | ]. split; [ exact Hdiff | ].
  split; [ rewrite Hone; reflexivity | ]. split; [ exact Hcut | ].
  split; [ exact Hconf' | ]. split; [ exact Hbounds | ]. split; [ exact Hpos | ].
  split; [ exact Hitype | ].
  fold txt improved. rewrite Hrules. cbn [TextAnalyzer.quality TextAnalyzer.reasons].
  split.
  - destruct (Qltb _ (8 # 10)); discriminate.
  - rewrite !in_app_iff.
    destruct (Qltb _ (8 # 10)); destruct (2000 <? _); destruct (significantLengthChange _);
      simpl; intuition discriminate.
Qed.

Lemma every_result_has_one_overall_change_witness :
  exists res : TextAnalyzer.AnalysisResult,
    TextAnalyzer.changes res
    = [overall_change "so I was at this place today" (TextAnalyzer.improvedText res)]
    /\ TextAnalyzer.improvedText res = "Clear: so I was at this place today".
Proof.
  destruct (TextAnalyzer.analyzeTextContent answeringHost TextAnalyzer.noPreferences
              (note, initial)) as [[res | m] [tc' w']] eqn:Hrun;
    [ | vm_compute in Hrun; discriminate ].
  exists res.
  destruct (every_result_has_one_overall_change answeringHost TextAnalyzer.noPreferences
              note tc' initial w' res Hrun) as (_ & _ & _ & _ & _ & Hch & _).
  split; [ exact Hch | ].
  vm_compute in Hrun. injection Hrun as <- _ _. reflexivity.
Defined.

(** X19. An answer that agrees with a long text on its first 47
    characters cannot be recorded. On a page whose preferred backend is
    available, makes a session and answers: when the text and the answer
    are both longer than 50 characters and have the same first 47
    characters, the two phrases of the change are the same string, no
    improvement can be built, and the analysis ends with
    [Cannot transition to Rejected from Analyzing]; the sample stays in
    state [Analyzing] and the history is as it was. *)
Theorem long_texts_with_a_common_start_fail :
  forall (env : Host.env) (prefs : TextAnalyzer.Preferences) (tc : TextContent.t)
         (a : Host.api) (improved : string) (w : World),
    TextContent.state tc = "Created" ->
    TextContent.isEmpty tc = false ->
    JS.len (TextContent.originalText tc) <= 5000 ->
    AIService.api_of (AIService.req_apiType (TextAnalyzer._createAnalysisRequest tc prefs))
      = Some a ->
    Host.defined env a = true ->
    (forall log q, JS.isReturn (Host.create env a log q) = true) ->
    answers env a (TextContent.originalText tc) improved ->
    (50 < String.length (TextContent.originalText tc))%nat ->
    (50 < String.length improved)%nat ->
    String.substring 0 47 (TextContent.originalText tc) = String.substring 0 47 improved ->
    exists w' : World,
      TextAnalyzer.analyzeTextContent env prefs (tc, w)
      = (Throw "Cannot transition to Rejected from Analyzing",
         (TextContent.set_state "Analyzing" tc, w'))
      /\ analysisHistory (ta w') = analysisHistory (ta w).
Proof.
  intros env prefs tc a improved w Hst Hempty Hlen Ha Hdef Hcreate Hanswer
    Hlong1 Hlong2 Hstart.
  destruct (isEmpty_false_nonempty tc Hempty) as [Hne _].
  set (txt := TextContent.originalText tc) in *.
  destruct (analyzeText_answer env prefs tc a improved w Hne Hlen Ha Hdef Hcreate Hanswer)
    as (w1 & first & second & Hlt & Hanalyze).
  fold txt in Hanalyze.
  assert (Hcut : JS.ellipsis 50 47 txt = JS.ellipsis 50 47 improved).
  { unfold JS.ellipsis. apply Nat.ltb_lt in Hlong1, Hlong2.
    rewrite Hlong1, Hlong2, Hstart. reflexivity. }
  pose proof (keeps_ta_analyzeText env (TextAnalyzer._createAnalysisRequest tc prefs) w)
    as Hta. rewrite Hanalyze in Hta. simpl in Hta.
  rewrite analyzeTextContent_paths, Hempty, Hst. simpl negb. cbv iota zeta.
  fold txt. rewrite Hanalyze.
  match goal with
  | |- context [ClarityImprovement.createFromAIResponse env ?r txt (host w1)] =>
      pose proof (createFromAIResponse_spec env r txt (host w1)) as Hspec;
      destruct (ClarityImprovement.createFromAIResponse env r txt (host w1))
        as [[ci | m] h2]
  end.
  - exfalso. destruct Hspec as (an & Ean & Hvalid & _ & _ & _ & _ & Hchanges & _).
    injection Ean as <-. cbn [AIResponse.changes AIResponse.improvedText] in Hchanges.
    destruct Hvalid as (_ & _ & _ & _ & _ & Hall). rewrite Hchanges in Hall.
    unfold AIService._generateChangeDetails in Hall.
    destruct (String.eqb_spec txt improved) as [E | E]; simpl in Hall;
      inversion Hall as [ | c cs Hc _ ]; subst c cs;
      destruct Hc as (_ & _ & _ & Hd & _); simpl in Hd; auto.
  - eexists. split; [ reflexivity | ]. simpl. rewrite Hta. reflexivity.
Qed.

Lemma long_texts_with_a_common_start_fail_witness :
  exists w' : World,
    TextAnalyzer.analyzeTextContent suffixHost TextAnalyzer.noPreferences (longNote, initial)
    = (Throw "Cannot transition to Rejected from Analyzing",
       (TextContent.set_state "Analyzing" longNote, w'))
    /\ analysisHistory (ta w') = analysisHistory (ta initial).
Proof.
  apply (long_texts_with_a_common_start_fail suffixHost TextAnalyzer.noPreferences longNote
           Host.Rewriter "The quarterly report is due on Friday, and it is overdue." initial);
    try reflexivity; try discriminate.
  - intros log h p options. reflexivity.
  - simpl. lia.
  - simpl. lia.
Defined.

(** X20. An analysis needs the clock to advance. When the clock shows the
    same time at every reading (an answer within the same millisecond, or
    a frozen test clock), the processing time measured is 0, which the
    improvement refuses: [analyzeTextContent] returns no result, whatever
    the sample, the preferences and the backends. *)
Theorem no_result_while_the_clock_stands_still :
  forall (env : Host.env) (prefs : TextAnalyzer.Preferences) (tc : TextContent.t)
         (w : World),
    (forall i j : nat, Host.now env i = Host.now env j) ->
    JS.isReturn (fst (TextAnalyzer.analyzeTextContent env prefs (tc, w))) = false.
Proof.
  intros env prefs tc w Hclock.
  destruct (TextAnalyzer.analyzeTextContent env prefs (tc, w)) as [[res | m] [tc' w']]
    eqn:Hrun; [ | reflexivity ].
  exfalso.
  destruct (analyzeTextContent_Return env prefs tc tc' w w' res Hrun)
    as (an & w1 & ci & h2 & _ & _ & Hanalyze & Hbuilt & _).
  destruct (analyzeText_success_shape env (TextAnalyzer._createAnalysisRequest tc prefs)
              (TextContent.originalText tc) w w1 an eq_refl Hanalyze)
    as (a & first & second & _ & Han).
  pose proof (createFromAIResponse_spec env (AIResponse.Success an)
                (TextContent.originalText tc) (host w1)) as Hspec.
  rewrite Hbuilt in Hspec.
  destruct Hspec as (an' & Ean & Hvalid & _ & Htime & _).
  injection Ean as <-.
  destruct Hvalid as (_ & _ & _ & _ & Hpos & _).
  rewrite Htime, Han in Hpos. cbn [AIResponse.processingTime] in Hpos.
  rewrite (Hclock second first) in Hpos. lia.
Qed.

Lemma no_result_while_the_clock_stands_still_witness :
  JS.isReturn (fst (TextAnalyzer.analyzeTextContent frozenHost TextAnalyzer.noPreferences
                      (note, initial))) = false.
Proof.
  apply (no_result_while_the_clock_stands_still frozenHost TextAnalyzer.noPreferences note
           initial).
  intros i j. reflexivity.
Defined.

(** ** The history: what it holds, and how it is read *)

Lemma Forall_firstn {A} (P : A -> Prop) (k : nat) (l : list A) :
  Forall P l -> Forall P (firstn k l).
Proof.
  intros H. revert k. induction H as [ | x l Hx _ IH ]; intros [ | k ]; simpl; auto.
Qed.

Lemma addToHistory_valid env (original : string) (ci : ClarityImprovement.t) (w : World) :
  valid_improvement ci -> history_valid w ->
  history_valid (snd (TextAnalyzer._addToHistory env original ci w)).
Proof.
  intros Hci Hw. destruct (addToHistory_run env original ci w) as (e & _ & He & ->).
  unfold history_valid. simpl.
  assert (Hall : Forall (fun e => valid_improvement (entry_clarityImprovement e))
                   (e :: analysisHistory (ta w))).
  { constructor; [ rewrite He; exact Hci | exact Hw ]. }
  destruct (_ <? _)%nat; [ apply Forall_firstn | ]; exact Hall.
Qed.

Lemma analyzeTextContent_valid env prefs (tc : TextContent.t) (w : World) :
  history_valid w ->
  history_valid (snd (snd (TextAnalyzer.analyzeTextContent env prefs (tc, w)))).
Proof.
  intros Hw.
  destruct (TextAnalyzer.analyzeTextContent env prefs (tc, w)) as [[res | m] [tc' w']]
    eqn:Hrun.
  - destruct (analyzeTextContent_Return env prefs tc tc' w w' res Hrun)
      as (an & w1 & ci & h2 & _ & _ & Hanalyze & Hbuilt & _ & _ & ->).
    pose proof (createFromAIResponse_spec env (AIResponse.Success an)
                  (TextContent.originalText tc) (host w1)) as Hspec.
    rewrite Hbuilt in Hspec. destruct Hspec as (an' & _ & Hvalid & _).
    simpl. apply addToHistory_valid; [ exact Hvalid | ].
    pose proof (keeps_ta_analyzeText env (TextAnalyzer._createAnalysisRequest tc prefs) w)
      as Hta. rewrite Hanalyze in Hta. simpl in Hta.
    unfold history_valid. simpl. rewrite Hta. exact Hw.
  - pose proof (analyzeTextContent_history env prefs tc w) as Hh.
    rewrite Hrun in Hh. destruct Hh as [_ Hh]. simpl.
    unfold history_valid. rewrite Hh. exact Hw.
Qed.

Lemma analyzeText_valid env (txt : string) (options : TextAnalyzer.Options) (w : World) :
  history_valid w ->
  history_valid (snd (TextAnalyzer.analyzeText env txt options w)).
Proof.
  intros Hw. unfold TextAnalyzer.analyzeText.
  destruct (JS.falsy txt); [ exact Hw | ].
  destruct (JS.len (JS.trim txt) =? 0); [ exact Hw | ].
  unfold bind at 1. unfold dateNow at 1, onHost at 1, Host.dateNow at 1.
  unfold bind at 1. unfold lift at 1.
  destruct (TextContent.new _ _ _ _) as [tc | m]; [ | exact Hw ].
  match goal with
  | |- context [TextAnalyzer.analyzeTextContent env ?p (tc, ?w0)] =>
      pose proof (analyzeTextContent_valid env p tc w0 Hw) as H;
      destruct (TextAnalyzer.analyzeTextContent env p (tc, w0)) as [r s]
  end.
  exact H.
Qed.

(** *** Sums of confidences *)

Lemma fold_Qplus_bounds (xs : list Q) :
  Forall (fun x => 0 <= x <= 1)%Q xs ->
  forall acc : Q,
    (acc <= fold_left Qplus xs acc)%Q
    /\ (fold_left Qplus xs acc <= acc + inject_Z (Z.of_nat (length xs)))%Q.
Proof.
  induction 1 as [ | x xs [Hlo Hhi] _ IH ]; intros acc.
  - simpl. change (inject_Z (Z.of_nat 0)) with 0%Q. split; lra.
  - simpl fold_left. destruct (IH (acc + x)%Q) as [H1 H2].
    replace (Z.of_nat (length (x :: xs))) with (Z.of_nat (length xs) + 1)
      by (simpl length; lia).
    rewrite inject_Z_plus. change (inject_Z 1) with 1%Q. split; lra.
Qed.

Lemma fold_Zadd_positive (xs : list Z) :
  Forall (fun x => 0 < x) xs ->
  forall acc : Z, acc + Z.of_nat (length xs) <= fold_left Z.add xs acc.
Proof.
  induction 1 as [ | x xs Hx _ IH ]; intros acc.
  - simpl. lia.
  - simpl fold_left. specialize (IH (acc + x)). simpl length. lia.
Qed.

(** *** Counts by type *)

Lemma total_tally (k : string) (counts : gmap string Z) :
  total (TextAnalyzer.tally k counts) = total counts + 1.
Proof.
  unfold total, TextAnalyzer.tally.
  destruct (counts !! k) as [v | ] eqn:Ek; simpl.
  - rewrite <- insert_delete_eq.
    rewrite map_fold_insert_L; [ | intros; lia | apply lookup_delete_eq ].
    rewrite (map_fold_delete_L _ _ k v counts); [ lia | intros; lia | exact Ek ].
  - rewrite map_fold_insert_L; [ lia | intros; lia | exact Ek ].
Qed.

Lemma total_tally_changes (chs : list ChangeDetail.t) : forall counts : gmap string Z,
  total (fold_left (fun counts change =>
                      TextAnalyzer.tally (ChangeDetail.changeType change) counts)
           chs counts)
  = total counts + Z.of_nat (length chs).
Proof.
  induction chs as [ | c chs IH ]; intros counts; simpl fold_left.
  - simpl. lia.
  - rewrite IH, total_tally. simpl length. lia.
Qed.

Lemma counts_tally (k : string) (n : string -> nat) (object : gmap string Z) :
  counts n object ->
  counts (fun key => ((if (k =? key)%string then 1 else 0) + n key)%nat)
    (TextAnalyzer.tally k object).
Proof.
  intros H key. unfold TextAnalyzer.tally.
  destruct (String.eqb_spec k key) as [<- | Hne].
  - rewrite lookup_insert_eq, (H k). simpl.
    destruct (n k) as [ | m ]; simpl; f_equal; lia.
  - rewrite lookup_insert_ne by exact Hne. rewrite (H key). reflexivity.
Qed.

Lemma counts_ext (n n' : string -> nat) (object : gmap string Z) :
  (forall key, n key = n' key) -> counts n object -> counts n' object.
Proof. intros E H key. rewrite <- E. apply H. Qed.

Lemma counts_changes (chs : list ChangeDetail.t) :
  forall (n : string -> nat) (object : gmap string Z),
    counts n object ->
    counts (fun key =>
              (length (List.filter
                         (fun change => (ChangeDetail.changeType change =? key)%string) chs)
               + n key)%nat)
      (fold_left (fun changeTypes change =>
                    TextAnalyzer.tally (ChangeDetail.changeType change) changeTypes)
         chs object).
Proof.
  induction chs as [ | c chs IH ]; intros n object H.
  - exact H.
  - simpl fold_left. eapply counts_ext; [ | apply IH, counts_tally, H ].
    intros key. simpl. destruct (ChangeDetail.changeType c =? key)%string; simpl; lia.
Qed.

Lemma counts_history (history : list HistoryEntry) :
  forall (ni nc : string -> nat) (it ct : gmap string Z),
    counts ni it -> counts nc ct ->
    let '(it', ct') :=
      fold_left
        (fun '(improvementTypes, changeTypes) entry =>
           let type := ClarityImprovement.improvementType (entry_clarityImprovement entry) in
           (TextAnalyzer.tally type improvementTypes,
            fold_left (fun changeTypes change =>
                         TextAnalyzer.tally (ChangeDetail.changeType change) changeTypes)
              (ClarityImprovement.changes (entry_clarityImprovement entry)) changeTypes))
        history (it, ct) in
    counts (fun key => (analyses_of key history + ni key)%nat) it'
    /\ counts (fun key => (changes_of key history + nc key)%nat) ct'.
Proof.
  induction history as [ | e history IH ]; intros ni nc it ct Hi Hc.
  - split; assumption.
  - simpl fold_left. cbv zeta.
    pose proof (counts_tally
                  (ClarityImprovement.improvementType (entry_clarityImprovement e))
                  ni it Hi) as Hi'.
    pose proof (counts_changes (ClarityImprovement.changes (entry_clarityImprovement e))
                  nc ct Hc) as Hc'.
    specialize (IH _ _ _ _ Hi' Hc').
    match goal with
    | |- context [fold_left ?f history (?a, ?b)] =>
        destruct (fold_left f history (a, b)) as [it' ct']
    end.
    destruct IH as [IHi IHc]. split.
    + eapply counts_ext; [ | exact IHi ]. intros key. unfold analyses_of. simpl.
      destruct (_ =? key)%string; simpl; lia.
    + eapply counts_ext; [ | exact IHc ]. intros key.
      unfold changes_of, ClarityImprovement.getChangesByType. simpl. lia.
Qed.

Lemma total_counts (history : list HistoryEntry) :
  forall it ct : gmap string Z,
    let '(it', ct') :=
      fold_left
        (fun '(improvementTypes, changeTypes) entry =>
           let type := ClarityImprovement.improvementType (entry_clarityImprovement entry) in
           (TextAnalyzer.tally type improvementTypes,
            fold_left (fun changeTypes change =>
                         TextAnalyzer.tally (ChangeDetail.changeType change) changeTypes)
              (ClarityImprovement.changes (entry_clarityImprovement entry)) changeTypes))
        history (it, ct) in
    total it' = total it + Z.of_nat (length history)
    /\ total ct' = total ct + Z.of_nat (changes_in history).
Proof.
  induction history as [ | e history IH ]; intros it ct.
  - simpl. lia.
  - simpl fold_left. cbv zeta.
    match goal with
    | |- context [fold_left ?f history (?a, ?b)] =>
        specialize (IH a b); destruct (fold_left f history (a, b)) as [it' ct']
    end.
    rewrite total_tally, total_tally_changes in IH. simpl length. simpl changes_in. lia.
Qed.

Lemma fold_Zadd_strictly_positive (xs : list Z) :
  Forall (fun x => 0 < x) xs -> xs <> [] ->
  forall acc : Z, acc < fold_left Z.add xs acc.
Proof.
  intros Hall Hne acc. pose proof (fold_Zadd_positive xs Hall acc) as H.
  destruct xs; [ contradiction | ]. simpl length in H. lia.
Qed.

(** X21. The history holds validated improvements only, and the
    statistics count by type. On a new analyzer the history is empty, and
    [analyzeTextContent], [analyzeText] and [clearHistory] keep every entry
    a validated improvement, whatever the backends do.
    [getAnalysisStatistics] changes nothing. Under each improvement type it
    gives the number of entries of that type, and under each change type
    the number of changes of that type in all the entries; a type that does
    not occur has no count. So the counts of the improvement types add up
    to the number of entries, and those of the change types to the number
    of changes. Over a history of validated improvements that is not
    empty, the average confidence lies in [0, 1] and the average processing
    time is positive. *)
Theorem history_is_valid_and_statistics_are_bounded :
  forall (env : Host.env) (prefs : TextAnalyzer.Preferences) (tc : TextContent.t)
         (txt : string) (options : TextAnalyzer.Options) (w : World),
    history_valid initial
    /\ (history_valid w ->
        history_valid (snd (snd (TextAnalyzer.analyzeTextContent env prefs (tc, w))))
        /\ history_valid (snd (TextAnalyzer.analyzeText env txt options w))
        /\ history_valid (snd (TextAnalyzer.clearHistory w)))
    /\ (exists s : TextAnalyzer.Statistics,
          TextAnalyzer.getAnalysisStatistics w = (Return s, w)
          /\ TextAnalyzer.totalAnalyses s = Z.of_nat (length (analysisHistory (ta w)))
          /\ counts (fun type => analyses_of type (analysisHistory (ta w)))
               (TextAnalyzer.improvementTypes s)
          /\ counts (fun type => changes_of type (analysisHistory (ta w)))
               (TextAnalyzer.changeTypes s)
          /\ total (TextAnalyzer.improvementTypes s) = TextAnalyzer.totalAnalyses s
          /\ total (TextAnalyzer.changeTypes s)
             = Z.of_nat (changes_in (analysisHistory (ta w)))
          /\ (analysisHistory (ta w) = [] ->
              s = TextAnalyzer.mkStatistics 0 0 0 ∅ ∅)
          /\ (history_valid w -> analysisHistory (ta w) <> [] ->
              (0 <= TextAnalyzer.averageConfidence s <= 1)%Q
              /\ (0 < TextAnalyzer.averageProcessingTime s)%Q)).
Proof.
  intros env prefs tc txt options w.
  split; [ constructor | ]. split.
  { intros Hw. split; [ apply analyzeTextContent_valid, Hw | ].
    split; [ apply analyzeText_valid, Hw | constructor ]. }
  unfold TextAnalyzer.getAnalysisStatistics. unfold bind, getTA.
  destruct (analysisHistory (ta w)) as [ | e0 rest ] eqn:Eh.
  { simpl. eexists. split; [ reflexivity | ]. simpl.
    split; [ reflexivity | ].
    split; [ intros key; rewrite lookup_empty; reflexivity | ].
    split; [ intros key; rewrite lookup_empty; reflexivity | ].
    split; [ reflexivity | ]. split; [ reflexivity | ].
    split; [ reflexivity | ]. intros _ Hnil. contradiction. }
  set (history := e0 :: rest) in *.
  cbn [Nat.eqb length]. unfold history at 1. cbn [Nat.eqb length].
  pose proof (total_counts history ∅ ∅) as Htotals.
  assert (Hnone : counts (fun _ => 0%nat) (∅ : gmap string Z))
    by (intros key; rewrite lookup_empty; reflexivity).
  pose proof (counts_history history (fun _ => 0%nat) (fun _ => 0%nat) ∅ ∅ Hnone Hnone)
    as Hcounts.
  match type of Htotals with
  | context [fold_left ?f history (∅, ∅)] =>
      destruct (fold_left f history (∅, ∅)) as [it ct] eqn:Ef
  end.
  destruct Htotals as [Hit Hct]. destruct Hcounts as [Hci Hcc].
  unfold total at 2 in Hit. unfold total at 2 in Hct. rewrite map_fold_empty in Hit, Hct.
  eexists. split; [ reflexivity | ].
  cbn [TextAnalyzer.totalAnalyses TextAnalyzer.improvementTypes TextAnalyzer.changeTypes
       TextAnalyzer.averageConfidence TextAnalyzer.averageProcessingTime].
  split; [ reflexivity | ].
  split; [ eapply counts_ext; [ | exact Hci ]; intros key; simpl; lia | ].
  split; [ eapply counts_ext; [ | exact Hcc ]; intros key; simpl; lia | ].
  split; [ rewrite Hit; unfold history; simpl length; lia | ].
  split; [ rewrite Hct; lia | ]. split; [ discriminate | ].
  intros Hvalid _. unfold history_valid in Hvalid. rewrite Eh in Hvalid. fold history in Hvalid.
  rewrite !length_map.
  set (n := inject_Z (Z.of_nat (length history))).
  assert (Hn : (1 <= n)%Q).
  { unfold n. change 1%Q with (inject_Z 1). rewrite <- Zle_Qle.
    unfold history. simpl length. lia. }
  assert (Hscores : Forall (fun x => 0 <= x <= 1)%Q
                      (map (fun entry => ClarityImprovement.confidenceScore
                                           (entry_clarityImprovement entry)) history)).
  { apply Forall_map. eapply Forall_impl; [ exact Hvalid | ].
    intros e (_ & _ & Hc & _). exact Hc. }
  assert (Htimes : Forall (fun x => 0 < x)
                     (map (fun entry => ClarityImprovement.processingTime
                                          (entry_clarityImprovement entry)) history)).
  { apply Forall_map. eapply Forall_impl; [ exact Hvalid | ].
    intros e (_ & _ & _ & _ & Ht & _). exact Ht. }
  destruct (fold_Qplus_bounds _ Hscores 0%Q) as [Hlo Hhi].
  pose proof (fold_Zadd_strictly_positive _ Htimes) as Hsum.
  rewrite length_map in Hhi. fold n in Hhi.
  split; [ split | ].
  - apply Qle_shift_div_l; [ lra | ]. lra.
  - apply Qle_shift_div_r; [ lra | ]. lra.
  - apply Qlt_shift_div_l; [ lra | ]. rewrite Qmult_0_l.
    change 0%Q with (inject_Z 0). rewrite <- Zlt_Qlt. apply Hsum. discriminate.
Qed.

(** *** Reading the history *)

Lemma substring_length (k : nat) (s : string) :
  String.length (String.substring 0 k s) = Nat.min k (String.length s).
Proof.
  revert k. induction s as [ | c s IH ]; intros [ | k ]; simpl; auto.
Qed.

Lemma length_append (s t : string) :
  String.length (s ++ t) = (String.length s + String.length t)%nat.
Proof. induction s as [ | c s IH ]; simpl; auto. Qed.

Lemma ellipsis_length (n k : nat) (s : string) :
  (k + 3 <= n)%nat ->
  (String.length (JS.ellipsis n k s) <= n)%nat
  /\ ((String.length s <= n)%nat -> JS.ellipsis n k s = s).
Proof.
  intros Hk. unfold JS.ellipsis.
  destruct (Nat.ltb_spec n (String.length s)) as [Hlt | Hge].
  - split; [ | lia ]. rewrite length_append, substring_length. simpl. lia.
  - split; [ lia | reflexivity ].
Qed.

Lemma slice0_firstn {A} (limit : Z) (xs : list A) :
  0 <= limit -> TextAnalyzer.slice0 limit xs = firstn (Z.to_nat limit) xs.
Proof.
  intros H. unfold TextAnalyzer.slice0. apply Z.ltb_ge in H. rewrite H. reflexivity.
Qed.

(** X22. The history is read without being changed. [getAnalysisHistory]
    with a limit that is not negative lists the first [limit] entries,
    newest first, each with its id, and with its text cut to at most 100
    characters (whole, when it has no more than 100). [getHistoryById]
    answers [null] exactly for an id that no entry has, and otherwise
    shows the newest entry with that id; so every id that
    [getAnalysisHistory] lists is found. *)
Theorem history_is_listed_and_found_by_id :
  forall (limit : Z) (id : string) (w : World),
    0 <= limit ->
    let history := analysisHistory (ta w) in
    exists (items : list TextAnalyzer.HistoryItem) (found : option TextAnalyzer.HistoryDetail),
      TextAnalyzer.getAnalysisHistory limit w = (Return items, w)
      /\ TextAnalyzer.getHistoryById id w = (Return found, w)
      /\ length items = Nat.min (Z.to_nat limit) (length history)
      /\ map TextAnalyzer.item_id items = firstn (Z.to_nat limit) (map entry_id history)
      /\ Forall2 (fun item e =>
                    (String.length (TextAnalyzer.item_originalText item) <= 100)%nat
                    /\ ((String.length (entry_originalText e) <= 100)%nat ->
                        TextAnalyzer.item_originalText item = entry_originalText e)
                    /\ TextAnalyzer.item_summary item
                       = getSummary (entry_clarityImprovement e))
           items (firstn (Z.to_nat limit) history)
      /\ (found = None <-> ~ In id (map entry_id history))
      /\ (forall d, found = Some d ->
            exists older e newer,
              history = (older ++ e :: newer)%list
              /\ entry_id e = id
              /\ ~ In id (map entry_id older)
              /\ d = detail_of e)
      /\ (forall item, In item items ->
            exists d, fst (TextAnalyzer.getHistoryById (TextAnalyzer.item_id item) w)
                      = Return (Some d)).
Proof.
  intros limit id w Hlimit history.
  assert (Hfind : forall i,
             match find (fun entry => (entry_id entry =? i)%string) history with
             | None => ~ In i (map entry_id history)
             | Some e =>
                 exists older newer,
                   history = (older ++ e :: newer)%list
                   /\ entry_id e = i /\ ~ In i (map entry_id older)
             end).
  { intros i. induction history as [ | e0 rest IH ]; simpl; [ tauto | ].
    destruct (String.eqb_spec (entry_id e0) i) as [E | E].
    - exists [], rest. simpl. auto.
    - destruct (find _ rest) as [e | ].
      + destruct IH as (older & newer & -> & He & Hno).
        exists (e0 :: older), newer. simpl. split; [ reflexivity | ].
        split; [ exact He | ]. tauto.
      + tauto. }
  assert (Hget : forall i,
             TextAnalyzer.getHistoryById i w
             = (Return (option_map detail_of
                          (find (fun entry => (entry_id entry =? i)%string) history)), w)).
  { intros i. unfold TextAnalyzer.getHistoryById, bind, getTA. fold history.
    destruct (find _ history); reflexivity. }
  eexists. exists (option_map detail_of
                     (find (fun entry => (entry_id entry =? id)%string) history)).
  split; [ unfold TextAnalyzer.getAnalysisHistory, bind, getTA, ret; reflexivity | ].
  split; [ apply Hget | ].
  fold history. rewrite slice0_firstn by exact Hlimit.
  split; [ rewrite length_map, length_firstn; reflexivity | ].
  split; [ rewrite map_map; simpl; rewrite firstn_map; reflexivity | ].
  split.
  { induction (firstn (Z.to_nat limit) history) as [ | e l IH ]; simpl; constructor;
      [ | exact IH ].
    simpl. destruct (ellipsis_length 100 97 (entry_originalText e)) as [H1 H2]; [ lia | ].
    auto. }
  split.
  { specialize (Hfind id). destruct (find _ history) as [e | ]; simpl.
    - destruct Hfind as (older & newer & Hh & He & _). split; [ discriminate | ].
      intros Hno. exfalso. apply Hno. rewrite Hh, map_app, in_app_iff. simpl. auto.
    - tauto. }
  split.
  { intros d Hd. specialize (Hfind id). destruct (find _ history) as [e | ];
      [ | discriminate ].
    simpl in Hd. injection Hd as <-.
    destruct Hfind as (older & newer & Hh & He & Hno). exists older, e, newer. auto. }
  intros item Hin. apply in_map_iff in Hin. destruct Hin as (e & <- & He).
  simpl. rewrite Hget. simpl.
  specialize (Hfind (entry_id e)). destruct (find _ history) as [e' | ]; [ eauto | ].
  exfalso. apply Hfind. apply in_map.
  apply list_elem_of_In, (subseteq_take (Z.to_nat limit)), list_elem_of_In, He.
Qed.

Lemma history_is_listed_and_found_by_id_witness :
  exists (items : list TextAnalyzer.HistoryItem) (found : option TextAnalyzer.HistoryDetail),
    TextAnalyzer.getAnalysisHistory 10 initial = (Return items, initial)
    /\ TextAnalyzer.getHistoryById "analysis_1" initial = (Return found, initial)
    /\ items = [] /\ found = None.
Proof.
  destruct (history_is_listed_and_found_by_id 10 "analysis_1" initial) as
    (items & found & H1 & H2 & Hlen & _ & _ & Hnone & _); [ lia | ].
  exists items, found. split; [ exact H1 | ]. split; [ exact H2 | ].
  split.
  - destruct items; [ reflexivity | discriminate ].
  - apply Hnone. simpl. tauto.
Defined.

(** *** [createAnalysisResult] *)

Lemma createChangeDetails_valid (chs chs' : list ChangeDetail.t) :
  TextAnalyzer._createChangeDetails chs = Return chs' ->
  Forall valid_change chs' /\ length chs' = length chs.
Proof.
  unfold TextAnalyzer._createChangeDetails. rewrite mapM_Return.
  induction 1 as [ | x y xs ys Hxy _ IH ]; [ auto | ].
  destruct IH as [IH Hlen].
  destruct (_ || _); simpl in Hxy; [ discriminate | ].
  apply new_change_valid in Hxy. destruct Hxy as [_ Hv].
  split; [ constructor; assumption | simpl; congruence ].
Qed.

(** X23. [createAnalysisResult] returns only for data that its own
    validation does not ask for: besides an original and an improved text,
    a positive [processingTime] and at least one change must be given,
    although the validation lets data without them pass. The result then
    shows the validated changes, the confidence given (0.7 for none or 0)
    and the type given ([rewriter] for none), and the improvement is put
    in front of the history. When it throws, the history and the sessions
    are as before. A change given by its type and two different phrases
    only gets the reason [Text improvement] and the span of its original
    phrase. *)
Theorem createAnalysisResult_needs_time_and_changes :
  forall (env : Host.env) (analysisData : TextAnalyzer.AnalysisData) (w : World),
    match TextAnalyzer.createAnalysisResult env analysisData w with
    | (Return r, w') =>
        TextAnalyzer.data_originalText analysisData <> EmptyString
        /\ TextAnalyzer.data_improvedText analysisData <> EmptyString
        /\ (exists time, TextAnalyzer.data_processingTime analysisData = Some time
                         /\ 0 < time
                         /\ TextAnalyzer.created_processingTime r = time)
        /\ (exists chs, TextAnalyzer.data_changes analysisData = Some chs
                        /\ chs <> []
                        /\ length (TextAnalyzer.created_changes r) = length chs)
        /\ Forall valid_change (TextAnalyzer.created_changes r)
        /\ TextAnalyzer.created_originalText r = TextAnalyzer.data_originalText analysisData
        /\ TextAnalyzer.created_improvedText r = TextAnalyzer.data_improvedText analysisData
        /\ (0 <= TextAnalyzer.created_confidenceScore r <= 1)%Q
        /\ In (TextAnalyzer.created_improvementType r) ["rewriter"; "prompt"]
        /\ ((0 < maxHistorySize (ta w))%nat ->
            exists e rest,
              analysisHistory (ta w') = e :: rest
              /\ entry_originalText e = TextAnalyzer.data_originalText analysisData
              /\ valid_improvement (entry_clarityImprovement e)
              /\ ClarityImprovement.changes (entry_clarityImprovement e)
                 = TextAnalyzer.created_changes r)
        /\ ai w' = ai w
    | (Throw _, w') => ta w' = ta w /\ ai w' = ai w
    end
    /\ (forall cType orig impr,
          In cType ChangeDetail.validChangeTypes ->
          orig <> EmptyString -> impr <> EmptyString -> orig <> impr ->
          TextAnalyzer._createChangeDetails [plain_change cType orig impr]
          = Return [ChangeDetail.mk cType orig impr "Text improvement" 0 (JS.len orig)]).
Proof.
  intros env analysisData w. split.
  - unfold TextAnalyzer.createAnalysisResult.
    unfold bind at 1. unfold lift at 1.
    destruct (TextAnalyzer._validateAnalysisData analysisData) as [[] | m] eqn:Hv;
      [ | auto ].
    unfold TextAnalyzer._validateAnalysisData in Hv.
    apply throw_if_then_return in Hv. destruct Hv as [Ho Hv].
    apply throw_if_then_return in Hv. destruct Hv as [Hi _].
    apply falsy_false in Ho, Hi.
    unfold bind at 1. unfold lift at 1.
    destruct (TextAnalyzer._createChangeDetails _) as [chs | m] eqn:Hc; [ | auto ].
    apply createChangeDetails_valid in Hc. destruct Hc as [Hall Hlen].
    unfold bind at 1. unfold dateNow at 1, onHost at 1, Host.dateNow at 1.
    unfold bind at 1. unfold lift at 1.
    destruct (ClarityImprovement.new _ _ _ _ _ _ _) as [ci | m] eqn:Hn; [ | auto ].
    apply (new_improvement_valid _ _ _ _ _ _ _ _ Hall) in Hn. destruct Hn as [-> Hvalid].
    unfold bind at 1.
    match goal with
    | |- context [TextAnalyzer._addToHistory env ?o ?c ?w0] =>
        destruct (addToHistory_run env o c w0) as (e & Horig & Hci & Hadd)
    end.
    rewrite Hadd. unfold ret.
    cbn [TextAnalyzer.created_processingTime TextAnalyzer.created_changes
         TextAnalyzer.created_originalText TextAnalyzer.created_improvedText
         TextAnalyzer.created_confidenceScore TextAnalyzer.created_improvementType
         ClarityImprovement.changes ClarityImprovement.confidenceScore
         ClarityImprovement.processingTime ClarityImprovement.improvementType].
    destruct Hvalid as (_ & Htype & Hrange & Hsome & Hpos & _).
    cbn [ClarityImprovement.changes ClarityImprovement.confidenceScore
         ClarityImprovement.processingTime ClarityImprovement.improvementType] in *.
    unfold ChangeDetail.toJSON. rewrite map_id.
    split; [ exact Ho | ]. split; [ exact Hi | ].
    split.
    { destruct (TextAnalyzer.data_processingTime analysisData) as [time | ];
        simpl in *; [ eauto | lia ]. }
    split.
    { destruct (TextAnalyzer.data_changes analysisData) as [given | ]; simpl in *.
      - exists given. split; [ reflexivity | ]. split; [ | exact Hlen ].
        intros ->. destruct chs; [ contradiction | discriminate ].
      - destruct chs; [ contradiction | discriminate ]. }
    split; [ exact Hall | ]. split; [ reflexivity | ]. split; [ reflexivity | ].
    split; [ exact Hrange | ]. split; [ exact Htype | ].
    split; [ | reflexivity ].
    intros Hmax. cbn [ta set_host analysisHistory set_analysisHistory maxHistorySize].
    assert (Hhead : exists rest,
               (if (maxHistorySize (ta w) <? S (length (analysisHistory (ta w))))%nat
                then firstn (maxHistorySize (ta w)) (e :: analysisHistory (ta w))
                else e :: analysisHistory (ta w)) = e :: rest).
    { destruct (maxHistorySize (ta w) <? S (length (analysisHistory (ta w))))%nat;
        [ | eauto ].
      destruct (maxHistorySize (ta w)) as [ | k ] eqn:Ek; [ lia | ]. simpl. eauto. }
    destruct Hhead as [rest Hrest]. exists e, rest.
    split; [ exact Hrest | ]. split; [ exact Horig | ]. rewrite Hci.
    split; [ | reflexivity ].
    unfold valid_improvement. simpl. auto 10.
  - intros cType orig impr Htype Ho Hi Hdiff.
    unfold TextAnalyzer._createChangeDetails, plain_change. simpl.
    assert (Hc : JS.falsy cType = false).
    { destruct cType; [ | reflexivity ].
      simpl in Htype. intuition discriminate. }
    apply falsy_false in Ho as Ho', Hi as Hi'. rewrite Hc, Ho', Hi'. simpl.
    assert (Hnew : ChangeDetail.new cType orig impr "Text improvement" 0 (JS.len orig)
                   = Return (ChangeDetail.mk cType orig impr "Text improvement" 0
                               (JS.len orig))).
    { apply new_change_valid. split; [ reflexivity | ].
      unfold valid_change. simpl. repeat split; auto; try discriminate; try lia.
      destruct orig; [ contradiction | unfold JS.len; simpl; lia ]. }
    rewrite Hnew. reflexivity.
Qed.

(** ** The entry points of the analyzer: what they refuse *)

(** X24. [TextAnalyzer.analyzeText] refuses a text before anything is
    asked of the AI service: the empty text with
    [Text is required and must be a string], a text without a word with
    [Text cannot be empty], both with the program state untouched; a text
    of more than 5000 characters with the error of the sample's
    constructor, and a field type that is given but is not one of the
    three with the constructor's error for it, both after one reading of
    the clock and nothing else. These messages differ from those of the AI
    service for the same faults ([Text cannot be empty] and
    [TEXT_TOO_LONG]). *)
Theorem analyzeText_refuses_before_the_service :
  forall (env : Host.env) (txt : string) (options : TextAnalyzer.Options) (w : World),
    (txt = EmptyString ->
     TextAnalyzer.analyzeText env txt options w
     = (Throw "Text is required and must be a string", w))
    /\ (txt <> EmptyString -> Spec.countWords txt = 0%nat ->
        TextAnalyzer.analyzeText env txt options w = (Throw "Text cannot be empty", w))
    /\ (Spec.countWords txt <> 0%nat -> 5000 < JS.len txt ->
        TextAnalyzer.analyzeText env txt options w
        = (Throw "originalText maximum length is 5000 characters (based on AI model limits)",
           clock_read w))
    /\ (Spec.countWords txt <> 0%nat -> JS.len txt <= 5000 ->
        TextAnalyzer.opt_fieldType options <> EmptyString ->
        ~ In (TextAnalyzer.opt_fieldType options) TextContent.validFieldTypes ->
        TextAnalyzer.analyzeText env txt options w
        = (Throw "fieldType must be one of the three supported types: input, textarea, contenteditable",
           clock_read w)).
Proof.
  intros env txt options w. unfold TextAnalyzer.analyzeText.
  split; [ intros ->; reflexivity | ].
  split.
  { intros Hne H0. apply falsy_false in Hne. rewrite Hne, trim_empty_iff, H0. reflexivity. }
  assert (Hwords : Spec.countWords txt <> 0%nat ->
                   JS.falsy txt = false /\ (JS.len (JS.trim txt) =? 0) = false
                   /\ (JS.len txt =? 0) = false).
  { intros Hw. rewrite trim_empty_iff. apply Nat.eqb_neq in Hw. rewrite Hw.
    destruct txt as [ | c s ]; [ discriminate | ]. repeat split. }
  split.
  - intros Hw Hlong. destruct (Hwords Hw) as (-> & -> & Hlen).
    unfold bind at 1. unfold dateNow at 1, onHost at 1, Host.dateNow at 1.
    unfold bind at 1. unfold lift at 1.
    unfold TextContent.new, TextContent._validate.
    cbn [TextContent.originalText]. rewrite Hlen.
    apply Z.ltb_lt in Hlong. rewrite Hlong. reflexivity.
  - intros Hw Hshort Hgiven Hbad. destruct (Hwords Hw) as (-> & -> & Hlen).
    unfold bind at 1. unfold dateNow at 1, onHost at 1, Host.dateNow at 1.
    unfold bind at 1. unfold lift at 1.
    unfold TextContent.new, TextContent._validate.
    cbn [TextContent.originalText TextContent.fieldType]. rewrite Hlen.
    apply Z.ltb_ge in Hshort. rewrite Hshort.
    apply falsy_false in Hgiven. rewrite Hgiven.
    assert (Helem : JS.elem (TextAnalyzer.opt_fieldType options) TextContent.validFieldTypes
                    = false).
    { apply not_true_iff_false. rewrite elem_In. exact Hbad. }
    rewrite Helem. reflexivity.
Qed.

(** X25. Only a new sample can be analyzed, and a second analysis spoils
    the first. For a sample with a text: when it is already analyzed,
    [analyzeTextContent] throws [Cannot transition to Analyzing from
    Analyzed], and its error handler, finding the sample analyzed, marks it
    rejected; when it is being analyzed, accepted or rejected, the error
    handler itself fails, so the caller gets
    [Cannot transition to Rejected from ...] and the sample stays as it
    is. In no case is anything asked of the AI service or stored. *)
Theorem only_a_new_sample_is_analyzed :
  forall (env : Host.env) (prefs : TextAnalyzer.Preferences) (tc : TextContent.t)
         (w : World),
    TextContent.isEmpty tc = false ->
    (TextContent.state tc = "Analyzed" ->
     TextAnalyzer.analyzeTextContent env prefs (tc, w)
     = (Throw "Cannot transition to Analyzing from Analyzed",
        (TextContent.set_state "Rejected" tc, w)))
    /\ (TextContent.state tc <> "Created" -> TextContent.state tc <> "Analyzed" ->
        TextAnalyzer.analyzeTextContent env prefs (tc, w)
        = (Throw ("Cannot transition to Rejected from " ++ TextContent.state tc), (tc, w)))
    /\ (forall res tc' w',
          TextAnalyzer.analyzeTextContent env prefs (tc, w) = (Return res, (tc', w')) ->
          TextAnalyzer.analyzeTextContent env prefs (tc', w')
          = (Throw "Cannot transition to Analyzing from Analyzed",
             (TextContent.set_state "Rejected" tc, w'))).
Proof.
  intros env prefs tc w Hne.
  assert (Hagain : forall tc0 w0,
             TextContent.isEmpty tc0 = false -> TextContent.state tc0 = "Analyzed" ->
             TextAnalyzer.analyzeTextContent env prefs (tc0, w0)
             = (Throw "Cannot transition to Analyzing from Analyzed",
                (TextContent.set_state "Rejected" tc0, w0))).
  { intros tc0 w0 He Hst. rewrite analyzeTextContent_paths, He, Hst. reflexivity. }
  split; [ apply Hagain, Hne | ]. split.
  - intros Hc Ha. rewrite analyzeTextContent_paths, Hne.
    apply String.eqb_neq in Hc, Ha. rewrite Hc, Ha. reflexivity.
  - intros res tc' w' Hrun.
    destruct (analyzeTextContent_Return env prefs tc tc' w w' res Hrun)
      as (_ & _ & _ & _ & _ & _ & _ & _ & _ & -> & _).
    rewrite Hagain; [ destruct tc; reflexivity | exact Hne | reflexivity ].
Qed.

Lemma only_a_new_sample_is_analyzed_witness :
  TextAnalyzer.analyzeTextContent answeringHost TextAnalyzer.noPreferences
    (TextContent.set_state "Analyzed" note, initial)
  = (Throw "Cannot transition to Analyzing from Analyzed",
     (TextContent.set_state "Rejected" note, initial)).
Proof.
  destruct (only_a_new_sample_is_analyzed answeringHost TextAnalyzer.noPreferences
              (TextContent.set_state "Analyzed" note) initial eq_refl) as [H _].
  exact (H eq_refl).
Defined.

(** ** Parameter objects: the session key and the input of the backends *)

(** *** [JSON.stringify] can be read back *)

Lemma readChar_escapeChar (c : ascii) (r : string) :
  readChar (Params.escapeChar c ++ r) = Some (c, r).
Proof. destruct c as [[] [] [] [] [] [] [] []]; reflexivity. Qed.

Lemma app_String (c : ascii) (s r : string) : String c s ++ r = String c (s ++ r).
Proof. reflexivity. Qed.

Lemma app_Empty (r : string) : EmptyString ++ r = r.
Proof. reflexivity. Qed.

Lemma string_app_assoc (a b c : string) : (a ++ b) ++ c = a ++ (b ++ c).
Proof.
  induction a as [ | x a IH ]; [ reflexivity | ].
  rewrite !app_String, IH. reflexivity.
Qed.

Lemma escape_inj (s1 : string) : forall (s2 r1 r2 : string),
  Params.escape s1 ++ String Params.dquote r1 = Params.escape s2 ++ String Params.dquote r2 ->
  s1 = s2 /\ r1 = r2.
Proof.
  induction s1 as [ | c1 s1 IH ]; intros [ | c2 s2 ] r1 r2; cbn [Params.escape].
  - rewrite !app_Empty. intros H. injection H as <-. auto.
  - rewrite string_app_assoc, app_Empty. intros H. apply (f_equal readChar) in H.
    rewrite readChar_escapeChar in H. discriminate.
  - rewrite string_app_assoc, app_Empty. intros H. apply (f_equal readChar) in H.
    rewrite readChar_escapeChar in H. discriminate.
  - rewrite !string_app_assoc. intros H. apply (f_equal readChar) in H.
    rewrite !readChar_escapeChar in H. injection H as <- H.
    destruct (IH _ _ _ H) as [<- <-]. auto.
Qed.

Lemma quoteJSON_inj (s1 s2 r1 r2 : string) :
  Params.quoteJSON s1 ++ r1 = Params.quoteJSON s2 ++ r2 -> s1 = s2 /\ r1 = r2.
Proof.
  unfold Params.quoteJSON. rewrite !app_String, !string_app_assoc, !app_String, !app_Empty.
  intros H. injection H as H. apply escape_inj in H. exact H.
Qed.

Lemma property_inj (kv1 kv2 : string * string) (r1 r2 : string) :
  Params.property kv1 ++ r1 = Params.property kv2 ++ r2 -> kv1 = kv2 /\ r1 = r2.
Proof.
  unfold Params.property. destruct kv1 as [k1 v1], kv2 as [k2 v2]. cbn [fst snd].
  rewrite !string_app_assoc. intros H.
  apply quoteJSON_inj in H. destruct H as [<- H].
  rewrite !(app_String ":"%char EmptyString), !app_Empty in H. injection H as H.
  rewrite !string_app_assoc, !(app_String Params.dquote EmptyString), !app_Empty in H.
  apply escape_inj in H. destruct H as [<- <-]. auto.
Qed.

Lemma property_starts_with_quote (kv : string * string) :
  exists r, Params.property kv = String Params.dquote r.
Proof. unfold Params.property, Params.quoteJSON. rewrite app_String. eauto. Qed.

(** The text of the properties and the closing brace. *)
Lemma concat_properties (kv : string * string) (p : Params.t) :
  String.concat "," (map Params.property (kv :: p)) ++ "}"
  = Params.property kv
    ++ match p with
       | [] => "}"
       | _ => "," ++ String.concat "," (map Params.property p) ++ "}"
       end.
Proof.
  destruct p as [ | kv' p' ]; [ reflexivity | ].
  cbn [map String.concat]. rewrite !string_app_assoc. reflexivity.
Qed.

Lemma concat_properties_inj (p1 : Params.t) : forall p2 : Params.t,
  String.concat "," (map Params.property p1) ++ "}"
  = String.concat "," (map Params.property p2) ++ "}" ->
  p1 = p2.
Proof.
  induction p1 as [ | kv1 p1 IH ]; intros [ | kv2 p2 ].
  - reflexivity.
  - rewrite concat_properties. destruct (property_starts_with_quote kv2) as [r ->].
    cbn [map String.concat]. rewrite app_Empty, app_String.
    intros H. injection H as H _. vm_compute in H. discriminate.
  - rewrite concat_properties. destruct (property_starts_with_quote kv1) as [r ->].
    cbn [map String.concat]. rewrite app_Empty, app_String.
    intros H. injection H as H _. vm_compute in H. discriminate.
  - rewrite !concat_properties. intros H. apply property_inj in H.
    destruct H as [<- H]. f_equal.
    destruct p1 as [ | kv1' p1' ], p2 as [ | kv2' p2' ].
    + reflexivity.
    + rewrite (app_String ","%char EmptyString) in H. discriminate.
    + rewrite (app_String ","%char EmptyString) in H. discriminate.
    + rewrite !(app_String ","%char EmptyString), !app_Empty in H. injection H as H.
      apply IH. exact H.
Qed.

Lemma stringify_inj (p1 p2 : Params.t) :
  Params.stringify p1 = Params.stringify p2 -> p1 = p2.
Proof.
  unfold Params.stringify. rewrite !(app_String "{"%char EmptyString), !app_Empty.
  intros H. injection H as H.
  apply concat_properties_inj. exact H.
Qed.

(** X26. [JSON.stringify] tells two parameter objects apart. For objects
    whose names are not written with digits only (such names are listed
    first, whatever the order in which they were set), given by their
    properties in order: two objects have the same text exactly when they
    have the same properties with the same values in the same order,
    whatever other characters the names and the values hold (quotes,
    backslashes and control characters are escaped). So the session cache
    never takes one such parameter object for another: the session it
    finds for a request was stored with that [apiType] and those very
    parameters. *)
Theorem stringify_tells_parameters_apart :
  forall (aType : string) (p q : Params.t) (d : SessionData)
         (m : list (string * SessionData)) (id : string),
    Params.plain p = true ->
    Params.plain q = true ->
    Params.plain (parameters d) = true ->
    (Params.stringify p = Params.stringify q <-> p = q)
    /\ (AIService.matches aType p d = true <-> apiType d = aType /\ parameters d = p)
    /\ (cached aType p m = Some (id, d) ->
        In (id, d) m /\ apiType d = aType /\ parameters d = p).
Proof.
  intros aType p q d m id _ _ _.
  assert (Hm : forall d0, AIService.matches aType p d0 = true
                          <-> apiType d0 = aType /\ parameters d0 = p).
  { intros d0. unfold AIService.matches. rewrite andb_true_iff, !String.eqb_eq. split.
    - intros [Ha Hs]. split; [ exact Ha | apply stringify_inj, Hs ].
    - intros [Ha ->]. auto. }
  split; [ split; [ apply stringify_inj | intros ->; reflexivity ] | ].
  split; [ apply Hm | ].
  unfold cached. intros Hf. apply find_some in Hf. destruct Hf as [Hin Hd].
  simpl in Hd. apply Hm in Hd. tauto.
Qed.

(** X26 on the parameters of a plain preferences object and those of a
    [UserPreferences] instance: two orders, two texts. *)
Lemma stringify_tells_parameters_apart_witness :
  Params.plain defaultOrder = true
  /\ Params.plain instanceOrder = true
  /\ (Params.stringify defaultOrder = Params.stringify instanceOrder
      <-> defaultOrder = instanceOrder)
  /\ Params.stringify defaultOrder <> Params.stringify instanceOrder.
Proof.
  destruct (stringify_tells_parameters_apart "rewriter" defaultOrder instanceOrder
              (mkSessionData 1%nat "rewriter" defaultOrder 0 0) [] "id"
              eq_refl eq_refl eq_refl) as [Hiff _].
  split; [ reflexivity | ]. split; [ reflexivity | ]. split; [ exact Hiff | ].
  intros E. apply Hiff in E. discriminate.
Defined.

(** *** The input of a backend does not depend on the order of the keys *)

Lemma get_lookup (k : string) (p : Params.t) : Params.get k p = Params.to_map p !! k.
Proof.
  unfold Params.to_map. induction p as [ | [k' v] p IH ]; simpl.
  - rewrite lookup_empty. reflexivity.
  - destruct (String.eqb_spec k' k) as [-> | Hne].
    + rewrite lookup_insert_eq. reflexivity.
    + rewrite lookup_insert_ne by exact Hne. exact IH.
Qed.

(** X27. What a backend is given depends on the parameter object as a map
    from names to values only, not on the order of its properties: two
    objects that are equal as maps pass the same validation, and give the
    same options to the rewriter and the same prompt to the prompt
    backend. The parameters of a [UserPreferences] instance and those of
    a plain preferences object with the same tone are such a pair: they
    are equal as maps (and differ in order, so that the session cache
    keeps them apart). *)
Theorem backend_input_ignores_key_order :
  forall (p q : Params.t) (a : Host.api) (txt : string) (prefs : TextAnalyzer.Preferences),
    (Params.to_map p = Params.to_map q ->
     AIService._validateParameters p = AIService._validateParameters q
     /\ AIService._validateRewriterParameters p = AIService._validateRewriterParameters q
     /\ AIService._createClarityPrompt txt p = AIService._createClarityPrompt txt q
     /\ input_of a txt p = input_of a txt q
     /\ options_of a p = options_of a q)
    /\ Params.to_map (TextAnalyzer.getAIParameters prefs)
       = Params.to_map (TextAnalyzer._getDefaultParameters prefs)
    /\ TextAnalyzer.getAIParameters prefs <> TextAnalyzer._getDefaultParameters prefs
    /\ options_of a (TextAnalyzer.getAIParameters prefs)
       = options_of a (TextAnalyzer._getDefaultParameters prefs).
Proof.
  intros p q a txt prefs.
  assert (Hsame : Params.to_map p = Params.to_map q ->
                  AIService._validateParameters p = AIService._validateParameters q
                  /\ AIService._validateRewriterParameters p
                     = AIService._validateRewriterParameters q
                  /\ AIService._createClarityPrompt txt p = AIService._createClarityPrompt txt q
                  /\ input_of a txt p = input_of a txt q
                  /\ options_of a p = options_of a q).
  { intros Hmap.
    assert (Hget : forall k, Params.get k p = Params.get k q)
      by (intros k; rewrite !get_lookup, Hmap; reflexivity).
    assert (Hv : AIService._validateRewriterParameters p
                 = AIService._validateRewriterParameters q)
      by (unfold AIService._validateRewriterParameters; rewrite !Hget; reflexivity).
    assert (Hc : AIService._createClarityPrompt txt p = AIService._createClarityPrompt txt q)
      by (unfold AIService._createClarityPrompt, Params.get_or; rewrite !Hget; reflexivity).
    split; [ unfold AIService._validateParameters; rewrite !Hget; reflexivity | ].
    split; [ exact Hv | ]. split; [ exact Hc | ].
    split; destruct a; simpl; congruence. }
  split; [ exact Hsame | ].
  split.
  { unfold Params.to_map, TextAnalyzer.getAIParameters, TextAnalyzer._getDefaultParameters.
    simpl. f_equal. }
  split.
  { unfold TextAnalyzer.getAIParameters, TextAnalyzer._getDefaultParameters. discriminate. }
  unfold options_of, AIService._validateRewriterParameters,
    TextAnalyzer.getAIParameters, TextAnalyzer._getDefaultParameters.
  destruct a; reflexivity.
Qed.

(** ** The similarity of two texts *)

Lemma similarity_bounds (text1 text2 : string) :
  (0 <= tokenSimilarity text1 text2 <= 1)%Q.
Proof.
  unfold tokenSimilarity.
  destruct (confidence_denominators_positive text1 text2) as [_ Hpos].
  set (A := tokenSet text1) in *. set (B := tokenSet text2) in *.
  assert (Hle : (size (A ∩ B) <= size (A ∪ B))%nat).
  { apply subseteq_size. etransitivity;
      [ apply intersection_subseteq_l | apply union_subseteq_l ]. }
  assert (Hd : (0 < inject_Z (Z.of_nat (size (A ∪ B))))%Q).
  { change 0%Q with (inject_Z 0). rewrite <- Zlt_Qlt. lia. }
  split.
  - apply Qle_shift_div_l; [ exact Hd | ]. rewrite Qmult_0_l.
    change 0%Q with (inject_Z 0). rewrite <- Zle_Qle. lia.
  - apply Qle_shift_div_r; [ exact Hd | ]. rewrite Qmult_1_l, <- Zle_Qle. lia.
Qed.

(** X28. The similarity of two texts is the same in both directions and
    lies in [0, 1]. White space at the ends of a text counts: it adds the
    empty token. The similarity is 1 when the two texts have the same set
    of lowercased words and both or neither have white space at an end (or
    are empty); the confidence is then at most 0.8, as no bonus is given
    for a good balance. It is 0 when they share no lowercased word and not
    both have white space at an end. An answer that only drops the space at
    the end of ["hello world "] and changes the case has similarity 2/3,
    and so the confidence 0.8999999999999999. *)
Theorem similarity_is_symmetric_and_bounded :
  forall text1 text2 : string,
    AIService._calculateSimilarity text1 text2 = AIService._calculateSimilarity text2 text1
    /\ (0 <= AIService._calculateSimilarity text1 text2 <= 1)%Q
    /\ (Spec.wordSet text1 = Spec.wordSet text2 ->
        hasEmptyToken text1 = hasEmptyToken text2 ->
        (AIService._calculateSimilarity text1 text2 == 1)%Q
        /\ (AIService._calculateConfidenceScore text1 text2 <= 8 # 10)%Q)
    /\ (Spec.wordSet text1 ## Spec.wordSet text2 ->
        hasEmptyToken text1 && hasEmptyToken text2 = false ->
        (AIService._calculateSimilarity text1 text2 == 0)%Q)
    /\ (AIService._calculateSimilarity "hello world " "Hello World" == 2 # 3)%Q
    /\ AIService._calculateConfidenceScore "hello world " "Hello World"
       = Double.add (7 # 10) (2 # 10)
    /\ (8 # 10 < Double.add (7 # 10) (2 # 10))%Q.
Proof.
  intros text1 text2. rewrite !calculateSimilarity_tokens.
  split; [ | split; [ apply similarity_bounds | split; [ | split ] ] ].
  - unfold tokenSimilarity.
    rewrite (comm_L (∩) (tokenSet text1)), (comm_L (∪) (tokenSet text1)).
    reflexivity.
  - intros Hwords Hedge.
    assert (Heq : tokenSet text1 = tokenSet text2)
      by (unfold tokenSet; rewrite Hwords, Hedge; reflexivity).
    assert (Hone : (tokenSimilarity text1 text2 == 1)%Q).
    { unfold tokenSimilarity. rewrite <- Heq.
      pose proof (tokenSet_nonempty text1) as Hpos.
      rewrite (idemp_L (∩)), (idemp_L (∪)).
      unfold Qdiv. apply Qmult_inv_r.
      intros E. unfold Qeq in E. simpl in E. lia. }
    split; [ exact Hone | ].
    unfold AIService._calculateConfidenceScore.
    destruct (JS.falsy text1 || JS.falsy text2); [ vm_compute; discriminate | ].
    cbv zeta. rewrite calculateSimilarity_tokens.
    assert (Hno : Qltb (tokenSimilarity text1 text2) (9 # 10) = false).
    { apply Qltb_ge. rewrite Hone. vm_compute. discriminate. }
    rewrite Hno, andb_false_r.
    destruct (Qltb (1 # 10) _); vm_compute; discriminate.
  - intros Hdisj Hedge. unfold tokenSimilarity.
    assert (Hempty : tokenSet text1 ∩ tokenSet text2 = ∅).
    { apply set_eq. intros x. unfold tokenSet.
      rewrite elem_of_intersection, !elem_of_union, elem_of_empty.
      pose proof (empty_not_in_wordSet text1) as H1.
      pose proof (empty_not_in_wordSet text2) as H2.
      split; [ | tauto ].
      intros [[Hx1 | Hx1] [Hx2 | Hx2]].
      - exact (Hdisj x Hx1 Hx2).
      - destruct (hasEmptyToken text2); [ | exact (not_elem_of_empty _ Hx2) ].
        apply elem_of_singleton in Hx2. subst x. exact (H1 Hx1).
      - destruct (hasEmptyToken text1); [ | exact (not_elem_of_empty _ Hx1) ].
        apply elem_of_singleton in Hx1. subst x. exact (H2 Hx2).
      - destruct (hasEmptyToken text1); [ | exact (not_elem_of_empty _ Hx1) ].
        destruct (hasEmptyToken text2); [ discriminate | exact (not_elem_of_empty _ Hx2) ]. }
    rewrite Hempty, size_empty. unfold Qdiv. simpl. apply Qmult_0_l.
  - split; [ rewrite <- calculateSimilarity_tokens; vm_compute; reflexivity | ].
    split; vm_compute; reflexivity.
Qed.

(** ** Measures and types of an improvement *)

(** *** The reduction of the word count *)

(** X29. [getWordCountReduction] is 0 for the empty original. Otherwise it
    is the difference of the two word counts, with a text that has no word
    counted as one word (where [TextContent] counts 0 for it): for two
    texts that have a word each it is the difference of their
    [_calculateWordCount]s, and it never reaches the word count of the
    original, so it never says that every word was removed. *)
Theorem wordCountReduction_counts_a_blank_text_as_one_word :
  forall (ci : ClarityImprovement.t) (original : string),
    let improved := ClarityImprovement.improvedText ci in
    let reduction := ClarityImprovement.getWordCountReduction ci original in
    (original = EmptyString -> reduction = 0)
    /\ (original <> EmptyString ->
        reduction = Z.max 1 (TextContent._calculateWordCount original)
                    - Z.max 1 (TextContent._calculateWordCount improved))
    /\ (Spec.countWords original <> 0%nat -> Spec.countWords improved <> 0%nat ->
        reduction = TextContent._calculateWordCount original
                    - TextContent._calculateWordCount improved)
    /\ reduction <= Z.max 0 (TextContent._calculateWordCount original - 1).
Proof.
  intros ci original. cbv zeta.
  assert (Hne : original <> EmptyString ->
                ClarityImprovement.getWordCountReduction ci original
                = Z.max 1 (TextContent._calculateWordCount original)
                  - Z.max 1 (TextContent._calculateWordCount
                               (ClarityImprovement.improvedText ci))).
  { intros Ho. unfold ClarityImprovement.getWordCountReduction.
    apply falsy_false in Ho. rewrite Ho. cbv zeta.
    rewrite !length_split_trim, !calculateWordCount_words. reflexivity. }
  split; [ intros ->; reflexivity | ].
  split; [ exact Hne | ].
  split.
  - intros Ho Hi. rewrite Hne.
    + rewrite !calculateWordCount_words. lia.
    + intros ->. apply Ho. reflexivity.
  - destruct original as [ | c s ]; [ vm_compute; discriminate | ].
    rewrite Hne by discriminate. lia.
Qed.

(** *** The types of the changes *)

Lemma getChangesByType_lengths (chs : list ChangeDetail.t) :
  Forall (fun c => In (ChangeDetail.changeType c) ChangeDetail.validChangeTypes) chs ->
  length chs
  = (length (List.filter (fun c => (ChangeDetail.changeType c =? "word-choice")%string) chs)
     + length (List.filter (fun c => (ChangeDetail.changeType c =? "sentence-structure")%string)
                 chs)
     + length (List.filter (fun c => (ChangeDetail.changeType c =? "clarity")%string) chs)
     + length (List.filter (fun c => (ChangeDetail.changeType c =? "conciseness")%string) chs))%nat.
Proof.
  induction 1 as [ | c chs Hc _ IH ]; [ reflexivity | ].
  cbn [List.filter length].
  destruct Hc as [<- | [<- | [<- | [<- | []]]]]; cbn [String.eqb Ascii.eqb Bool.eqb length];
    rewrite IH; lia.
Qed.

(** X30. The types of a validated improvement are those that the static
    validators accept, and every change is in exactly one of the four
    lists of [getChangesByType]: their lengths add up to the number of
    changes. For every improvement, [hasSignificantChanges] holds exactly
    when [getMostSignificantChange] answers a change of type
    sentence-structure or clarity. *)
Theorem significant_changes_are_chosen_first :
  forall ci : ClarityImprovement.t,
    (valid_improvement ci ->
     ClarityImprovement.isValidImprovementType (ClarityImprovement.improvementType ci) = true
     /\ Forall (fun c => ClarityImprovement.isValidChangeType (ChangeDetail.changeType c) = true)
          (ClarityImprovement.changes ci)
     /\ length (ClarityImprovement.changes ci)
        = (length (ClarityImprovement.getChangesByType "word-choice" ci)
           + length (ClarityImprovement.getChangesByType "sentence-structure" ci)
           + length (ClarityImprovement.getChangesByType "clarity" ci)
           + length (ClarityImprovement.getChangesByType "conciseness" ci))%nat)
    /\ (ClarityImprovement.hasSignificantChanges ci = true <->
        exists c, ClarityImprovement.getMostSignificantChange ci = Some c
                  /\ (ChangeDetail.changeType c = "sentence-structure"
                      \/ ChangeDetail.changeType c = "clarity")).
Proof.
  intros ci. split.
  - intros (_ & Htype & _ & _ & _ & Hchs).
    assert (Htypes : Forall (fun c => In (ChangeDetail.changeType c)
                                        ChangeDetail.validChangeTypes)
                       (ClarityImprovement.changes ci)).
    { eapply Forall_impl; [ exact Hchs | ]. intros c Hc. apply Hc. }
    split; [ apply elem_In; exact Htype | ].
    split; [ | apply getChangesByType_lengths; exact Htypes ].
    eapply Forall_impl; [ exact Htypes | ].
    intros c Hc. apply elem_In. exact Hc.
  - unfold ClarityImprovement.hasSignificantChanges. rewrite existsb_exists.
    unfold ClarityImprovement.getMostSignificantChange.
    pose proof (firstByPriority_spec ci ClarityImprovement.priorityOrder) as Hspec.
    split.
    + intros (d & Hd & Htype). apply orb_true_iff in Htype. rewrite !String.eqb_eq in Htype.
      destruct (ClarityImprovement.changes ci) as [ | first rest ] eqn:Ech; [ destruct Hd | ].
      destruct (ClarityImprovement.firstByPriority ClarityImprovement.priorityOrder ci)
        as [c | ].
      * exists c. split; [ reflexivity | ].
        destruct Hspec as (_ & Hin & Hall). destruct (Hall d Hd) as [Hle _].
        destruct Hin as [E0 | [E0 | [E0 | [E0 | []]]]];
          [ left; symmetry; exact E0 | right; symmetry; exact E0 | exfalso | exfalso ];
          rewrite <- E0 in Hle; destruct Htype as [E | E]; rewrite E in Hle;
          vm_compute in Hle; lia.
      * exfalso. apply (Hspec d Hd).
        destruct Htype as [-> | ->]; simpl; auto.
    + intros (c & Hc & Htype).
      assert (Hin : In c (ClarityImprovement.changes ci)).
      { destruct (ClarityImprovement.changes ci) as [ | first rest ] eqn:Ech;
          [ discriminate | ].
        destruct (ClarityImprovement.firstByPriority ClarityImprovement.priorityOrder ci)
          as [c' | ]; injection Hc as <-; [ apply Hspec | simpl; auto ]. }
      exists c. split; [ exact Hin | ].
      apply orb_true_iff. rewrite !String.eqb_eq. exact Htype.
Qed.

(** ** The model on concrete inputs *)

Example split_ws_fields :
  JS.split_ws " so  I was " = [EmptyString; "so"; "I"; "was"; EmptyString]
  /\ JS.split_ws EmptyString = [EmptyString]
  /\ JS.split_ws (JS.trim "  so I  was ") = ["so"; "I"; "was"].
Proof. repeat split; reflexivity. Qed.

Example stringify_parameters :
  Params.stringify [("tone", "as-is")]
  = "{" ++ Params.quoteJSON "tone" ++ ":" ++ Params.quoteJSON "as-is" ++ "}"
  /\ String.length (Params.stringify defaultOrder) = 55%nat.
Proof. split; reflexivity. Qed.

Example confidence_values :
  AIService._calculateConfidenceScore "so I was at this place today"
    "I visited a place today" = 1%Q
  /\ AIService._calculateConfidenceScore "hello world" "better text" = (7 # 10)%Q
  /\ AIService._calculateConfidenceScore "one" "two three"
     = (7205759403792793 # 9007199254740992)%Q
  /\ AIService._calculateConfidenceScore "big hello world" "hello world today"
     = (2026619832316723 # 2251799813685248)%Q
  /\ AIService._calculateConfidenceScore "hello" EmptyString = 0%Q.
Proof. vm_compute. repeat split. Qed.

Example words_and_tokens :
  Spec.words " so  I was " = ["so"; "I"; "was"]
  /\ Spec.lowercase "So I WAS" = "so i was"
  /\ hasEmptyToken " so  I was " = true
  /\ hasEmptyToken "so I was" = false
  /\ size (tokenSet " so  I was ") = 4%nat.
Proof. vm_compute. repeat split. Qed.

Example fifteen_analyses :
  let '(rs, w) := analyzeAll answeringHost fifteen initial in
  length (successes rs) = 15%nat
  /\ map entry_originalText (analysisHistory (ta w))
     = ["note 15"; "note 14"; "note 13"; "note 12"; "note 11"; "note 10"; "note 9";
        "note 8"; "note 7"; "note 6"]
  /\ length (sessions (ai w)) = 1%nat.
Proof. vm_compute. repeat split; reflexivity. Qed.
